(** * HVAC-Calc: a shallow embedding of the calculators

    The repository is a suite of React components, one per calculator.  Each
    component keeps its text inputs in [useState<string>] slots, and its
    [calculate...] handler reads them, parses them with [parseFloat], evaluates
    closed formulas on JavaScript numbers and hands a record to [setResult].

    The embedding keeps that shape.  The arithmetic is written once, over an
    interface of JavaScript numbers ([JSNumber], [JSMath]), and read in two
    ways: over the reals extended with a not-a-number element ([number], the
    exact reading used for the algebraic properties) and over IEEE-754
    binary64 ([float], the bit-level reading used to evaluate the rational
    formulas). *)

From Stdlib Require Import Reals Lra Lia ZArith Bool List Sorted String Ascii.
From Stdlib Require Psatz Floats Uint63.
Import ListNotations.

Declare Scope js_scope.
Delimit Scope js_scope with js.

(** ** JavaScript numbers *)

Module JS.

(** The operations the calculators use on numbers.  [lit m e] is the decimal
    literal [m * 10^e] as the source spells it ([0.94] is [lit 94 (-2)]);
    [lt] and [le] are [<] and [<=], false as soon as an operand is NaN. *)
Class JSNumber (num : Type) : Type := {
  lit : Z -> Z -> num;
  NaN : num;
  add : num -> num -> num;
  sub : num -> num -> num;
  mul : num -> num -> num;
  div : num -> num -> num;
  lt : num -> num -> bool;
  le : num -> num -> bool;
  Math_abs : num -> num;
  Math_sqrt : num -> num
}.

(** What the psychrometric, duct and pressure code needs besides. *)
Class JSMath (num : Type) `{JSNumber num} : Type := {
  Math_exp : num -> num;
  Math_log : num -> num;
  Math_ceil : num -> num;
  Math_PI : num
}.

Section Derived.
Context {num : Type} `{JSNumber num}.

Definition int (z : Z) : num := lit z 0.
Definition dec (m : Z) (places : Z) : num := lit m (- places).

(** [a > b] and [a >= b] are [b < a] and [b <= a]. *)
Definition gt (a b : num) : bool := lt b a.
Definition ge (a b : num) : bool := le b a.

Definition isNaN (a : num) : bool := negb (le a a).

(** [a === b] on numbers. *)
Definition eq (a b : num) : bool := le a b && le b a.

(** Truthiness of a number: every number but 0 and NaN. *)
Definition truthy (a : num) : bool := lt a (int 0) || lt (int 0) a.

(** [a || b] on numbers. *)
Definition or_else (a b : num) : num := if truthy a then a else b.

(** [Math.min] of two numbers (the sign of a zero is not told apart). *)
Definition Math_min (a b : num) : num :=
  if isNaN a then a else if isNaN b then b else if lt b a then b else a.

(** [Math.sign]: 1, -1, or the argument itself when it is 0 or NaN. *)
Definition Math_sign (a : num) : num :=
  if lt (int 0) a then int 1 else if lt a (int 0) then int (-1) else a.

(** [Math.pow(a, n)] for a natural exponent. *)
Fixpoint Math_pow (a : num) (n : nat) : num :=
  match n with
  | O => int 1
  | S O => a
  | S k => mul a (Math_pow a k)
  end.
End Derived.

(** *** Strings and [parseFloat] *)

(** [!s] on a string: true exactly for the empty string. *)
Definition falsy (s : string) : bool :=
  match s with
  | EmptyString => true
  | String _ _ => false
  end.

Definition digit_of (c : ascii) : option Z :=
  let n := Z.of_N (N_of_ascii c) in
  if ((48 <=? n) && (n <=? 57))%Z then Some (n - 48)%Z else None.

(** The white space [parseFloat] skips, as far as it is ASCII (space, tab,
    line feed, vertical tab, form feed, carriage return).  The blanks beyond
    ASCII that it skips too are not modelled: the value of a number field
    holds none. *)
Definition is_space (c : ascii) : bool :=
  let n := N_of_ascii c in
  (N.eqb n 32 || N.eqb n 9 || N.eqb n 10 || N.eqb n 11 || N.eqb n 12 || N.eqb n 13)%bool.

Fixpoint skip_spaces (s : string) : string :=
  match s with
  | String c rest => if is_space c then skip_spaces rest else s
  | EmptyString => s
  end.

(** A leading sign: whether it is a minus, and the rest. *)
Definition read_sign (s : string) : bool * string :=
  match s with
  | String "-" rest => (true, rest)
  | String "+" rest => (false, rest)
  | _ => (false, s)
  end.

(** The longest run of decimal digits at the head of [s], accumulated onto
    [acc]: the value, the number of digits read, and the rest. *)
Fixpoint read_digits (s : string) (acc : Z) (count : Z) : Z * Z * string :=
  match s with
  | String c rest =>
      match digit_of c with
      | Some d => read_digits rest (10 * acc + d)%Z (count + 1)%Z
      | None => (acc, count, s)
      end
  | EmptyString => (acc, count, s)
  end.

(** The exponent part [e[+-]digits], 0 when there is none. *)
Definition read_exponent (s : string) : Z :=
  match s with
  | String c rest =>
      if (Ascii.eqb c "e" || Ascii.eqb c "E")%bool then
        let (neg, rest') := read_sign rest in
        let '(v, n, _) := read_digits rest' 0%Z 0%Z in
        if (n =? 0)%Z then 0%Z else if neg then (- v)%Z else v
      else 0%Z
  | EmptyString => 0%Z
  end.

(** The longest prefix of the trimmed string that is a decimal literal, as a
    mantissa and a power of ten; [None] when there is none ([parseFloat]
    answers NaN).  The literal [Infinity] is not read ([readsInfinity] tells
    when the text is one), and a decimal is read at its own value however
    large it is ([overflows] tells when binary64 has no finite number for
    it). *)
Definition parseDecimal (s : string) : option (Z * Z) :=
  let (neg, s0) := read_sign (skip_spaces s) in
  let '(ip, ni, s1) := read_digits s0 0%Z 0%Z in
  let '(m, nf, s2) :=
    match s1 with
    | String "." rest => read_digits rest ip 0%Z
    | _ => (ip, 0%Z, s1)
    end in
  if (ni + nf =? 0)%Z then None
  else Some (if neg then (- m)%Z else m, (read_exponent s2 - nf)%Z).

Definition parseFloat {num : Type} `{JSNumber num} (s : string) : num :=
  match parseDecimal s with
  | Some (m, e) => lit m e
  | None => NaN
  end.

(** Whether the text is one [parseFloat] reads as an infinity: white space, a
    sign and the literal [Infinity], which [parseDecimal] does not read. *)
Definition readsInfinity (s : string) : bool :=
  let (_, s0) := read_sign (skip_spaces s) in
  String.prefix "Infinity" s0.

(** Whether the decimal [parseFloat] reads is beyond the range of binary64,
    so that [parseFloat] answers an infinity: its magnitude is at least
    2^1024 - 2^970, half way between the largest double and 2^1024. *)
Definition overflows (s : string) : bool :=
  match parseDecimal s with
  | Some (m, e) =>
      let bound := (2 ^ 1024 - 2 ^ 970)%Z in
      if (0 <=? e)%Z then (bound <=? Z.abs m * 10 ^ e)%Z
      else (bound * 10 ^ (- e) <=? Z.abs m)%Z
  | None => false
  end.

(** *** The exact reading: reals and NaN

    A finite number is a real; every non-finite outcome (a division by zero,
    the square root of a negative number, the logarithm of a non-positive
    one, a failed parse) is the single element [NotANumber].  Rounding and
    overflow are not part of this reading: a statement over [number] is a
    statement in exact arithmetic, and a text that [readsInfinity] or
    [overflows] has no counterpart in it. *)
Inductive number : Type :=
  | Num (r : R)
  | NotANumber.

Definition lift2 (f : R -> R -> R) (a b : number) : number :=
  match a, b with
  | Num x, Num y => Num (f x y)
  | _, _ => NotANumber
  end.

Definition number_div (a b : number) : number :=
  match a, b with
  | Num x, Num y => if Req_dec_T y 0 then NotANumber else Num (x / y)
  | _, _ => NotANumber
  end.

Definition number_lt (a b : number) : bool :=
  match a, b with
  | Num x, Num y => if Rlt_dec x y then true else false
  | _, _ => false
  end.

Definition number_le (a b : number) : bool :=
  match a, b with
  | Num x, Num y => if Rle_dec x y then true else false
  | _, _ => false
  end.

Definition number_abs (a : number) : number :=
  match a with
  | Num x => Num (Rabs x)
  | NotANumber => NotANumber
  end.

Definition number_sqrt (a : number) : number :=
  match a with
  | Num x => if Rlt_dec x 0 then NotANumber else Num (sqrt x)
  | NotANumber => NotANumber
  end.

(** The literal [m * 10^e]: an integer, or the decimal fraction with [-e]
    places. *)
Definition number_lit (m e : Z) : number :=
  Num (match e with
       | Zneg places => Q2R (QArith_base.Qmake m (Pos.pow 10 places))
       | _ => IZR (m * 10 ^ e)
       end).

#[export] Instance number_JSNumber : JSNumber number := {
  lit := number_lit;
  NaN := NotANumber;
  add := lift2 Rplus;
  sub := lift2 Rminus;
  mul := lift2 Rmult;
  div := number_div;
  lt := number_lt;
  le := number_le;
  Math_abs := number_abs;
  Math_sqrt := number_sqrt
}.

Definition number_exp (a : number) : number :=
  match a with
  | Num x => Num (exp x)
  | NotANumber => NotANumber
  end.

Definition number_log (a : number) : number :=
  match a with
  | Num x => if Rlt_dec 0 x then Num (ln x) else NotANumber
  | NotANumber => NotANumber
  end.

Definition number_ceil (a : number) : number :=
  match a with
  | Num x => Num (IZR (Zceil x))
  | NotANumber => NotANumber
  end.

#[export] Instance number_JSMath : JSMath number := {
  Math_exp := number_exp;
  Math_log := number_log;
  Math_ceil := number_ceil;
  Math_PI := Num PI
}.

(** [x.toFixed(1)], as the number of tenths it prints: the nearest tenth,
    the larger one in magnitude on a tie. *)
Definition toFixed1 (a : number) : option Z :=
  match a with
  | Num x =>
      Some (if Rlt_dec x 0 then (- Zfloor (- x * 10 + / 2))%Z
            else Zfloor (x * 10 + / 2))
  | NotANumber => None
  end.

(** *** The bit-level reading: IEEE-754 binary64 *)

Definition float_of_Z (z : Z) : PrimFloat.float :=
  match z with
  | Z0 => PrimFloat.zero
  | Zpos _ => PrimFloat.of_uint63 (Uint63.of_Z z)
  | Zneg p => PrimFloat.opp (PrimFloat.of_uint63 (Uint63.of_Z (Zpos p)))
  end.

(** A decimal literal whose mantissa and power of ten are below 2^53 is the
    correctly rounded quotient or product of two exact doubles. *)
Definition float_lit (m e : Z) : PrimFloat.float :=
  if (0 <=? e)%Z then PrimFloat.mul (float_of_Z m) (float_of_Z (10 ^ e))
  else PrimFloat.div (float_of_Z m) (float_of_Z (10 ^ (- e))).

#[export] Instance float_JSNumber : JSNumber PrimFloat.float := {
  lit := float_lit;
  NaN := PrimFloat.nan;
  add := PrimFloat.add;
  sub := PrimFloat.sub;
  mul := PrimFloat.mul;
  div := PrimFloat.div;
  lt := PrimFloat.ltb;
  le := PrimFloat.leb;
  Math_abs := PrimFloat.abs;
  Math_sqrt := PrimFloat.sqrt
}.

End JS.

Export JS.

Notation "a + b" := (add a b) : js_scope.
Notation "a - b" := (sub a b) : js_scope.
Notation "a * b" := (mul a b) : js_scope.
Notation "a / b" := (div a b) : js_scope.
Notation "a <? b" := (lt a b) (at level 70) : js_scope.
Notation "a <=? b" := (le a b) (at level 70) : js_scope.
Notation "a >? b" := (gt a b) (at level 70) : js_scope.
Notation "a >=? b" := (ge a b) (at level 70) : js_scope.

(** ** What a click on a calculate button does

    A handler either returns before it computes anything ([Skipped]), calls
    [setResult] with a record ([Produced]), or fails on a property access of
    [undefined] ([Threw]). *)
Inductive outcome (A : Type) : Type :=
  | Skipped
  | Produced (r : A)
  | Threw.
Arguments Skipped {A}.
Arguments Produced {A} r.
Arguments Threw {A}.

(** [setResult] stores the record; nothing else of the state changes. *)
Definition setResult {S A : Type} (store : S -> A -> S) (s : S) (o : outcome A) : S :=
  match o with
  | Produced r => store s r
  | Skipped | Threw => s
  end.

(** ** Loops

    [while fuel cond body s] runs [while (cond) body] from the state [s] for at
    most [fuel] executions of the body; [None] when the condition still holds
    after that.  [iterates cond body n s t] says the loop started in [s] stops
    in [t] after exactly [n] executions of the body. *)
Fixpoint while {S : Type} (fuel : nat) (cond : S -> bool) (body : S -> S) (s : S)
  : option S :=
  if cond s then
    match fuel with
    | O => None
    | Datatypes.S n => while n cond body (body s)
    end
  else Some s.

Inductive iterates {S : Type} (cond : S -> bool) (body : S -> S)
  : nat -> S -> S -> Prop :=
  | iterates_stop : forall s, cond s = false -> iterates cond body O s s
  | iterates_step : forall n s t,
      cond s = true -> iterates cond body n (body s) t ->
      iterates cond body (Datatypes.S n) s t.

(** The climate-zone table shared by the filter and psychrometric components:
    [CLIMATE_ZONES[key].cfmPerTon], [None] for a key that is not in the table. *)
Definition CLIMATE_ZONES_cfmPerTon (key : string) : option Z :=
  if String.eqb key "hot-humid" then Some 350%Z
  else if String.eqb key "moist" then Some 400%Z
  else if String.eqb key "dry" then Some 450%Z
  else if String.eqb key "marine" then Some 400%Z
  else None.

(** ** CapacitorCalculator.tsx *)

Module Capacitor.
Section WithNumbers.
Context {num : Type} `{JSNumber num}.
Local Open Scope js_scope.

Record Tolerance : Type := { min : num; max : num }.

Record RatedComparison : Type := {
  value : num;
  withinRange : bool;
  percentDeviation : num
}.

Record CapacitorResult : Type := {
  capacitance : num;
  tolerance : Tolerance;
  ratedComparison : option RatedComparison
}.

Record Inputs : Type := {
  startWinding : string;
  voltage : string;
  ratedCapacitance : string
}.

Record State : Type := { inputs : Inputs; result : option CapacitorResult }.

Definition calculateCapacitance (s : State) : outcome CapacitorResult :=
  let i := inputs s in
  if falsy (startWinding i) || falsy (voltage i) then Skipped
  else
    let current := parseFloat (startWinding i) in
    let volts := parseFloat (voltage i) in
    (* C = (2653 x I) / V *)
    let capacitance := (int 2653 * current) / volts in
    (* Industry standard tolerance is +-6% *)
    let tolerance := {| min := capacitance * dec 94 2;
                        max := capacitance * dec 106 2 |} in
    let ratedComparison :=
      if falsy (ratedCapacitance i) then None
      else
        let value := parseFloat (ratedCapacitance i) in
        let deviation := ((capacitance - value) / value) * int 100 in
        Some {| value := value;
                withinRange := Math_abs deviation <=? int 6;
                percentDeviation := deviation |} in
    Produced {| capacitance := capacitance;
                tolerance := tolerance;
                ratedComparison := ratedComparison |}.

Definition onClick (s : State) : State :=
  setResult (fun s r => {| inputs := inputs s; result := Some r |})
            s (calculateCapacitance s).
End WithNumbers.
Arguments Tolerance : clear implicits.
Arguments RatedComparison : clear implicits.
Arguments CapacitorResult : clear implicits.
Arguments State : clear implicits.
End Capacitor.

(** ** MoldRiskCalculator.tsx *)

Module MoldRisk.
Section WithNumbers.
Context {num : Type} `{JSMath num}.
Local Open Scope js_scope.

Inductive RiskLevel : Type := Low | Moderate | High | Severe.

(** The four advisory strings of [getRecommendations]. *)
Inductive Recommendation : Type :=
  | ReduceHumidity        (* Reduce indoor relative humidity below 60% ... *)
  | PreventCondensation   (* Increase air temperature or improve insulation ... *)
  | ImproveVentilation    (* Improve ventilation to reduce moisture accumulation *)
  | RepairLeaks           (* Inspect for and repair any water leaks or intrusion *)
  | ContinuousDehumidification. (* Consider using continuous dehumidification *)

Record MoldRiskResult : Type := {
  dewPoint : num;
  vaporPressure : num;
  absoluteHumidity : num;
  riskLevel : RiskLevel;
  daysToMold : option num;
  recommendations : list Recommendation
}.

Record Inputs : Type := { dryBulb : string; relativeHumidity : string }.

Record State : Type := { inputs : Inputs; result : option MoldRiskResult }.

Definition WATER_VAPOR_CONSTANT : num := dec 17625 3.
Definition WATER_VAPOR_TEMP_CONSTANT : num := dec 24304 2.

Definition calculateDewPoint (t rh : num) : num :=
  let alpha := Math_log (rh / int 100)
               + (WATER_VAPOR_CONSTANT * t) / (WATER_VAPOR_TEMP_CONSTANT + t) in
  (WATER_VAPOR_TEMP_CONSTANT * alpha) / (WATER_VAPOR_CONSTANT - alpha).

Definition calculateVaporPressure (t : num) : num :=
  dec 611 2 * Math_exp ((WATER_VAPOR_CONSTANT * t) / (WATER_VAPOR_TEMP_CONSTANT + t)).

Definition calculateAbsoluteHumidity (t rh : num) : num :=
  let vp := calculateVaporPressure t in
  (dec 216679 5 * rh * vp) / (dec 27315 2 + t).

Definition calculateRiskLevel (t rh : num) : RiskLevel * option num :=
  if rh <? int 60 then (Low, None)
  else if rh <? int 70 then (Moderate, Some (int 30))
  else if rh <? int 80 then (High, Some (int 14))
  else (Severe, Some (int 7)).

Definition isLow (l : RiskLevel) : bool :=
  match l with Low => true | _ => false end.

Definition getRecommendations (t rh dewPoint : num) (riskLevel : RiskLevel)
  : list Recommendation :=
  (if rh >? int 60 then [ReduceHumidity] else [])
  ++ (if (t - dewPoint) <? int 4 then [PreventCondensation] else [])
  ++ (if negb (isLow riskLevel) then [ImproveVentilation; RepairLeaks] else [])
  ++ (if rh >? int 70 then [ContinuousDehumidification] else []).

Definition calculateMoldRisk (s : State) : outcome MoldRiskResult :=
  let i := inputs s in
  if falsy (dryBulb i) || falsy (relativeHumidity i) then Skipped
  else
    let temp := parseFloat (dryBulb i) in
    let rh := parseFloat (relativeHumidity i) in
    let dewPoint := calculateDewPoint temp rh in
    let vaporPressure := calculateVaporPressure temp in
    let absoluteHumidity := calculateAbsoluteHumidity temp rh in
    let risk := calculateRiskLevel temp rh in
    let recommendations := getRecommendations temp rh dewPoint (fst risk) in
    Produced {| dewPoint := dewPoint;
                vaporPressure := vaporPressure;
                absoluteHumidity := absoluteHumidity;
                riskLevel := fst risk;
                daysToMold := snd risk;
                recommendations := recommendations |}.

Definition onClick (s : State) : State :=
  setResult (fun s r => {| inputs := inputs s; result := Some r |})
            s (calculateMoldRisk s).
End WithNumbers.
Arguments MoldRiskResult : clear implicits.
Arguments State : clear implicits.
End MoldRisk.

(** ** DehumidifierCalculator (second component of
       "System Performance Calculator.tsx") *)

Module Dehumidifier.
Section WithNumbers.
Context {num : Type} `{JSNumber num}.
Local Open Scope js_scope.

Inductive Warning : Type :=
  | LowTemperature      (* Low temperature will reduce dehumidifier efficiency *)
  | LowHumidity         (* Low relative humidity will reduce moisture removal rate *)
  | ExceedsLargestUnit  (* Required capacity exceeds largest standard residential unit ... *)
  | HighHumidity.       (* High relative humidity may require additional run time ... *)

(** [recommendedSize] is the chosen size; the component prints it followed
    by " PPD". *)
Record DehumidifierResult : Type := {
  requiredCapacity : num;
  pintsPerDay : num;
  recommendedSize : num;
  warnings : list Warning
}.

Record Inputs : Type := { latentLoad : string; indoorTemp : string; indoorRH : string }.

Record State : Type := { inputs : Inputs; result : option DehumidifierResult }.

Definition BTU_TO_PINTS : num := dec 833 4.
Definition SAFETY_FACTOR : num := dec 12 1.

Definition STANDARD_SIZES_Z : list Z := [20; 30; 35; 50; 70; 90; 120; 150; 180; 250]%Z.
Definition STANDARD_SIZES : list num := map int STANDARD_SIZES_Z.

(** [STANDARD_SIZES[STANDARD_SIZES.length - 1]] *)
Definition largestSize : num := last STANDARD_SIZES NaN.

Definition calculateDehumidifierSize (s : State) : outcome DehumidifierResult :=
  let i := inputs s in
  if falsy (latentLoad i) || falsy (indoorTemp i) || falsy (indoorRH i) then Skipped
  else
    let latentBTU := parseFloat (latentLoad i) in
    let temp := parseFloat (indoorTemp i) in
    let rh := parseFloat (indoorRH i) in
    (* base capacity in pints per day *)
    let pintsPerDay := latentBTU * BTU_TO_PINTS * int 24 in
    (* temperature derating *)
    let capacityFactor0 := int 1 in
    let capacityFactor1 :=
      if temp <? int 65 then capacityFactor0 * dec 7 1
      else if temp <? int 70 then capacityFactor0 * dec 85 2
      else capacityFactor0 in
    let warnings1 := if temp <? int 65 then [LowTemperature] else [] in
    (* humidity derating *)
    let capacityFactor :=
      if rh <? int 60 then capacityFactor1 * dec 8 1 else capacityFactor1 in
    let warnings2 := if rh <? int 60 then [LowHumidity] else [] in
    let requiredCapacity := (pintsPerDay / capacityFactor) * SAFETY_FACTOR in
    (* the next largest standard size, or the largest one *)
    let recommendedSize :=
      match find (fun size => size >=? requiredCapacity) STANDARD_SIZES with
      | Some size => size
      | None => largestSize
      end in
    let warnings3 :=
      if recommendedSize <? requiredCapacity then [ExceedsLargestUnit] else [] in
    let warnings4 := if rh >? int 65 then [HighHumidity] else [] in
    Produced {| requiredCapacity := requiredCapacity;
                pintsPerDay := pintsPerDay;
                recommendedSize := recommendedSize;
                warnings := warnings1 ++ warnings2 ++ warnings3 ++ warnings4 |}.

Definition onClick (s : State) : State :=
  setResult (fun s r => {| inputs := inputs s; result := Some r |})
            s (calculateDehumidifierSize s).
End WithNumbers.
Arguments DehumidifierResult : clear implicits.
Arguments State : clear implicits.
End Dehumidifier.

(** ** AtticVentilationCalculator.tsx *)

Module Attic.
Section WithNumbers.
Context {num : Type} `{JSNumber num}.
Local Open Scope js_scope.

Inductive VentilationStatus : Type := Adequate | Inadequate | Critical.

Inductive Warning : Type :=
  | HighTemperatureDifferential
  | CriticalTemperatureDifferential
  | HighPressureDifferential
  | HighMoisture
  | BelowMinimumCode.

(** The amounts are the numbers the strings print with [toFixed(1)]. *)
Inductive Recommendation : Type :=
  | IncreaseVentilationArea
  | AddIntake (sqft : num)
  | AddExhaust (sqft : num)
  | InstallIntake (sqft : num)
  | InstallExhaust (sqft : num)
  | MoreExhaust
  | MoreIntake.

Record VentArea : Type := { intake : num; exhaust : num }.

Record VentilationResult : Type := {
  pressureDifferential : num;
  temperatureDifferential : num;
  dewPointDifferential : num;
  stackEffect : num;
  requiredVentArea : VentArea;
  recommendations : list Recommendation;
  warnings : list Warning;
  ventilationStatus : VentilationStatus
}.

Record Inputs : Type := {
  pressureDifferentialText : string;
  outdoorTemp : string;
  outdoorDewPoint : string;
  atticTemp : string;
  atticDewPoint : string;
  atticArea : string;
  existingIntakeArea : string;
  existingExhaustArea : string
}.

Record State : Type := { inputs : Inputs; result : option VentilationResult }.

Definition STACK_EFFECT_COEFFICIENT : num := dec 188 4.
Definition MIN_VENT_RATIO : num := int 1 / int 300.
Definition RECOMMENDED_VENT_RATIO : num := int 1 / int 150.
Definition INTAKE_TO_EXHAUST_RATIO : num := dec 15 1.

(** The required intake and exhaust areas of an attic of the given area. *)
Definition requiredAreas (area : num) : VentArea :=
  let recommendedVentArea := area * RECOMMENDED_VENT_RATIO in
  let totalRequiredVentArea := recommendedVentArea in
  let requiredIntake := (totalRequiredVentArea * INTAKE_TO_EXHAUST_RATIO)
                        / (int 1 + INTAKE_TO_EXHAUST_RATIO) in
  let requiredExhaust := totalRequiredVentArea - requiredIntake in
  {| intake := requiredIntake; exhaust := requiredExhaust |}.

Definition calculateVentilation (s : State) : outcome VentilationResult :=
  let i := inputs s in
  if falsy (pressureDifferentialText i) || falsy (outdoorTemp i)
     || falsy (outdoorDewPoint i) || falsy (atticTemp i)
     || falsy (atticDewPoint i) || falsy (atticArea i) then Skipped
  else
    let pressure := parseFloat (pressureDifferentialText i) in
    let outTemp := parseFloat (outdoorTemp i) in
    let outDP := parseFloat (outdoorDewPoint i) in
    let attTemp := parseFloat (atticTemp i) in
    let attDP := parseFloat (atticDewPoint i) in
    let area := parseFloat (atticArea i) in
    let existingIntake :=
      if falsy (existingIntakeArea i) then int 0 else parseFloat (existingIntakeArea i) in
    let existingExhaust :=
      if falsy (existingExhaustArea i) then int 0 else parseFloat (existingExhaustArea i) in
    let tempDiff := attTemp - outTemp in
    let dewPointDiff := attDP - outDP in
    (* stack effect (natural convection) *)
    let stackEffect := STACK_EFFECT_COEFFICIENT * area * Math_sqrt (Math_abs tempDiff)
                       * Math_sign tempDiff in
    let minVentArea := area * MIN_VENT_RATIO in
    let recommendedVentArea := area * RECOMMENDED_VENT_RATIO in
    let required := requiredAreas area in
    let requiredIntake := intake required in
    let requiredExhaust := exhaust required in
    (* the status is overwritten by each check that fires, in this order *)
    let status0 := Adequate in
    let status1 := if tempDiff >? int 20 then Inadequate else status0 in
    let status2 := if tempDiff >? int 30 then Critical else status1 in
    let status3 := if Math_abs pressure >? int 2 then Inadequate else status2 in
    let status4 := if dewPointDiff >? int 5 then Inadequate else status3 in
    let warnings1 :=
      (if tempDiff >? int 20 then [HighTemperatureDifferential] else [])
      ++ (if tempDiff >? int 30 then [CriticalTemperatureDifferential] else [])
      ++ (if Math_abs pressure >? int 2 then [HighPressureDifferential] else [])
      ++ (if dewPointDiff >? int 5 then [HighMoisture] else []) in
    let existing := truthy existingIntake && truthy existingExhaust in
    let totalExisting := existingIntake + existingExhaust in
    let belowMinimum := existing && (totalExisting <? minVentArea) in
    let status5 := if belowMinimum then Critical else status4 in
    let warnings2 := if belowMinimum then [BelowMinimumCode] else [] in
    let recommendations1 :=
      if existing then
        (if totalExisting <? minVentArea then []
         else if totalExisting <? recommendedVentArea then [IncreaseVentilationArea]
         else [])
        ++ (if existingIntake <? requiredIntake
            then [AddIntake (requiredIntake - existingIntake)] else [])
        ++ (if existingExhaust <? requiredExhaust
            then [AddExhaust (requiredExhaust - existingExhaust)] else [])
      else [InstallIntake requiredIntake; InstallExhaust requiredExhaust] in
    let recommendations2 :=
      if pressure >? int 0 then [MoreExhaust]
      else if pressure <? int 0 then [MoreIntake]
      else [] in
    Produced {| pressureDifferential := pressure;
                temperatureDifferential := tempDiff;
                dewPointDifferential := dewPointDiff;
                stackEffect := stackEffect;
                requiredVentArea := required;
                recommendations := recommendations1 ++ recommendations2;
                warnings := warnings1 ++ warnings2;
                ventilationStatus := status5 |}.

Definition onClick (s : State) : State :=
  setResult (fun s r => {| inputs := inputs s; result := Some r |})
            s (calculateVentilation s).
End WithNumbers.
Arguments Recommendation : clear implicits.
Arguments VentArea : clear implicits.
Arguments VentilationResult : clear implicits.
Arguments State : clear implicits.
End Attic.

(** ** PsychrometricCalculator of "System Performance Calculator.tsx"
       (lines 1-451): the wet-bulb loop has no iteration cap *)

Module Psychrometric.
Section WithNumbers.
Context {num : Type} `{JSMath num}.
Local Open Scope js_scope.

Inductive HumidityType : Type := RH | WB | DP.

Record PsychrometricResult : Type := {
  enteringWetBulb : num;
  enteringDewPoint : num;
  enteringRH : num;
  enteringEnthalpy : num;
  leavingWetBulb : num;
  leavingDewPoint : num;
  leavingRH : num;
  leavingEnthalpy : num;
  sensibleBtuh : num;
  latentBtuh : num;
  totalBtuh : num;
  shr : num;
  targetTemp : num;
  nominalCapacity : num
}.

Record Inputs : Type := {
  systemSize : string;
  climateZone : string;
  airflow : string;
  enteringDryBulb : string;
  enteringHumidity : string;
  enteringHumidityType : HumidityType;
  leavingDryBulb : string;
  leavingHumidity : string;
  leavingHumidityType : HumidityType
}.

Record State : Type := { inputs : Inputs; result : option PsychrometricResult }.

Definition ATMOSPHERIC_PRESSURE : num := dec 14696 3. (* psia *)
Definition WATER_VAPOR_CONSTANT : num := dec 17625 3.
Definition WATER_VAPOR_TEMP_CONSTANT : num := dec 24304 2.
Definition AIR_DENSITY : num := dec 75 3.
Definition SPECIFIC_HEAT : num := dec 24 2.
Definition LATENT_HEAT : num := int 1061.

Definition calculateSaturationPressure (t : num) : num :=
  let celsius := (t - int 32) * int 5 / int 9 in
  dec 611 2 * Math_exp ((WATER_VAPOR_CONSTANT * celsius)
                        / (WATER_VAPOR_TEMP_CONSTANT + celsius)).

(** The variables of the wet-bulb loop. *)
Record WetBulbVars : Type := { wb : num; error : num }.

Definition wetBulbCond (v : WetBulbVars) : bool :=
  Math_abs (error v) >? dec 1 2.

Definition wetBulbBody (db pw : num) (v : WetBulbVars) : WetBulbVars :=
  let pwsWb := calculateSaturationPressure (wb v) in
  let w := (dec 622 3 * pw) / (ATMOSPHERIC_PRESSURE - pw) in
  let wSat := (dec 622 3 * pwsWb) / (ATMOSPHERIC_PRESSURE - pwsWb) in
  let error := (db - wb v) - ((wSat - w) * int 1093) in
  {| wb := wb v + error / int 100; error := error |}.

Definition wetBulbInit (db : num) : WetBulbVars := {| wb := db; error := int 1 |}.

(** [calculateWetBulb]: [None] when the loop has not stopped after [fuel]
    executions of its body. *)
Definition calculateWetBulb (fuel : nat) (db rh : num) : option num :=
  let pws := calculateSaturationPressure db in
  let pw := (rh / int 100) * pws in
  option_map wb (while fuel wetBulbCond (wetBulbBody db pw) (wetBulbInit db)).

Definition calculateDewPoint (db rh : num) : num :=
  let celsius := (db - int 32) * int 5 / int 9 in
  let alpha := Math_log (rh / int 100)
               + (WATER_VAPOR_CONSTANT * celsius) / (WATER_VAPOR_TEMP_CONSTANT + celsius) in
  let dewPointC := (WATER_VAPOR_TEMP_CONSTANT * alpha) / (WATER_VAPOR_CONSTANT - alpha) in
  (dewPointC * int 9 / int 5) + int 32.

Definition calculateHumidityRatio (db rh : num) : num :=
  let pws := calculateSaturationPressure db in
  let pw := (rh / int 100) * pws in
  (dec 622 3 * pw) / (ATMOSPHERIC_PRESSURE - pw).

Definition calculateEnthalpy (db w : num) : num :=
  SPECIFIC_HEAT * db + w * (LATENT_HEAT + dec 444 3 * db).

Definition calculateRHFromWetBulb (db wb : num) : num :=
  let pwsDb := calculateSaturationPressure db in
  let pwsWb := calculateSaturationPressure wb in
  let w := ((int 1093 - dec 556 3 * wb) * pwsWb
            - dec 24 2 * (db - wb) * ATMOSPHERIC_PRESSURE)
           / ((int 1093 + dec 444 3 * db - wb) * ATMOSPHERIC_PRESSURE) in
  let pw := (w * ATMOSPHERIC_PRESSURE) / (dec 622 3 + w) in
  (pw / pwsDb) * int 100.

Definition calculateTargetTemperature (i : Inputs) (tons cfm : num) : num :=
  let nominalCapacity := tons * int 12000 in
  let shr := dec 8 1 in
  let sensibleCapacity := nominalCapacity * shr in
  if falsy (enteringDryBulb i) then int 75
  else parseFloat (enteringDryBulb i) - (sensibleCapacity / (dec 108 2 * cfm)).

(** The relative humidity the component works with, from the humidity field
    and its kind. *)
Definition resolveRH (kind : HumidityType) (db : num) (humidity : string) : num :=
  match kind with
  | RH => parseFloat humidity
  | WB => calculateRHFromWetBulb db (parseFloat humidity)
  | DP =>
      let dp := parseFloat humidity in
      let pwsDp := calculateSaturationPressure dp in
      let pwsDb := calculateSaturationPressure db in
      (pwsDp / pwsDb) * int 100
  end.

(** [calculateProperties]: [None] when one of its two wet-bulb loops has not
    stopped within [fuel] executions of its body. *)
Definition calculateProperties (fuel : nat) (s : State)
  : option (outcome PsychrometricResult) :=
  let i := inputs s in
  if falsy (enteringDryBulb i) || falsy (enteringHumidity i)
     || falsy (leavingDryBulb i) || falsy (leavingHumidity i)
     || falsy (airflow i) || falsy (systemSize i) then Some Skipped
  else
    let cfm := parseFloat (airflow i) in
    let tons := parseFloat (systemSize i) in
    let nominalBtuh := tons * int 12000 in
    let targetTemp := calculateTargetTemperature i tons cfm in
    let enteringDB := parseFloat (enteringDryBulb i) in
    let enteringRH := resolveRH (enteringHumidityType i) enteringDB (enteringHumidity i) in
    match calculateWetBulb fuel enteringDB enteringRH with
    | None => None
    | Some enteringWB =>
        let enteringW := calculateHumidityRatio enteringDB enteringRH in
        let enteringH := calculateEnthalpy enteringDB enteringW in
        let enteringDP := calculateDewPoint enteringDB enteringRH in
        let leavingDB := parseFloat (leavingDryBulb i) in
        let leavingRH := resolveRH (leavingHumidityType i) leavingDB (leavingHumidity i) in
        match calculateWetBulb fuel leavingDB leavingRH with
        | None => None
        | Some leavingWB =>
            let leavingW := calculateHumidityRatio leavingDB leavingRH in
            let leavingH := calculateEnthalpy leavingDB leavingW in
            let leavingDP := calculateDewPoint leavingDB leavingRH in
            let airMassFlow := cfm * int 60 * AIR_DENSITY in
            let sensibleBtuh := airMassFlow * SPECIFIC_HEAT * (enteringDB - leavingDB) in
            let totalBtuh := airMassFlow * (enteringH - leavingH) in
            let latentBtuh := totalBtuh - sensibleBtuh in
            let shr := sensibleBtuh / totalBtuh in
            Some (Produced {| enteringWetBulb := enteringWB;
                              enteringDewPoint := enteringDP;
                              enteringRH := enteringRH;
                              enteringEnthalpy := enteringH;
                              leavingWetBulb := leavingWB;
                              leavingDewPoint := leavingDP;
                              leavingRH := leavingRH;
                              leavingEnthalpy := leavingH;
                              sensibleBtuh := sensibleBtuh;
                              latentBtuh := latentBtuh;
                              totalBtuh := totalBtuh;
                              shr := shr;
                              targetTemp := targetTemp;
                              nominalCapacity := nominalBtuh |})
        end
    end.

Definition onClick (fuel : nat) (s : State) : option State :=
  option_map (setResult (fun s r => {| inputs := inputs s; result := Some r |}) s)
             (calculateProperties fuel s).

(** [getRecommendedCFM]: the number the hint under the airflow field prints
    with [toFixed(0)]; [None] for the empty string it returns when the system
    size or the climate zone is not chosen.  A zone that is not in the table
    counts as 400 CFM per ton. *)
Definition getRecommendedCFM (i : Inputs) : option num :=
  if falsy (systemSize i) || falsy (climateZone i) then None
  else
    let tons := parseFloat (systemSize i) in
    let cfmPerTon :=
      match CLIMATE_ZONES_cfmPerTon (climateZone i) with
      | Some c => int c
      | None => int 400
      end in
    Some (tons * cfmPerTon).
End WithNumbers.
Arguments PsychrometricResult : clear implicits.
Arguments WetBulbVars : clear implicits.
Arguments State : clear implicits.
End Psychrometric.

(** ** PsychrometricCalculator of the second unnamed source file
       (lines 382-922): the wet-bulb loop stops after 100 iterations *)

Module PsychrometricCapped.
Section WithNumbers.
Context {num : Type} `{JSMath num}.
Local Open Scope js_scope.

Inductive HumidityType : Type := RH | WB | DP.

Record PsychrometricResult : Type := {
  enteringWetBulb : num;
  enteringDewPoint : num;
  enteringRH : num;
  enteringEnthalpy : num;
  enteringHumidityRatio : num;
  leavingWetBulb : num;
  leavingDewPoint : num;
  leavingRH : num;
  leavingEnthalpy : num;
  leavingHumidityRatio : num;
  sensibleBtuh : num;
  latentBtuh : num;
  totalBtuh : num;
  sensibleHeatRatio : num;
  standardCfmPerTon : num;
  massAirflow : num;
  condensationRate : num;
  targetTemp : num;
  measuredDeltaT : num
}.

Record Inputs : Type := {
  systemSize : string;
  climateZone : string;
  airflow : string;
  enteringDryBulb : string;
  enteringHumidity : string;
  enteringHumidityType : HumidityType;
  leavingDryBulb : string;
  leavingHumidity : string;
  leavingHumidityType : HumidityType
}.

Record State : Type := { inputs : Inputs; result : option PsychrometricResult }.

Definition ATMOSPHERIC_PRESSURE : num := dec 14696 3. (* psia *)
Definition WATER_VAPOR_CONSTANT : num := dec 17625 3.
Definition WATER_VAPOR_TEMP_CONSTANT : num := dec 24304 2.
Definition AIR_DENSITY : num := dec 75 3.
Definition SPECIFIC_HEAT : num := dec 24 2.
Definition LATENT_HEAT : num := int 1061.

(** Saturation pressure in kPa. *)
Definition calculateSaturationPressure (t : num) : num :=
  let celsius := (t - int 32) * int 5 / int 9 in
  dec 6108 4 * Math_exp ((dec 1727 2 * celsius) / (celsius + dec 2373 1)).

Definition calculateHumidityRatio (db rh : num) : num :=
  let pws := calculateSaturationPressure db in
  let pw := (rh / int 100) * pws in
  dec 622 3 * pw / (dec 101325 3 - pw).

Definition calculateEnthalpy (db w : num) : num :=
  dec 24 2 * db + w * (int 1061 + dec 444 3 * db).

(** The variables of the wet-bulb loop. *)
Record WetBulbVars : Type := { wb : num; error : num; iteration : nat }.

Definition wetBulbCond (v : WetBulbVars) : bool :=
  (Math_abs (error v) >? dec 1 2) && (iteration v <? 100)%nat.

Definition wetBulbBody (db w : num) (v : WetBulbVars) : WetBulbVars :=
  let wsSat := calculateHumidityRatio (wb v) (int 100) in
  let error := (db - wb v) - ((wsSat - w) * int 1093) in
  {| wb := wb v + error / int 100; error := error; iteration := S (iteration v) |}.

Definition wetBulbInit (db : num) : WetBulbVars :=
  {| wb := db; error := int 1; iteration := O |}.

(** [calculateWetBulb]: the loop is given as many executions of its body as
    its cap allows, so the [None] branch is never taken
    ([capped_loop_stops]). *)
Definition calculateWetBulb (db rh : num) : num :=
  let w := calculateHumidityRatio db rh in
  match while 100 wetBulbCond (wetBulbBody db w) (wetBulbInit db) with
  | Some v => wb v
  | None => NaN
  end.

Definition calculateDewPoint (db rh : num) : num :=
  let celsius := (db - int 32) * int 5 / int 9 in
  let alpha := Math_log (rh / int 100)
               + (WATER_VAPOR_CONSTANT * celsius) / (WATER_VAPOR_TEMP_CONSTANT + celsius) in
  let dewPointC := (WATER_VAPOR_TEMP_CONSTANT * alpha) / (WATER_VAPOR_CONSTANT - alpha) in
  (dewPointC * int 9 / int 5) + int 32.

Definition calculateRHFromWetBulb (db wb : num) : num :=
  let pwsDb := calculateSaturationPressure db in
  let pwsWb := calculateSaturationPressure wb in
  let w := ((int 1093 - dec 556 3 * wb) * pwsWb
            - dec 24 2 * (db - wb) * ATMOSPHERIC_PRESSURE)
           / ((int 1093 + dec 444 3 * db - wb) * ATMOSPHERIC_PRESSURE) in
  let pw := (w * ATMOSPHERIC_PRESSURE) / (dec 622 3 + w) in
  (pw / pwsDb) * int 100.

(** [CLIMATE_ZONES[climateZone]?.cfmPerTon || 400] *)
Definition cfmPerTonOr400 (climateZone : string) : num :=
  match CLIMATE_ZONES_cfmPerTon climateZone with
  | Some c => int c
  | None => int 400
  end.

Definition calculateTargetTemperature (tons enteringTemp : num) (climateZone : string)
  : num :=
  let nominalCapacity := tons * int 12000 in
  let targetSHR := dec 75 2 in
  let cfmPerTon := cfmPerTonOr400 climateZone in
  let totalCFM := tons * cfmPerTon in
  let nominalSensibleCapacity := nominalCapacity * targetSHR in
  let targetDeltaT := nominalSensibleCapacity / (dec 108 2 * totalCFM) in
  enteringTemp - targetDeltaT.

(** The relative humidity the component works with, from the humidity field
    and its kind. *)
Definition resolveRH (kind : HumidityType) (db : num) (humidity : string) : num :=
  match kind with
  | RH => Math_min (parseFloat humidity) (int 100)
  | WB => calculateRHFromWetBulb db (parseFloat humidity)
  | DP =>
      let dp := parseFloat humidity in
      let pwsDp := calculateSaturationPressure dp in
      let pwsDb := calculateSaturationPressure db in
      Math_min ((pwsDp / pwsDb) * int 100) (int 100)
  end.

Definition calculateProperties (s : State) : outcome PsychrometricResult :=
  let i := inputs s in
  if falsy (enteringDryBulb i) || falsy (enteringHumidity i)
     || falsy (leavingDryBulb i) || falsy (leavingHumidity i)
     || falsy (airflow i) || falsy (systemSize i) || falsy (climateZone i) then Skipped
  else
    let cfm := parseFloat (airflow i) in
    let tons := parseFloat (systemSize i) in
    let enteringDB := parseFloat (enteringDryBulb i) in
    let leavingDB := parseFloat (leavingDryBulb i) in
    let measuredDeltaT := enteringDB - leavingDB in
    let targetTemp := calculateTargetTemperature tons enteringDB (climateZone i) in
    let enteringRH := resolveRH (enteringHumidityType i) enteringDB (enteringHumidity i) in
    let enteringWB := calculateWetBulb enteringDB enteringRH in
    let enteringW := calculateHumidityRatio enteringDB enteringRH in
    let enteringH := calculateEnthalpy enteringDB enteringW in
    let enteringDP := calculateDewPoint enteringDB enteringRH in
    let leavingRH := resolveRH (leavingHumidityType i) leavingDB (leavingHumidity i) in
    let leavingWB := calculateWetBulb leavingDB leavingRH in
    let leavingW := calculateHumidityRatio leavingDB leavingRH in
    let leavingH := calculateEnthalpy leavingDB leavingW in
    let leavingDP := calculateDewPoint leavingDB leavingRH in
    let massAirflow := cfm * int 60 * AIR_DENSITY in
    let sensibleBtuh := massAirflow * SPECIFIC_HEAT * (enteringDB - leavingDB) in
    let totalBtuh := massAirflow * (enteringH - leavingH) in
    let latentBtuh := totalBtuh - sensibleBtuh in
    let sensibleHeatRatio := sensibleBtuh / totalBtuh in
    let standardCfmPerTon := cfm / tons in
    let condensationRate := massAirflow * (enteringW - leavingW) in
    Produced {| enteringWetBulb := enteringWB;
                enteringDewPoint := enteringDP;
                enteringRH := enteringRH;
                enteringEnthalpy := enteringH;
                enteringHumidityRatio := enteringW;
                leavingWetBulb := leavingWB;
                leavingDewPoint := leavingDP;
                leavingRH := leavingRH;
                leavingEnthalpy := leavingH;
                leavingHumidityRatio := leavingW;
                sensibleBtuh := sensibleBtuh;
                latentBtuh := latentBtuh;
                totalBtuh := totalBtuh;
                sensibleHeatRatio := sensibleHeatRatio;
                standardCfmPerTon := standardCfmPerTon;
                massAirflow := massAirflow;
                condensationRate := condensationRate;
                targetTemp := targetTemp;
                measuredDeltaT := measuredDeltaT |}.

Definition onClick (s : State) : State :=
  setResult (fun s r => {| inputs := inputs s; result := Some r |})
            s (calculateProperties s).

(** [getRecommendedCFM]: the number the hint under the airflow field prints
    with [toFixed(0)]; [None] for the empty string it returns when the system
    size or the climate zone is not chosen. *)
Definition getRecommendedCFM (i : Inputs) : option num :=
  if falsy (systemSize i) || falsy (climateZone i) then None
  else
    let tons := parseFloat (systemSize i) in
    let cfmPerTon := cfmPerTonOr400 (climateZone i) in
    Some (tons * cfmPerTon).

(** The notes of the result panel, evaluated when it is rendered, on the
    stored result and the input fields as they are then. *)
Definition showsCapacityDiffers (s : State) (r : PsychrometricResult) : bool :=
  Math_abs ((totalBtuh r / int 12000) - parseFloat (systemSize (inputs s))) >? dec 5 1.

Definition showsLowSensibleHeatRatio (r : PsychrometricResult) : bool :=
  sensibleHeatRatio r <? dec 7 1.

Definition showsLowAirflow (r : PsychrometricResult) : bool :=
  standardCfmPerTon r <? int 350.

Definition showsHighAirflow (r : PsychrometricResult) : bool :=
  standardCfmPerTon r >? int 450.

Definition showsSplitDeviates (s : State) (r : PsychrometricResult) : bool :=
  Math_abs (measuredDeltaT r
            - (parseFloat (enteringDryBulb (inputs s)) - targetTemp r)) >? int 3.
End WithNumbers.
Arguments PsychrometricResult : clear implicits.
Arguments WetBulbVars : clear implicits.
Arguments State : clear implicits.
End PsychrometricCapped.

(** ** FilterCalculator.tsx *)

Module Filter.
Section WithNumbers.
Context {num : Type} `{JSNumber num}.
Local Open Scope js_scope.

Record FilterResult : Type := {
  cfm : num;
  filterArea : num;
  fpm : num;
  initialPressureDrop : num;
  maxPressureDrop : num
}.

Record Inputs : Type := {
  systemSize : string;
  climateZone : string;
  filterWidth : string;
  filterHeight : string;
  filterType : string
}.

Record State : Type := { inputs : Inputs; result : option FilterResult }.

(** [FILTER_TYPES[key].initialPressureDrops] at 300, 350 and 400 FPM. *)
Definition FILTER_TYPES_initialPressureDrops (key : string) : option (num * num * num) :=
  if String.eqb key "fiberglass" then Some (dec 5 2, dec 8 2, dec 12 2)
  else if String.eqb key "pleated-basic" then Some (dec 8 2, dec 12 2, dec 15 2)
  else if String.eqb key "pleated-better" then Some (dec 15 2, dec 18 2, dec 22 2)
  else if String.eqb key "pleated-best" then Some (dec 20 2, dec 25 2, dec 30 2)
  else None.

(** A key that is in neither table makes the property access on
    [undefined] fail. *)
Definition calculateFilterParameters (s : State) : outcome FilterResult :=
  let i := inputs s in
  if falsy (systemSize i) || falsy (climateZone i) || falsy (filterWidth i)
     || falsy (filterHeight i) || falsy (filterType i) then Skipped
  else
    let tons := parseFloat (systemSize i) in
    let width := parseFloat (filterWidth i) in
    let height := parseFloat (filterHeight i) in
    match CLIMATE_ZONES_cfmPerTon (climateZone i) with
    | None => Threw
    | Some c =>
        let cfmPerTon := int c in
        let totalCFM := tons * cfmPerTon in
        let filterArea := (width * height) / int 144 in
        let fpm := totalCFM / filterArea in
        match FILTER_TYPES_initialPressureDrops (filterType i) with
        | None => Threw
        | Some (at300, at350, at400) =>
            let initialPressureDrop :=
              if fpm <=? int 300 then at300
              else if fpm <=? int 350 then at350
              else at400 in
            Produced {| cfm := totalCFM;
                        filterArea := filterArea;
                        fpm := fpm;
                        initialPressureDrop := initialPressureDrop;
                        maxPressureDrop := dec 15 2 |}
        end
    end.

Definition onClick (s : State) : State :=
  setResult (fun s r => {| inputs := inputs s; result := Some r |})
            s (calculateFilterParameters s).

(** The two warnings of the result panel: [result.fpm > 350] and
    [result.initialPressureDrop > (result.maxPressureDrop / 2)]. *)
Definition showsFaceVelocityWarning (r : FilterResult) : bool :=
  fpm r >? int 350.

Definition showsPressureDropWarning (r : FilterResult) : bool :=
  initialPressureDrop r >? (maxPressureDrop r / int 2).
End WithNumbers.
Arguments FilterResult : clear implicits.
Arguments State : clear implicits.
End Filter.

(** ** DuctCalculator.tsx *)

Module Duct.
Section WithNumbers.
Context {num : Type} `{JSMath num}.
Local Open Scope js_scope.

Inductive DuctType : Type := RoundMetal | RectMetal | RectBoard | RoundFlex.

(** [ductType.includes('rect')] *)
Definition includesRect (d : DuctType) : bool :=
  match d with RectMetal | RectBoard => true | RoundMetal | RoundFlex => false end.

Definition isRoundFlex (d : DuctType) : bool :=
  match d with RoundFlex => true | _ => false end.

Record FittingLoss : Type := { type : string; quantity : num; coefficient : num }.

Record SystemComponent : Type := { name : string; pressureLoss : num }.

(** What the size string prints: a width and a height in inches, or a
    diameter in inches. *)
Inductive RecommendedSize : Type :=
  | Rectangular (w h : num)
  | Diameter (d : num).

Inductive Warning : Type :=
  | VelocityExceedsLimit (max : num) (adjustment : string)
  | FlexVelocity
  | FlexSafetyFactor
  | ComponentLossesExceedDesign
  | DuctLossesExceedAvailable.

Record DuctSizingResult : Type := {
  velocity : num;
  equivalentLength : num;
  staticPressure : num;
  availableStaticPressure : num;
  recommendedSize : RecommendedSize;
  warnings : list Warning;
  frictionRate : num
}.

(** [ductType] is [None] for the empty selection. *)
Record Inputs : Type := {
  ductType : option DuctType;
  airflow : string;
  designStaticPressure : string;
  straightLength : string;
  fittings : list FittingLoss;
  velocityAdjustment : string;
  components : list SystemComponent;
  width : string
}.

Record State : Type := { inputs : Inputs; result : option DuctSizingResult }.

Definition DEFAULT_COMPONENTS : list SystemComponent :=
  [ {| name := "Return Air Grille"; pressureLoss := dec 3 2 |};
    {| name := "Filter"; pressureLoss := dec 10 2 |};
    {| name := "Supply Air Grilles"; pressureLoss := dec 30 2 |};
    {| name := "Dampers"; pressureLoss := dec 30 2 |} ].

(** [addFitting]: a 90-degree elbow is appended to the fittings. *)
Definition addFitting (fittings : list FittingLoss) : list FittingLoss :=
  fittings ++ [ {| type := "elbow-90"; quantity := int 1; coefficient := dec 3 1 |} ].

(** [array.filter((_, i) => keep(i))], the indices counted from [i]. *)
Fixpoint filterIndex {A : Type} (keep : nat -> bool) (i : nat) (l : list A) : list A :=
  match l with
  | [] => []
  | x :: rest =>
      if keep i then x :: filterIndex keep (S i) rest else filterIndex keep (S i) rest
  end.

(** [removeFitting]: [fittings.filter((_, i) => i !== index)]. *)
Definition removeFitting (fittings : list FittingLoss) (index : nat) : list FittingLoss :=
  filterIndex (fun i => negb (Nat.eqb i index)) O fittings.

(** [updateComponentPressureLoss] on the row [index] of the component list:
    the loss becomes [parseFloat(value) || 0], the name is kept.  The
    component calls it with the index of a row it renders; for an index
    outside the list the source grows the array with a nameless entry, which
    a list of [SystemComponent] cannot hold, hence [None]. *)
Definition updateComponentPressureLoss
  (components : list SystemComponent) (index : nat) (value : string)
  : option (list SystemComponent) :=
  match nth_error components index with
  | Some component =>
      Some (firstn index components
            ++ [ {| name := name component;
                    pressureLoss := or_else (parseFloat value) (int 0) |} ]
            ++ skipn (S index) components)
  | None => None
  end.

(** ACCA velocity guidelines: [VELOCITY_LIMITS[key]] as (min, max). *)
Definition VELOCITY_LIMITS (key : string) : option (num * num) :=
  if String.eqb key "supply-main" then Some (int 700, int 900)
  else if String.eqb key "supply-branch" then Some (int 600, int 800)
  else if String.eqb key "return-main" then Some (int 600, int 700)
  else if String.eqb key "return-branch" then Some (int 400, int 600)
  else None.

Definition calculateTotalComponentLosses (i : Inputs) : num :=
  fold_left (fun total component => total + pressureLoss component)
            (components i) (int 0).

Definition calculateEquivalentLength (i : Inputs) : num :=
  let straight := or_else (parseFloat (straightLength i)) (int 0) in
  let fittingLengths :=
    fold_left (fun total fitting => total + (coefficient fitting * quantity fitting))
              (fittings i) (int 0) in
  straight + fittingLengths.

Definition roundToStandard (size : num) (isRound : bool) : num :=
  if isRound then Math_ceil size else Math_ceil (size * int 2) / int 2.

Definition calculateRectangularHeight (width area : num) : num :=
  roundToStandard (area / width) false.

(** What the two branches hand on: velocity, size and their warnings. *)
Definition sizeDuct (i : Inputs) (d : DuctType) (cfm : num)
  : outcome (num * RecommendedSize * list Warning) :=
  let velocityLimit := VELOCITY_LIMITS (velocityAdjustment i) in
  if includesRect d then
    if falsy (width i) then Skipped
    else
      match velocityLimit with
      | None => Threw
      | Some (vmin, vmax) =>
          let w := parseFloat (width i) in
          let targetVelocity := (vmin + vmax) / int 2 in
          let requiredArea := (cfm / targetVelocity) * int 144 in
          let h := calculateRectangularHeight w requiredArea in
          let actualArea := (w * h) / int 144 in
          let velocity := cfm / actualArea in
          Produced (velocity, Rectangular w h,
                    if velocity >? vmax
                    then [VelocityExceedsLimit vmax (velocityAdjustment i)] else [])
      end
  else
    match velocityLimit with
    | None => Threw
    | Some (vmin, vmax) =>
        let targetVelocity := (vmin + vmax) / int 2 in
        let area := cfm / targetVelocity in
        let diameter := Math_sqrt ((int 4 * area * int 144) / Math_PI) in
        let roundedDiameter := roundToStandard diameter true in
        let actualArea := Math_PI * Math_pow (roundedDiameter / int 24) 2 in
        let velocity := cfm / actualArea in
        Produced (velocity, Diameter roundedDiameter,
                  if isRoundFlex d && (velocity >? int 900) then [FlexVelocity] else [])
    end.

Definition calculateDuctSize (s : State) : outcome DuctSizingResult :=
  let i := inputs s in
  match ductType i with
  | None => Skipped
  | Some d =>
      if falsy (airflow i) || falsy (designStaticPressure i) then Skipped
      else
        let cfm := parseFloat (airflow i) in
        let totalPressureLosses := calculateTotalComponentLosses i in
        let availableStaticPressure :=
          parseFloat (designStaticPressure i) - totalPressureLosses in
        let eqLength := calculateEquivalentLength i in
        let frictionRate := (availableStaticPressure * int 100) / eqLength in
        match sizeDuct i d cfm with
        | Skipped => Skipped
        | Threw => Threw
        | Produced (velocity, recommendedSize, warnings1) =>
            let velocityPressure := Math_pow (velocity / int 4005) 2 in
            let frictionLoss := (frictionRate * eqLength) / int 100 in
            let dynamicLosses :=
              fold_left (fun total fitting =>
                           total + (coefficient fitting * quantity fitting * velocityPressure))
                        (fittings i) (int 0) in
            let staticPressure0 := frictionLoss + dynamicLosses in
            let staticPressure :=
              if isRoundFlex d then staticPressure0 * dec 15 1 else staticPressure0 in
            let warnings2 := if isRoundFlex d then [FlexSafetyFactor] else [] in
            let warnings3 :=
              if availableStaticPressure <? int 0 then [ComponentLossesExceedDesign] else [] in
            let warnings4 :=
              if staticPressure >? availableStaticPressure
              then [DuctLossesExceedAvailable] else [] in
            Produced {| velocity := velocity;
                        equivalentLength := eqLength;
                        staticPressure := staticPressure;
                        availableStaticPressure := availableStaticPressure;
                        recommendedSize := recommendedSize;
                        warnings := warnings1 ++ warnings2 ++ warnings3 ++ warnings4;
                        frictionRate := frictionRate |}
        end
  end.

Definition onClick (s : State) : State :=
  setResult (fun s r => {| inputs := inputs s; result := Some r |})
            s (calculateDuctSize s).

(** The state setters of the two lists: the other inputs are kept. *)
Definition setFittings (i : Inputs) (newFittings : list FittingLoss) : Inputs :=
  {| ductType := ductType i;
     airflow := airflow i;
     designStaticPressure := designStaticPressure i;
     straightLength := straightLength i;
     fittings := newFittings;
     velocityAdjustment := velocityAdjustment i;
     components := components i;
     width := width i |}.

Definition setComponents (i : Inputs) (newComponents : list SystemComponent) : Inputs :=
  {| ductType := ductType i;
     airflow := airflow i;
     designStaticPressure := designStaticPressure i;
     straightLength := straightLength i;
     fittings := fittings i;
     velocityAdjustment := velocityAdjustment i;
     components := newComponents;
     width := width i |}.
End WithNumbers.
Arguments FittingLoss : clear implicits.
Arguments SystemComponent : clear implicits.
Arguments RecommendedSize : clear implicits.
Arguments Warning : clear implicits.
Arguments DuctSizingResult : clear implicits.
Arguments Inputs : clear implicits.
Arguments State : clear implicits.
End Duct.

(** ** PressureCalculator of the second unnamed source file (lines 1-381) *)

Module Pressure.
Section WithNumbers.
Context {num : Type} `{JSMath num}.
Local Open Scope js_scope.

Inductive CalculationMode : Type := AirflowMode | PressureMode.

Inductive Warning : Type :=
  | MeasuredPressureHigh
  | TargetPressureHigh
  | DoorLeakageSignificant
  | ReturnVelocityHigh.

Record GrilleSize : Type := { width : num; height : num; area : num }.
Record DuctSize : Type := { diameter : num; velocity : num }.

Record PressureResult : Type := {
  grilleSize : GrilleSize;
  ductSize : DuctSize;
  calculatedAirflow : option num;
  warnings : list Warning
}.

Record Inputs : Type := {
  calculationMode : CalculationMode;
  targetPressure : string;
  measuredPressure : string;
  doorWidth : string;
  doorHeight : string;
  doorUndercut : string;
  airflow : string;
  selectedGrilleHeight : num
}.

Record State : Type := { inputs : Inputs; result : option PressureResult }.

Definition PASCAL_TO_IWC : num := dec 4014 6.
Definition TARGET_VELOCITY : num := int 400.
Definition MAX_VELOCITY : num := int 600.
Definition MIN_GRILLE_FREE_AREA : num := dec 7 1.

Definition STANDARD_DUCT_SIZES : list num :=
  map int [4; 5; 6; 7; 8; 9; 10; 12; 14; 16; 18; 20]%Z.

(** Standard grille sizes (width, height). *)
Definition STANDARD_GRILLE_SIZES : list (num * num) :=
  map (fun wh : Z * Z => (int (fst wh), int (snd wh)))
      [(8, 4); (10, 4); (12, 4); (14, 4); (8, 6); (10, 6); (12, 6); (14, 6);
       (10, 8); (12, 8); (14, 8); (10, 10); (12, 12); (14, 14)]%Z.

Definition getStandardDuctSize (calculatedSize : num) : num :=
  match find (fun size => size >=? calculatedSize) STANDARD_DUCT_SIZES with
  | Some size => size
  | None => last STANDARD_DUCT_SIZES NaN
  end.

Definition getStandardGrilleSize (requiredArea selectedHeight : num) : num * num :=
  let availableSizes :=
    filter (fun size => eq (snd size) selectedHeight) STANDARD_GRILLE_SIZES in
  match find (fun size => (fst size * snd size * MIN_GRILLE_FREE_AREA)
                          >=? (requiredArea / MIN_GRILLE_FREE_AREA)) availableSizes with
  | Some selectedSize => selectedSize
  | None => last availableSizes (int 14, selectedHeight)
  end.

Definition calculateFromPressure (s : State) : outcome PressureResult :=
  let i := inputs s in
  if falsy (measuredPressure i) || falsy (doorWidth i) || falsy (doorHeight i)
     || falsy (doorUndercut i) then Skipped
  else
    let pressure := parseFloat (measuredPressure i) in
    let w := parseFloat (doorWidth i) in
    let h := parseFloat (doorHeight i) in
    let undercut := parseFloat (doorUndercut i) in
    let doorLeakageArea := (w * undercut) / int 144 in
    let doorPerimeterLeakage := ((int 2 * h + w) * dec 125 3) / int 144 in
    let totalLeakageArea := doorLeakageArea + doorPerimeterLeakage in
    (* airflow by the orifice equation *)
    let pressureIWC := pressure * PASCAL_TO_IWC in
    let calculatedAirflow := totalLeakageArea * int 4005 * Math_sqrt pressureIWC in
    let requiredNFA := (calculatedAirflow / TARGET_VELOCITY) * int 144 in
    let grilleDimensions := getStandardGrilleSize requiredNFA (selectedGrilleHeight i) in
    let ductArea := calculatedAirflow / TARGET_VELOCITY in
    let ductDiameter := Math_sqrt ((int 4 * ductArea) / Math_PI) * int 12 in
    let standardDuctSize := getStandardDuctSize ductDiameter in
    let actualVelocity :=
      calculatedAirflow / (Math_PI * Math_pow (standardDuctSize / int 24) 2) in
    let warnings :=
      (if pressure >? int 3 then [MeasuredPressureHigh] else [])
      ++ (if actualVelocity >? MAX_VELOCITY then [ReturnVelocityHigh] else []) in
    Produced {| grilleSize := {| width := fst grilleDimensions;
                                 height := snd grilleDimensions;
                                 area := requiredNFA / int 144 |};
                ductSize := {| diameter := standardDuctSize;
                               velocity := actualVelocity |};
                calculatedAirflow := Some calculatedAirflow;
                warnings := warnings |}.

Definition calculateFromAirflow (s : State) : outcome PressureResult :=
  let i := inputs s in
  if falsy (targetPressure i) || falsy (doorWidth i) || falsy (doorHeight i)
     || falsy (doorUndercut i) || falsy (airflow i) then Skipped
  else
    let pressure := parseFloat (targetPressure i) in
    let w := parseFloat (doorWidth i) in
    let h := parseFloat (doorHeight i) in
    let undercut := parseFloat (doorUndercut i) in
    let cfm := parseFloat (airflow i) in
    let doorLeakageArea := (w * undercut) / int 144 in
    let doorPerimeterLeakage := ((int 2 * h + w) * dec 125 3) / int 144 in
    let totalLeakageArea := doorLeakageArea + doorPerimeterLeakage in
    let requiredNFA := (cfm / TARGET_VELOCITY) * int 144 in
    let grilleDimensions := getStandardGrilleSize requiredNFA (selectedGrilleHeight i) in
    let ductArea := cfm / TARGET_VELOCITY in
    let ductDiameter := Math_sqrt ((int 4 * ductArea) / Math_PI) * int 12 in
    let standardDuctSize := getStandardDuctSize ductDiameter in
    let actualVelocity := cfm / (Math_PI * Math_pow (standardDuctSize / int 24) 2) in
    let warnings :=
      (if pressure >? int 3 then [TargetPressureHigh] else [])
      ++ (if totalLeakageArea >? requiredNFA / int 144 * dec 5 1
          then [DoorLeakageSignificant] else [])
      ++ (if actualVelocity >? MAX_VELOCITY then [ReturnVelocityHigh] else []) in
    Produced {| grilleSize := {| width := fst grilleDimensions;
                                 height := snd grilleDimensions;
                                 area := requiredNFA / int 144 |};
                ductSize := {| diameter := standardDuctSize;
                               velocity := actualVelocity |};
                calculatedAirflow := None;
                warnings := warnings |}.

(** The button runs the handler of the selected mode. *)
Definition calculate (s : State) : outcome PressureResult :=
  match calculationMode (inputs s) with
  | AirflowMode => calculateFromAirflow s
  | PressureMode => calculateFromPressure s
  end.

Definition onClick (s : State) : State :=
  setResult (fun s r => {| inputs := inputs s; result := Some r |}) s (calculate s).
End WithNumbers.
Arguments GrilleSize : clear implicits.
Arguments DuctSize : clear implicits.
Arguments PressureResult : clear implicits.
Arguments Inputs : clear implicits.
Arguments State : clear implicits.
End Pressure.

(** ** App (the module after FilterCalculator.tsx in its source file) *)

Module App.

Inductive Component : Type :=
  | FilterCalculator
  | DuctCalculator
  | DehumidifierCalculator
  | PressureCalculator
  | MoldRiskCalculator
  | PsychrometricCalculator
  | CapacitorCalculator
  | AtticVentilationCalculator.

Record Calculator : Type := { id : string; component : Component }.

Definition CALCULATORS : list Calculator :=
  [ {| id := "filter"; component := FilterCalculator |};
    {| id := "duct"; component := DuctCalculator |};
    {| id := "dehumidifier"; component := DehumidifierCalculator |};
    {| id := "pressure"; component := PressureCalculator |};
    {| id := "mold"; component := MoldRiskCalculator |};
    {| id := "psychrometric"; component := PsychrometricCalculator |};
    {| id := "capacitor"; component := CapacitorCalculator |};
    {| id := "attic"; component := AtticVentilationCalculator |} ].

(** [CALCULATORS.find(calc => calc.id === activeCalculator)?.component
     || FilterCalculator] *)
Definition ActiveComponent (activeCalculator : string) : Component :=
  match find (fun calc => String.eqb (id calc) activeCalculator) CALCULATORS with
  | Some calc => component calc
  | None => FilterCalculator
  end.

End App.

(** ** Objects and arrays

    The handlers build what they store from object and array literals, and
    two of them write to an object or an array after they have built it
    ([ratedComparison.withinRange = ...], [recommendations.push(...)]).
    [Store] is the heap these objects live in: a literal allocates a new cell
    behind the existing ones, a property write or a [push] replaces the
    content of one cell, and a reference is the position of a cell. *)

Module Store.
Section WithCells.
Context {cell : Type}.

Definition store : Type := list cell.
Definition reference : Type := nat.

(** An object or array literal. *)
Definition allocate (c : cell) (h : store) : reference * store :=
  (List.length h, h ++ [c]).

Definition read (h : store) (r : reference) : option cell := nth_error h r.

(** A change of the cell [r]; a reference to no cell changes nothing. *)
Fixpoint write (h : store) (r : reference) (c : cell) : store :=
  match h, r with
  | [], _ => []
  | _ :: rest, O => c :: rest
  | x :: rest, S r' => x :: write rest r' c
  end.
End WithCells.
Arguments store : clear implicits.
End Store.

(** *** CapacitorCalculator.tsx with its objects

    [calculateCapacitance] of the source, statement by statement: the
    [tolerance] literal, the [ratedComparison] literal (or [undefined]), the
    two assignments to [ratedComparison], and the literal handed to
    [setResult], which stores the reference in the result slot. *)

Module CapacitorObjects.
Section WithNumbers.
Context {num : Type} `{JSNumber num}.
Local Open Scope js_scope.

Inductive cell : Type :=
  | ToleranceObject (min max : num)
  | RatedComparisonObject (value : num) (withinRange : bool) (percentDeviation : num)
  | ResultObject (capacitance : num) (tolerance : Store.reference)
                 (ratedComparison : option Store.reference).

Record State : Type := {
  inputs : Capacitor.Inputs;
  result : option Store.reference;
  objects : Store.store cell
}.

(** [ratedComparison.value] *)
Definition value_of (h : Store.store cell) (r : Store.reference) : num :=
  match Store.read h r with
  | Some (RatedComparisonObject value _ _) => value
  | _ => NaN
  end.

(** [ratedComparison.percentDeviation = deviation] *)
Definition set_percentDeviation (h : Store.store cell) (r : Store.reference)
  (deviation : num) : Store.store cell :=
  match Store.read h r with
  | Some (RatedComparisonObject value withinRange _) =>
      Store.write h r (RatedComparisonObject value withinRange deviation)
  | _ => h
  end.

(** [ratedComparison.withinRange = within] *)
Definition set_withinRange (h : Store.store cell) (r : Store.reference)
  (within : bool) : Store.store cell :=
  match Store.read h r with
  | Some (RatedComparisonObject value _ percentDeviation) =>
      Store.write h r (RatedComparisonObject value within percentDeviation)
  | _ => h
  end.

Definition calculateCapacitance (s : State) : State :=
  let i := inputs s in
  if falsy (Capacitor.startWinding i) || falsy (Capacitor.voltage i) then s
  else
    let current := parseFloat (Capacitor.startWinding i) in
    let volts := parseFloat (Capacitor.voltage i) in
    let capacitance := (int 2653 * current) / volts in
    let (tolerance, h1) :=
      Store.allocate (ToleranceObject (capacitance * dec 94 2) (capacitance * dec 106 2))
                     (objects s) in
    let (ratedComparison, h2) :=
      if falsy (Capacitor.ratedCapacitance i) then (None, h1)
      else
        let (r, h) :=
          Store.allocate
            (RatedComparisonObject (parseFloat (Capacitor.ratedCapacitance i)) false (int 0))
            h1 in
        (Some r, h) in
    let h4 :=
      match ratedComparison with
      | Some r =>
          let deviation := ((capacitance - value_of h2 r) / value_of h2 r) * int 100 in
          let h3 := set_percentDeviation h2 r deviation in
          set_withinRange h3 r (Math_abs deviation <=? int 6)
      | None => h2
      end in
    let (stored, h5) :=
      Store.allocate (ResultObject capacitance tolerance ratedComparison) h4 in
    {| inputs := i; result := Some stored; objects := h5 |}.

(** The record a reference to a result object stands for. *)
Definition record (h : Store.store cell) (r : Store.reference)
  : option (Capacitor.CapacitorResult num) :=
  match Store.read h r with
  | Some (ResultObject capacitance t rc) =>
      match Store.read h t with
      | Some (ToleranceObject lo hi) =>
          match rc with
          | None =>
              Some {| Capacitor.capacitance := capacitance;
                      Capacitor.tolerance := {| Capacitor.min := lo; Capacitor.max := hi |};
                      Capacitor.ratedComparison := None |}
          | Some c =>
              match Store.read h c with
              | Some (RatedComparisonObject value withinRange percentDeviation) =>
                  Some {| Capacitor.capacitance := capacitance;
                          Capacitor.tolerance :=
                            {| Capacitor.min := lo; Capacitor.max := hi |};
                          Capacitor.ratedComparison :=
                            Some {| Capacitor.value := value;
                                    Capacitor.withinRange := withinRange;
                                    Capacitor.percentDeviation := percentDeviation |} |}
              | _ => None
              end
          end
      | _ => None
      end
  | _ => None
  end.
End WithNumbers.
Arguments cell : clear implicits.
Arguments State : clear implicits.
End CapacitorObjects.

(** *** MoldRiskCalculator.tsx with its objects

    [calculateRiskLevel] returns a new object, [getRecommendations] fills a
    new array by [push], and [calculateMoldRisk] hands a new object to
    [setResult]. *)

Module MoldRiskObjects.
Section WithNumbers.
Context {num : Type} `{JSMath num}.
Local Open Scope js_scope.

Inductive cell : Type :=
  | RiskObject (level : MoldRisk.RiskLevel) (days : option num)
  | RecommendationsArray (items : list MoldRisk.Recommendation)
  | ResultObject (dewPoint vaporPressure absoluteHumidity : num)
                 (riskLevel : MoldRisk.RiskLevel) (daysToMold : option num)
                 (recommendations : Store.reference).

Record State : Type := {
  inputs : MoldRisk.Inputs;
  result : option Store.reference;
  objects : Store.store cell
}.

Definition calculateRiskLevel (t rh : num) (h : Store.store cell)
  : Store.reference * Store.store cell :=
  if rh <? int 60 then Store.allocate (RiskObject MoldRisk.Low None) h
  else if rh <? int 70 then Store.allocate (RiskObject MoldRisk.Moderate (Some (int 30))) h
  else if rh <? int 80 then Store.allocate (RiskObject MoldRisk.High (Some (int 14))) h
  else Store.allocate (RiskObject MoldRisk.Severe (Some (int 7))) h.

(** [risk.level] and [risk.days] *)
Definition level_of (h : Store.store cell) (r : Store.reference) : MoldRisk.RiskLevel :=
  match Store.read h r with
  | Some (RiskObject level _) => level
  | _ => MoldRisk.Low
  end.

Definition days_of (h : Store.store cell) (r : Store.reference) : option num :=
  match Store.read h r with
  | Some (RiskObject _ days) => days
  | _ => None
  end.

(** [recommendations.push(item)] *)
Definition push (h : Store.store cell) (r : Store.reference)
  (item : MoldRisk.Recommendation) : Store.store cell :=
  match Store.read h r with
  | Some (RecommendationsArray items) => Store.write h r (RecommendationsArray (items ++ [item]))
  | _ => h
  end.

Definition getRecommendations (t rh dewPoint : num) (riskLevel : MoldRisk.RiskLevel)
  (h : Store.store cell) : Store.reference * Store.store cell :=
  let (recommendations, h0) := Store.allocate (RecommendationsArray []) h in
  let h1 := if rh >? int 60 then push h0 recommendations MoldRisk.ReduceHumidity else h0 in
  let h2 := if (t - dewPoint) <? int 4
            then push h1 recommendations MoldRisk.PreventCondensation else h1 in
  let h3 := if negb (MoldRisk.isLow riskLevel)
            then push (push h2 recommendations MoldRisk.ImproveVentilation)
                      recommendations MoldRisk.RepairLeaks
            else h2 in
  let h4 := if rh >? int 70
            then push h3 recommendations MoldRisk.ContinuousDehumidification else h3 in
  (recommendations, h4).

Definition calculateMoldRisk (s : State) : State :=
  let i := inputs s in
  if falsy (MoldRisk.dryBulb i) || falsy (MoldRisk.relativeHumidity i) then s
  else
    let temp := parseFloat (MoldRisk.dryBulb i) in
    let rh := parseFloat (MoldRisk.relativeHumidity i) in
    let dewPoint := MoldRisk.calculateDewPoint temp rh in
    let vaporPressure := MoldRisk.calculateVaporPressure temp in
    let absoluteHumidity := MoldRisk.calculateAbsoluteHumidity temp rh in
    let (risk, h1) := calculateRiskLevel temp rh (objects s) in
    let (recommendations, h2) :=
      getRecommendations temp rh dewPoint (level_of h1 risk) h1 in
    let (stored, h3) :=
      Store.allocate (ResultObject dewPoint vaporPressure absoluteHumidity
                                   (level_of h2 risk) (days_of h2 risk) recommendations)
                     h2 in
    {| inputs := i; result := Some stored; objects := h3 |}.

(** The record a reference to a result object stands for. *)
Definition record (h : Store.store cell) (r : Store.reference)
  : option (MoldRisk.MoldRiskResult num) :=
  match Store.read h r with
  | Some (ResultObject dewPoint vaporPressure absoluteHumidity riskLevel daysToMold a) =>
      match Store.read h a with
      | Some (RecommendationsArray items) =>
          Some {| MoldRisk.dewPoint := dewPoint;
                  MoldRisk.vaporPressure := vaporPressure;
                  MoldRisk.absoluteHumidity := absoluteHumidity;
                  MoldRisk.riskLevel := riskLevel;
                  MoldRisk.daysToMold := daysToMold;
                  MoldRisk.recommendations := items |}
      | _ => None
      end
  | _ => None
  end.
End WithNumbers.
Arguments cell : clear implicits.
Arguments State : clear implicits.
End MoldRiskObjects.

(** * The vocabulary of the statements *)

Local Open Scope string_scope.
Local Open Scope R_scope.

(** ** Required fields

    The fields each handler tests before it computes, in the order of its
    guard; [present] says none of them is the empty string. *)

Definition present (fields : list string) : bool :=
  forallb (fun f => negb (falsy f)) fields.

Definition Capacitor_required (i : Capacitor.Inputs) : list string :=
  [Capacitor.startWinding i; Capacitor.voltage i].

Definition MoldRisk_required (i : MoldRisk.Inputs) : list string :=
  [MoldRisk.dryBulb i; MoldRisk.relativeHumidity i].

Definition Dehumidifier_required (i : Dehumidifier.Inputs) : list string :=
  [Dehumidifier.latentLoad i; Dehumidifier.indoorTemp i; Dehumidifier.indoorRH i].

Definition Attic_required (i : Attic.Inputs) : list string :=
  [Attic.pressureDifferentialText i; Attic.outdoorTemp i; Attic.outdoorDewPoint i;
   Attic.atticTemp i; Attic.atticDewPoint i; Attic.atticArea i].

Definition Psychrometric_required (i : Psychrometric.Inputs) : list string :=
  [Psychrometric.enteringDryBulb i; Psychrometric.enteringHumidity i;
   Psychrometric.leavingDryBulb i; Psychrometric.leavingHumidity i;
   Psychrometric.airflow i; Psychrometric.systemSize i].

Definition PsychrometricCapped_required (i : PsychrometricCapped.Inputs) : list string :=
  [PsychrometricCapped.enteringDryBulb i; PsychrometricCapped.enteringHumidity i;
   PsychrometricCapped.leavingDryBulb i; PsychrometricCapped.leavingHumidity i;
   PsychrometricCapped.airflow i; PsychrometricCapped.systemSize i;
   PsychrometricCapped.climateZone i].

Definition Filter_required (i : Filter.Inputs) : list string :=
  [Filter.systemSize i; Filter.climateZone i; Filter.filterWidth i;
   Filter.filterHeight i; Filter.filterType i].

(** The duct handler also needs a duct type, and the width of a rectangular
    duct. *)
Definition Duct_required {num : Type} (i : Duct.Inputs num) (d : Duct.DuctType)
  : list string :=
  [Duct.airflow i; Duct.designStaticPressure i]
  ++ (if Duct.includesRect d then [Duct.width i] else []).

Definition Duct_present {num : Type} (i : Duct.Inputs num) : bool :=
  match Duct.ductType i with
  | Some d => present (Duct_required i d)
  | None => false
  end.

Definition Pressure_required {num : Type} (i : Pressure.Inputs num) : list string :=
  match Pressure.calculationMode i with
  | Pressure.AirflowMode =>
      [Pressure.targetPressure i; Pressure.doorWidth i; Pressure.doorHeight i;
       Pressure.doorUndercut i; Pressure.airflow i]
  | Pressure.PressureMode =>
      [Pressure.measuredPressure i; Pressure.doorWidth i; Pressure.doorHeight i;
       Pressure.doorUndercut i]
  end.

(** ** Outcomes against the guard *)

Definition is_some {A : Type} (o : option A) : bool :=
  match o with Some _ => true | None => false end.

Definition Filter_known {num : Type} `{JSNumber num} (i : Filter.Inputs) : bool :=
  is_some (CLIMATE_ZONES_cfmPerTon (Filter.climateZone i))
  && is_some (Filter.FILTER_TYPES_initialPressureDrops (num := num) (Filter.filterType i)).

Definition Duct_known {num : Type} `{JSMath num} (i : Duct.Inputs num) : bool :=
  is_some (Duct.VELOCITY_LIMITS (num := num) (Duct.velocityAdjustment i)).

(** What a handler does, against whether its required fields are [present]
    and whether the keys it looks up are [known] to its tables: it returns
    early exactly when a required field is empty, and otherwise stores a
    record, unless a key is unknown, in which case the lookup fails. *)
Definition settles {A : Type} (present known : bool) (o : outcome A) : Prop :=
  match o with
  | Skipped => present = false
  | Produced _ => present = true /\ known = true
  | Threw => present = true /\ known = false
  end.

(** ** Reading the inputs only *)



(** ** Example states *)

Definition capacitor_5A_230V {num : Type} : Capacitor.State num :=
  {| Capacitor.inputs := {| Capacitor.startWinding := "5";
                            Capacitor.voltage := "230";
                            Capacitor.ratedCapacitance := "" |};
     Capacitor.result := None |}.

Definition attic_example (area : string) {num : Type} : Attic.State num :=
  {| Attic.inputs := {| Attic.pressureDifferentialText := "1";
                        Attic.outdoorTemp := "90";
                        Attic.outdoorDewPoint := "60";
                        Attic.atticTemp := "100";
                        Attic.atticDewPoint := "62";
                        Attic.atticArea := area;
                        Attic.existingIntakeArea := "";
                        Attic.existingExhaustArea := "" |};
     Attic.result := None |}.

Definition capped_example (humidity : string) {num : Type}
  : PsychrometricCapped.State num :=
  {| PsychrometricCapped.inputs :=
       {| PsychrometricCapped.systemSize := "3";
          PsychrometricCapped.climateZone := "moist";
          PsychrometricCapped.airflow := "1200";
          PsychrometricCapped.enteringDryBulb := "75";
          PsychrometricCapped.enteringHumidity := humidity;
          PsychrometricCapped.enteringHumidityType := PsychrometricCapped.RH;
          PsychrometricCapped.leavingDryBulb := "55";
          PsychrometricCapped.leavingHumidity := "90";
          PsychrometricCapped.leavingHumidityType := PsychrometricCapped.RH |};
     PsychrometricCapped.result := None |}.

Definition dehumidifier_example {num : Type} : Dehumidifier.State num :=
  {| Dehumidifier.inputs := {| Dehumidifier.latentLoad := "10000";
                               Dehumidifier.indoorTemp := "75";
                               Dehumidifier.indoorRH := "65" |};
     Dehumidifier.result := None |}.

(** ** Relative humidity and dehumidifier sizing *)

(** At most 100, or not a number. *)
Definition at_most_100 (x : number) : Prop :=
  x = NotANumber \/ exists v : R, x = Num v /\ (v <= 100)%R.

(** The condition-derating factor: 0.7 below 65 degrees F, 0.85 below 70,
    and a further 0.8 below 60% relative humidity. *)
Definition derating (temp rh : R) : R :=
  ((if Rlt_dec temp 65 then 1 * 0.7 else if Rlt_dec temp 70 then 1 * 0.85 else 1)
   * (if Rlt_dec rh 60 then 0.8 else 1))%R.

Definition required_capacity (latentBTU temp rh : R) : R :=
  (latentBTU * 0.0833 * 24 / derating temp rh * 1.2)%R.

(** ** The psychrometric formulas over the reals

    [celsius], [magnus] and [pws] are what [calculateSaturationPressure] of
    "System Performance Calculator.tsx" computes on a finite temperature
    (hPa); [magnus_kPa] and [pws_kPa] are those of the second psychrometric
    component (kPa). *)

Definition celsius (t : R) : R := (t - 32) * 5 / 9.

Definition magnus (c : R) : R := 17.625 * c / (243.04 + c).

Definition pws (t : R) : R := 6.11 * exp (magnus (celsius t)).

Definition magnus_kPa (c : R) : R := 17.27 * c / (c + 237.3).

Definition pws_kPa (t : R) : R := 0.6108 * exp (magnus_kPa (celsius t)).

(** The saturated humidity ratio [0.622 p / (14.696 - p)] of the loop,
    negated: above 14.696 it lies between 0.622 and 0.868 and falls as the
    pressure rises. *)
Definition minus_wSat (p : R) : R := 0.622 * p / (p - 14.696).

(** The loop at a dry bulb of 95 degrees F and 10% relative humidity: the
    vapour pressure [pw], the humidity ratio [w], the residual the body
    computes from a wet-bulb estimate, and the next estimate. *)
Definition pw_95_10 : R := 10 / 100 * pws 95.

Definition w_95_10 : R := 0.622 * pw_95_10 / (14.696 - pw_95_10).

Definition residual (wb : R) : R :=
  (95 - wb) - (0.622 * pws wb / (14.696 - pws wb) - w_95_10) * 1093.

Definition next (wb : R) : R := wb + residual wb / 100.

(** The saturated humidity ratio the uncapped wet-bulb loop computes at an
    estimate (saturation pressure in hPa against 14.696). *)
Definition wSat (wb : R) : R := 0.622 * pws wb / (14.696 - pws wb).

(** The loop at a dry bulb of 48 degrees F and 92% relative humidity: the
    vapour pressure, the humidity ratio, the residual the body computes from
    a wet-bulb estimate, and the next estimate. *)
Definition pw_48_92 : R := 92 / 100 * pws 48.

Definition w_48_92 : R := 0.622 * pw_48_92 / (14.696 - pw_48_92).

Definition residual_48_92 (wb : R) : R := (48 - wb) - (wSat wb - w_48_92) * 1093.

Definition next_48_92 (wb : R) : R := wb + residual_48_92 wb / 100.

(** The two ranges the estimates of that loop alternate between. *)
Definition upper_48_92 (wb : R) : Prop := 47.98 <= wb <= 48.03.

Definition lower_48_92 (wb : R) : Prop := 41.4 <= wb <= 41.6.

(** ** Capacitor, mold risk and dew points *)

Definition capacitor_rated_example (rated : string) : Capacitor.State number :=
  {| Capacitor.inputs := {| Capacitor.startWinding := "5";
                            Capacitor.voltage := "230";
                            Capacitor.ratedCapacitance := rated |};
     Capacitor.result := None |}.

(** The four risk levels in their order. *)
Definition riskRank (l : MoldRisk.RiskLevel) : nat :=
  match l with
  | MoldRisk.Low => 0
  | MoldRisk.Moderate => 1
  | MoldRisk.High => 2
  | MoldRisk.Severe => 3
  end.

(** The days to mold growth the calculator prints beside each level. *)
Definition daysOfLevel (l : MoldRisk.RiskLevel) : option number :=
  match l with
  | MoldRisk.Low => None
  | MoldRisk.Moderate => Some (int 30)
  | MoldRisk.High => Some (int 14)
  | MoldRisk.Severe => Some (int 7)
  end.

Definition mold_example (rh : string) : MoldRisk.State number :=
  {| MoldRisk.inputs := {| MoldRisk.dryBulb := "75"; MoldRisk.relativeHumidity := rh |};
     MoldRisk.result := None |}.

(** The dew point of the Magnus formula in degrees C, from the temperature
    in degrees C and the relative humidity in percent: [magnus_alpha] is the
    [alpha] of the three [calculateDewPoint] functions. *)
Definition magnus_alpha (c rh : R) : R := ln (rh / 100) + magnus c.

Definition dew_celsius (c rh : R) : R :=
  243.04 * magnus_alpha c rh / (17.625 - magnus_alpha c rh).

(** The CFM per ton the capped psychrometric component works with: the
    table's value, 400 for a zone that is not in the table. *)
Definition cfmPerTon_of (zone : string) : R :=
  match CLIMATE_ZONES_cfmPerTon zone with
  | Some c => IZR c
  | None => 400
  end.

(** The temperature split the target supply temperature stands for. *)
Definition target_split (zone : string) : R := 9000 / (1.08 * cfmPerTon_of zone).

(** ** Filter, dehumidifier and attic *)

Definition filter_example (width : string) : Filter.State number :=
  {| Filter.inputs := {| Filter.systemSize := "3";
                         Filter.climateZone := "moist";
                         Filter.filterWidth := width;
                         Filter.filterHeight := "25";
                         Filter.filterType := "pleated-basic" |};
     Filter.result := None |}.

Definition psychrometric_inputs_example : Psychrometric.Inputs :=
  {| Psychrometric.systemSize := "3";
     Psychrometric.climateZone := "moist";
     Psychrometric.airflow := "";
     Psychrometric.enteringDryBulb := "";
     Psychrometric.enteringHumidity := "";
     Psychrometric.enteringHumidityType := Psychrometric.RH;
     Psychrometric.leavingDryBulb := "";
     Psychrometric.leavingHumidity := "";
     Psychrometric.leavingHumidityType := Psychrometric.RH |}.

Definition dehumidifier_state (load temp rh : string) : Dehumidifier.State number :=
  {| Dehumidifier.inputs := {| Dehumidifier.latentLoad := load;
                               Dehumidifier.indoorTemp := temp;
                               Dehumidifier.indoorRH := rh |};
     Dehumidifier.result := None |}.

(** An optional vent-area field that counts as no existing vent: left empty,
    or holding zero or no number. *)
Definition no_existing_vent (field : string) : Prop :=
  falsy field = true
  \/ parseFloat (num := number) field = Num 0
  \/ (parseDecimal field = None /\ readsInfinity field = false).

Definition attic_with_vents (intake exhaust : string) : Attic.State number :=
  {| Attic.inputs := {| Attic.pressureDifferentialText := "1";
                        Attic.outdoorTemp := "90";
                        Attic.outdoorDewPoint := "60";
                        Attic.atticTemp := "100";
                        Attic.atticDewPoint := "62";
                        Attic.atticArea := "1500";
                        Attic.existingIntakeArea := intake;
                        Attic.existingExhaustArea := exhaust |};
     Attic.result := None |}.

(** ** Duct and room pressure *)

(** A component whose pressure loss is a number. *)
Definition lossIsNumber (component : Duct.SystemComponent number) : Prop :=
  isNaN (Duct.pressureLoss component) = false.

Definition duct_example (d : Duct.DuctType) (width : string) : Duct.State number :=
  {| Duct.inputs := {| Duct.ductType := Some d;
                       Duct.airflow := "1000";
                       Duct.designStaticPressure := "0.5";
                       Duct.straightLength := "50";
                       Duct.fittings := [];
                       Duct.velocityAdjustment := "supply-main";
                       Duct.components := Duct.DEFAULT_COMPONENTS;
                       Duct.width := width |};
     Duct.result := None |}.

Definition STANDARD_DUCT_SIZES_Z : list Z := [4; 5; 6; 7; 8; 9; 10; 12; 14; 16; 18; 20]%Z.

(** The free area the grille search asks of a grille: its face area times
    the free-area ratio must reach the required area divided by that ratio. *)
Definition grilleMeets (requiredArea : number) (size : number * number) : bool :=
  (fst size * snd size * Pressure.MIN_GRILLE_FREE_AREA
   >=? requiredArea / Pressure.MIN_GRILLE_FREE_AREA)%js.

(** The cross-section of the largest standard duct, 20 inches, in square
    feet. *)
Definition largest_duct_area : R := PI * (20 / 24 * (20 / 24)).

Definition pressure_example (airflow : string) : Pressure.State number :=
  {| Pressure.inputs := {| Pressure.calculationMode := Pressure.AirflowMode;
                           Pressure.targetPressure := "2.5";
                           Pressure.measuredPressure := "";
                           Pressure.doorWidth := "30";
                           Pressure.doorHeight := "80";
                           Pressure.doorUndercut := "0.5";
                           Pressure.airflow := airflow;
                           Pressure.selectedGrilleHeight := int 4 |};
     Pressure.result := None |}.

(** ** The capped wet-bulb loop over the reals *)

(** The saturated humidity ratio of the capped component at a temperature,
    as [calculateHumidityRatio(t, 100)] computes it, and the residual of its
    wet-bulb loop at an estimate [wb], for the dry bulb [db] and the humidity
    ratio [w] of the air. *)
Definition wSat_kPa (t : R) : R :=
  0.622 * (100 / 100 * pws_kPa t) / (101.325 - 100 / 100 * pws_kPa t).

Definition capped_residual (db w wb : R) : R := db - wb - (wSat_kPa wb - w) * 1093.

(** What the capped wet-bulb loop keeps: the estimate is at most the dry
    bulb, not more than 133 degrees below it, and its residual is not
    positive. *)
Definition capped_estimate (db w wb : R) : Prop :=
  db - 133 <= wb <= db /\ capped_residual db w wb <= 0.

(** ** What a field can hold

    Every text field of the suite is an [<input type="number">]: what a
    handler reads from it is the empty string or a decimal number
    ([numberField]).  [parses] says that [parseFloat] reads a number from the
    text, and the fields of a list are [complete] when each of them is present
    and parseable. *)

Definition parses (s : string) : bool := is_some (parseDecimal s).

Definition numberField (s : string) : bool := falsy s || parses s.

Definition numberFields (fields : list string) : bool := forallb numberField fields.

Definition complete (fields : list string) : bool :=
  forallb (fun f => negb (falsy f) && parses f) fields.

(** The required fields that are number fields, where a handler also
    requires a selection: the filter's system size is a [<select>] over
    numbers, its climate zone and filter type are selections of a key. *)
Definition Filter_numbers (i : Filter.Inputs) : list string :=
  [Filter.systemSize i; Filter.filterWidth i; Filter.filterHeight i].

Definition Filter_selections (i : Filter.Inputs) : list string :=
  [Filter.climateZone i; Filter.filterType i].

(** A [<select>] holds the empty string of its placeholder or one of the
    keys it offers. *)
Definition Filter_offered {num : Type} `{JSNumber num} (i : Filter.Inputs) : bool :=
  (falsy (Filter.climateZone i) || is_some (CLIMATE_ZONES_cfmPerTon (Filter.climateZone i)))
  && (falsy (Filter.filterType i)
      || is_some (Filter.FILTER_TYPES_initialPressureDrops (num := num) (Filter.filterType i))).

Definition PsychrometricCapped_numbers (i : PsychrometricCapped.Inputs) : list string :=
  [PsychrometricCapped.enteringDryBulb i; PsychrometricCapped.enteringHumidity i;
   PsychrometricCapped.leavingDryBulb i; PsychrometricCapped.leavingHumidity i;
   PsychrometricCapped.airflow i; PsychrometricCapped.systemSize i].

Definition Duct_numbers {num : Type} (i : Duct.Inputs num) : list string :=
  [Duct.airflow i; Duct.designStaticPressure i; Duct.width i].

Definition Duct_complete {num : Type} (i : Duct.Inputs num) : bool :=
  match Duct.ductType i with
  | Some d => complete (Duct_required i d)
  | None => false
  end.

(** A handler stores a record exactly when its required fields are
    complete ([ready]), returns early otherwise, and never fails. *)
Definition produces_exactly_when {A : Type} (ready : bool) (o : outcome A) : Prop :=
  match o with
  | Skipped => ready = false
  | Produced _ => ready = true
  | Threw => False
  end.

(** The wet-bulb loop without a cap stops, given enough executions of its
    body, for a dry bulb and a relative humidity. *)
Definition wetBulbReturns {num : Type} `{JSMath num} (db rh : num) : Prop :=
  exists fuel : nat, is_some (Psychrometric.calculateWetBulb fuel db rh) = true.

(** The dry bulb and the relative humidity of the entering and of the
    leaving air, as [calculateProperties] reads them. *)
Definition enteringAir {num : Type} `{JSMath num} (i : Psychrometric.Inputs) : num * num :=
  let db := parseFloat (Psychrometric.enteringDryBulb i) in
  (db, Psychrometric.resolveRH (Psychrometric.enteringHumidityType i) db
                               (Psychrometric.enteringHumidity i)).

Definition leavingAir {num : Type} `{JSMath num} (i : Psychrometric.Inputs) : num * num :=
  let db := parseFloat (Psychrometric.leavingDryBulb i) in
  (db, Psychrometric.resolveRH (Psychrometric.leavingHumidityType i) db
                               (Psychrometric.leavingHumidity i)).

Definition psychrometric_95_10 {num : Type} : Psychrometric.State num :=
  {| Psychrometric.inputs :=
       {| Psychrometric.systemSize := "3";
          Psychrometric.climateZone := "moist";
          Psychrometric.airflow := "1200";
          Psychrometric.enteringDryBulb := "95";
          Psychrometric.enteringHumidity := "10";
          Psychrometric.enteringHumidityType := Psychrometric.RH;
          Psychrometric.leavingDryBulb := "95";
          Psychrometric.leavingHumidity := "10";
          Psychrometric.leavingHumidityType := Psychrometric.RH |};
     Psychrometric.result := None |}.

Definition psychrometric_leaving_48_92 {num : Type} : Psychrometric.State num :=
  {| Psychrometric.inputs :=
       {| Psychrometric.systemSize := "3";
          Psychrometric.climateZone := "moist";
          Psychrometric.airflow := "1200";
          Psychrometric.enteringDryBulb := "75";
          Psychrometric.enteringHumidity := "50";
          Psychrometric.enteringHumidityType := Psychrometric.RH;
          Psychrometric.leavingDryBulb := "48";
          Psychrometric.leavingHumidity := "92";
          Psychrometric.leavingHumidityType := Psychrometric.RH |};
     Psychrometric.result := None |}.

(** ** Handlers and their objects

    [run] is a handler with its objects in a store and [calc] the function on
    the input fields it computes.  [allocates_its_result]: the handler leaves
    the input fields and every cell that existed as they were; it leaves the
    whole state as it was when [calc] skips; and otherwise it stores a
    reference to a new cell that reads as the record [calc] produces.
    [repeats_its_result]: of two invocations in a row the second stores a new
    cell that reads as the same record, and what the first one stored still
    reads as before. *)






(** ** Example states in both readings *)

Definition capacitor_state {num : Type} (current volts rated : string)
  : Capacitor.State num :=
  {| Capacitor.inputs := {| Capacitor.startWinding := current;
                            Capacitor.voltage := volts;
                            Capacitor.ratedCapacitance := rated |};
     Capacitor.result := None |}.

Definition dehumidifier_fields {num : Type} (load temp rh : string)
  : Dehumidifier.State num :=
  {| Dehumidifier.inputs := {| Dehumidifier.latentLoad := load;
                               Dehumidifier.indoorTemp := temp;
                               Dehumidifier.indoorRH := rh |};
     Dehumidifier.result := None |}.

Definition capped_airflow_example {num : Type} (airflow size : string)
  : PsychrometricCapped.State num :=
  {| PsychrometricCapped.inputs :=
       {| PsychrometricCapped.systemSize := size;
          PsychrometricCapped.climateZone := "moist";
          PsychrometricCapped.airflow := airflow;
          PsychrometricCapped.enteringDryBulb := "75";
          PsychrometricCapped.enteringHumidity := "50";
          PsychrometricCapped.enteringHumidityType := PsychrometricCapped.RH;
          PsychrometricCapped.leavingDryBulb := "55";
          PsychrometricCapped.leavingHumidity := "90";
          PsychrometricCapped.leavingHumidityType := PsychrometricCapped.RH |};
     PsychrometricCapped.result := None |}.

(** A duct of the given type and straight length, in the state the component
    starts in otherwise (default components, design static pressure 0.5, no
    fittings), with an airflow of 1000 CFM. *)
Definition duct_of_length {num : Type} `{JSNumber num} (d : Duct.DuctType) (length : string)
  : Duct.State num :=
  {| Duct.inputs := {| Duct.ductType := Some d;
                       Duct.airflow := "1000";
                       Duct.designStaticPressure := "0.5";
                       Duct.straightLength := length;
                       Duct.fittings := [];
                       Duct.velocityAdjustment := "supply-main";
                       Duct.components := Duct.DEFAULT_COMPONENTS;
                       Duct.width := "" |};
     Duct.result := None |}.

(** * Properties

    Unless a statement says otherwise, numbers are read exactly ([number]);
    the statements that name [PrimFloat.float] are about the binary64
    reading. *)

(** ** Evaluating the exact reading *)

Ltac js_parse :=
  repeat match goal with
  | |- context [parseDecimal ?s] =>
      let v := eval vm_compute in (parseDecimal s) in
      change (parseDecimal s) with v
  end.

Ltac js_red :=
  cbv beta iota delta
      [add sub mul div lt le gt ge eq isNaN truthy or_else lit int dec NaN
       Math_abs Math_sqrt Math_exp Math_log Math_ceil Math_PI Math_min Math_sign
       number_JSNumber number_JSMath lift2 number_lit number_abs number_sqrt
       number_exp number_log number_ceil number_div number_lt number_le
       Z.opp negb orb andb];
  repeat match goal with
  | |- context [Pos.pow 10 ?p] =>
      let v := eval vm_compute in (Pos.pow 10 p) in
      change (Pos.pow 10 p) with v
  | |- context [IZR (?m * 10 ^ ?e)] =>
      let v := eval vm_compute in (m * 10 ^ e)%Z in
      lazymatch v with
      | context [match _ with _ => _ end] => fail
      | _ => change (m * 10 ^ e)%Z with v
      end
  end.

Ltac js_dec :=
  match goal with
  | |- context [Req_dec_T ?a ?b] =>
      destruct (Req_dec_T a b); [ try (exfalso; lra) | try (exfalso; lra) ]
  | |- context [Rlt_dec ?a ?b] =>
      destruct (Rlt_dec a b); [ try (exfalso; lra) | try (exfalso; lra) ]
  | |- context [Rle_dec ?a ?b] =>
      destruct (Rle_dec a b); [ try (exfalso; lra) | try (exfalso; lra) ]
  end.

Ltac js_eval := repeat (js_red; try js_dec).

(** Closes an equation between two numbers that are equal reals. *)
Ltac num_eq := first [ reflexivity | f_equal; first [ lra | field; lra ] ].

(** Closes an equation between two real expressions built from constants. *)
Ltac real_eq :=
  first [ lra
        | field; lra
        | unfold Q2R; cbn [QArith_base.Qnum QArith_base.Qden]; field; lra ].

Lemma toFixed1_eq (x : R) (z : Z) :
  (0 <= x)%R -> (IZR z - / 2 <= x * 10 < IZR z + / 2)%R ->
  toFixed1 (Num x) = Some z.
Proof.
  intros Hx Hz. unfold toFixed1.
  destruct (Rlt_dec x 0) as [Hneg | _]; [lra |].
  f_equal. apply Zfloor_eq. lra.
Qed.

(** ** The capacitor example: 5 A at 230 V *)

Lemma capacitor_5A_230V_result :
  Capacitor.calculateCapacitance (num := number) capacitor_5A_230V
  = Produced {| Capacitor.capacitance := Num (2653 * 5 / 230);
                Capacitor.tolerance :=
                  {| Capacitor.min := Num (2653 * 5 / 230 * 0.94);
                     Capacitor.max := Num (2653 * 5 / 230 * 1.06) |};
                Capacitor.ratedComparison := None |}.
Proof.
  cbv [Capacitor.calculateCapacitance capacitor_5A_230V Capacitor.inputs
       Capacitor.startWinding Capacitor.voltage Capacitor.ratedCapacitance
       falsy orb parseFloat].
  js_parse. cbv iota beta. js_eval.
  repeat f_equal; lra.
Qed.

(** C8, as stated, fails: for I = 5 A and V = 230 V the component does not
    print 57.7 with the range 54.2 - 61.2; the upper end of the range is not
    61.2. *)
Lemma capacitor_example_upper_end_is_not_61_2 :
  ~ (exists r,
        Capacitor.calculateCapacitance (num := number) capacitor_5A_230V = Produced r
        /\ toFixed1 (Capacitor.capacitance r) = Some 577%Z
        /\ toFixed1 (Capacitor.min (Capacitor.tolerance r)) = Some 542%Z
        /\ toFixed1 (Capacitor.max (Capacitor.tolerance r)) = Some 612%Z).
Proof.
  intros [r [Hr [_ [_ Hmax]]]].
  rewrite capacitor_5A_230V_result in Hr. injection Hr as <-.
  cbn [Capacitor.tolerance Capacitor.max] in Hmax.
  rewrite (toFixed1_eq _ 611) in Hmax by lra.
  discriminate Hmax.
Qed.

(** C8, amended: for I = 5 A and V = 230 V the capacitance (2653 x 5) / 230
    prints as 57.7 and the +-6% range (x 0.94 to x 1.06) prints as
    54.2 - 61.1. *)
Theorem capacitor_example_5A_230V :
  exists r,
    Capacitor.calculateCapacitance (num := number) capacitor_5A_230V = Produced r
    /\ Capacitor.capacitance r = Num (2653 * 5 / 230)
    /\ toFixed1 (Capacitor.capacitance r) = Some 577%Z
    /\ toFixed1 (Capacitor.min (Capacitor.tolerance r)) = Some 542%Z
    /\ toFixed1 (Capacitor.max (Capacitor.tolerance r)) = Some 611%Z.
Proof.
  eexists. split; [apply capacitor_5A_230V_result |].
  cbn [Capacitor.capacitance Capacitor.tolerance Capacitor.min Capacitor.max].
  split; [reflexivity |].
  repeat split; apply toFixed1_eq; lra.
Qed.

(** The same example in binary64: the three doubles lie strictly inside the
    rounding intervals of 57.7, 54.2 and 61.1. *)
Lemma capacitor_example_binary64 :
  exists r,
    Capacitor.calculateCapacitance (num := PrimFloat.float) capacitor_5A_230V = Produced r
    /\ (dec 5765 2 <? Capacitor.capacitance r)%js = true
    /\ (Capacitor.capacitance r <? dec 5775 2)%js = true
    /\ (dec 5415 2 <? Capacitor.min (Capacitor.tolerance r))%js = true
    /\ (Capacitor.min (Capacitor.tolerance r) <? dec 5425 2)%js = true
    /\ (dec 6105 2 <? Capacitor.max (Capacitor.tolerance r))%js = true
    /\ (Capacitor.max (Capacitor.tolerance r) <? dec 6115 2)%js = true.
Proof.
  eexists. split; [vm_compute; reflexivity |].
  repeat split; vm_compute; reflexivity.
Qed.

(** ** Attic ventilation: the required vent areas *)

Lemma present_cons (f : string) (fs : list string) :
  present (f :: fs) = true -> falsy f = false /\ present fs = true.
Proof.
  unfold present. cbn [forallb]. intros H.
  apply andb_true_iff in H. destruct H as [H1 H2].
  split; [now apply negb_true_iff in H1 | exact H2].
Qed.

Lemma requiredAreas_exact (a : R) :
  Attic.requiredAreas (Num a)
  = {| Attic.intake := Num (a * (1 / 150) * 1.5 / (1 + 1.5));
       Attic.exhaust := Num (a * (1 / 150) - a * (1 / 150) * 1.5 / (1 + 1.5)) |}.
Proof.
  cbv [Attic.requiredAreas Attic.RECOMMENDED_VENT_RATIO Attic.INTAKE_TO_EXHAUST_RATIO].
  js_eval. f_equal; f_equal; lra.
Qed.

(** C10, as stated, fails on JavaScript numbers: for an attic of 5 sq ft the
    binary64 intake area is not 1.5 times the binary64 exhaust area (0.02
    against 0.019999999999999997); the sum of the two is the total. *)
Lemma attic_intake_is_not_exactly_1_5_exhaust_in_binary64 :
  exists r,
    Attic.calculateVentilation (num := PrimFloat.float) (attic_example "5") = Produced r
    /\ eq (Attic.intake (Attic.requiredVentArea r))
          (Attic.INTAKE_TO_EXHAUST_RATIO * Attic.exhaust (Attic.requiredVentArea r))%js
       = false
    /\ eq (Attic.intake (Attic.requiredVentArea r)
           + Attic.exhaust (Attic.requiredVentArea r))%js
          (parseFloat "5" * Attic.RECOMMENDED_VENT_RATIO)%js
       = true.
Proof.
  eexists. split; [vm_compute; reflexivity |].
  split; vm_compute; reflexivity.
Qed.

(** C10, amended: in exact arithmetic, for every attic-ventilation state
    whose required fields are present and whose area parses to a number, the
    required areas satisfy intake = 1.5 x exhaust and
    intake + exhaust = area x (1/150), and they are a function of the area
    alone (in binary64 the first equation holds up to rounding only). *)
Theorem attic_required_vent_areas (s : Attic.State number) (a : R) :
  present (Attic_required (Attic.inputs s)) = true ->
  parseFloat (Attic.atticArea (Attic.inputs s)) = Num a ->
  exists r i e,
    Attic.calculateVentilation s = Produced r
    /\ Attic.requiredVentArea r = Attic.requiredAreas (Num a)
    /\ Attic.intake (Attic.requiredVentArea r) = Num i
    /\ Attic.exhaust (Attic.requiredVentArea r) = Num e
    /\ (i = 1.5 * e)%R
    /\ (i + e = a * (1 / 150))%R.
Proof.
  intros Hp Ha. unfold Attic_required in Hp.
  repeat (apply present_cons in Hp; let H := fresh "F" in destruct Hp as [H Hp]).
  unfold Attic.calculateVentilation.
  rewrite F, F0, F1, F2, F3, F4. cbn [orb]. rewrite Ha.
  eexists. exists (a * (1 / 150) * 1.5 / (1 + 1.5))%R.
  exists (a * (1 / 150) - a * (1 / 150) * 1.5 / (1 + 1.5))%R.
  split; [reflexivity |].
  cbn [Attic.requiredVentArea]. rewrite requiredAreas_exact.
  cbn [Attic.intake Attic.exhaust].
  repeat split; try reflexivity; field; lra.
Qed.

Lemma attic_required_vent_areas_witness :
  exists r i e,
    Attic.calculateVentilation (num := number) (attic_example "1500") = Produced r
    /\ Attic.requiredVentArea r = Attic.requiredAreas (Num 1500)
    /\ Attic.intake (Attic.requiredVentArea r) = Num i
    /\ Attic.exhaust (Attic.requiredVentArea r) = Num e
    /\ (i = 1.5 * e)%R
    /\ (i + e = 1500 * (1 / 150))%R.
Proof.
  apply (attic_required_vent_areas (attic_example "1500") 1500).
  - reflexivity.
  - cbv [attic_example Attic.inputs Attic.atticArea parseFloat]. js_parse.
    cbv iota beta. js_eval. num_eq.
Defined.

(** ** Handlers read their inputs only *)





(** ** When a handler produces a result *)

Ltac guard_cases :=
  repeat match goal with
  | |- context [falsy ?f] => destruct (falsy f)
  end.

(** The guards as they are written: whatever the reading of numbers, every
    handler returns without a result, and without failing, exactly when one
    of its required fields is the empty string, and stores a full record when
    they are all non-empty.  Two handlers look a key up in a table (the
    filter's climate zone and filter type, the duct's velocity class) and
    fail when all fields are present but the key is not in the table; the
    uncapped psychrometric handler stores its record once its two wet-bulb
    loops have stopped. *)
Lemma handlers_skip_exactly_when_a_required_field_is_empty
  (num : Type) (N : JSNumber num) (M : JSMath num) :
  (forall s : Capacitor.State num,
      settles (present (Capacitor_required (Capacitor.inputs s))) true
              (Capacitor.calculateCapacitance s))
  /\ (forall s : MoldRisk.State num,
         settles (present (MoldRisk_required (MoldRisk.inputs s))) true
                 (MoldRisk.calculateMoldRisk s))
  /\ (forall s : Dehumidifier.State num,
         settles (present (Dehumidifier_required (Dehumidifier.inputs s))) true
                 (Dehumidifier.calculateDehumidifierSize s))
  /\ (forall s : Attic.State num,
         settles (present (Attic_required (Attic.inputs s))) true
                 (Attic.calculateVentilation s))
  /\ (forall s : PsychrometricCapped.State num,
         settles (present (PsychrometricCapped_required (PsychrometricCapped.inputs s)))
                 true (PsychrometricCapped.calculateProperties s))
  /\ (forall s : Pressure.State num,
         settles (present (Pressure_required (Pressure.inputs s))) true
                 (Pressure.calculate s))
  /\ (forall s : Filter.State num,
         settles (present (Filter_required (Filter.inputs s)))
                 (Filter_known (Filter.inputs s))
                 (Filter.calculateFilterParameters s))
  /\ (forall s : Duct.State num,
         settles (Duct_present (Duct.inputs s)) (Duct_known (Duct.inputs s))
                 (Duct.calculateDuctSize s))
  /\ (forall (fuel : nat) (s : Psychrometric.State num),
         match Psychrometric.calculateProperties fuel s with
         | Some o => settles (present (Psychrometric_required (Psychrometric.inputs s)))
                             true o
         | None => present (Psychrometric_required (Psychrometric.inputs s)) = true
         end).
Proof.
  repeat match goal with |- _ /\ _ => split end.
  - intros [i r0].
    unfold Capacitor.calculateCapacitance, Capacitor_required, present.
    cbn [Capacitor.inputs forallb]. guard_cases; cbn; auto.
  - intros [i r0].
    unfold MoldRisk.calculateMoldRisk, MoldRisk_required, present.
    cbn [MoldRisk.inputs forallb]. guard_cases; cbn; auto.
  - intros [i r0].
    unfold Dehumidifier.calculateDehumidifierSize, Dehumidifier_required, present.
    cbn [Dehumidifier.inputs forallb]. guard_cases; cbn; auto.
  - intros [i r0].
    unfold Attic.calculateVentilation, Attic_required, present.
    cbn [Attic.inputs forallb].
    destruct (falsy (Attic.pressureDifferentialText i)), (falsy (Attic.outdoorTemp i)),
      (falsy (Attic.outdoorDewPoint i)), (falsy (Attic.atticTemp i)),
      (falsy (Attic.atticDewPoint i)), (falsy (Attic.atticArea i));
      cbn [orb andb negb settles]; auto.
  - intros [i r0].
    unfold PsychrometricCapped.calculateProperties, PsychrometricCapped_required, present.
    cbn [PsychrometricCapped.inputs forallb].
    destruct (falsy (PsychrometricCapped.enteringDryBulb i)),
      (falsy (PsychrometricCapped.enteringHumidity i)),
      (falsy (PsychrometricCapped.leavingDryBulb i)),
      (falsy (PsychrometricCapped.leavingHumidity i)),
      (falsy (PsychrometricCapped.airflow i)),
      (falsy (PsychrometricCapped.systemSize i)),
      (falsy (PsychrometricCapped.climateZone i));
      cbn [orb andb negb settles]; auto.
  - intros [i r0].
    unfold Pressure.calculate, Pressure.calculateFromAirflow,
      Pressure.calculateFromPressure, Pressure_required, present.
    cbn [Pressure.inputs]. destruct (Pressure.calculationMode i); cbn [forallb].
    + destruct (falsy (Pressure.targetPressure i)), (falsy (Pressure.doorWidth i)),
        (falsy (Pressure.doorHeight i)), (falsy (Pressure.doorUndercut i)),
        (falsy (Pressure.airflow i)); cbn [orb andb negb settles]; auto.
    + destruct (falsy (Pressure.measuredPressure i)), (falsy (Pressure.doorWidth i)),
        (falsy (Pressure.doorHeight i)), (falsy (Pressure.doorUndercut i));
        cbn [orb andb negb settles]; auto.
  - intros [i r0].
    unfold Filter.calculateFilterParameters, Filter_required, Filter_known, present.
    cbn [Filter.inputs forallb].
    destruct (falsy (Filter.systemSize i)), (falsy (Filter.climateZone i)),
      (falsy (Filter.filterWidth i)), (falsy (Filter.filterHeight i)),
      (falsy (Filter.filterType i)); cbn [orb andb negb settles]; auto.
    destruct (CLIMATE_ZONES_cfmPerTon (Filter.climateZone i)); cbn [is_some andb settles];
      auto.
    destruct (Filter.FILTER_TYPES_initialPressureDrops (Filter.filterType i))
      as [[[? ?] ?] |]; cbn [is_some settles]; auto.
  - intros [i r0].
    unfold Duct.calculateDuctSize, Duct.sizeDuct, Duct_present, Duct_required,
      Duct_known, present.
    cbn [Duct.inputs]. destruct (Duct.ductType i) as [d |]; [| reflexivity].
    destruct (Duct.includesRect d); cbn [forallb app].
    + destruct (falsy (Duct.airflow i)), (falsy (Duct.designStaticPressure i)),
        (falsy (Duct.width i)); cbn [orb andb negb settles]; auto;
        destruct (Duct.VELOCITY_LIMITS (Duct.velocityAdjustment i)) as [[? ?] |];
        cbn [is_some settles]; auto.
    + destruct (falsy (Duct.airflow i)), (falsy (Duct.designStaticPressure i));
        cbn [orb andb negb settles]; auto;
        destruct (Duct.VELOCITY_LIMITS (Duct.velocityAdjustment i)) as [[? ?] |];
        cbn [is_some settles]; auto.
  - intros fuel [i r0].
    unfold Psychrometric.calculateProperties, Psychrometric_required, present.
    cbn [Psychrometric.inputs forallb].
    destruct (falsy (Psychrometric.enteringDryBulb i)),
      (falsy (Psychrometric.enteringHumidity i)),
      (falsy (Psychrometric.leavingDryBulb i)),
      (falsy (Psychrometric.leavingHumidity i)),
      (falsy (Psychrometric.airflow i)),
      (falsy (Psychrometric.systemSize i));
      cbn [orb andb negb settles]; auto.
    destruct (Psychrometric.calculateWetBulb fuel _ _); [| reflexivity].
    destruct (Psychrometric.calculateWetBulb fuel _ _); [| reflexivity].
    cbn [settles]. auto.
Qed.

(** ** Number fields: present and parseable *)

Lemma complete_is_present (fields : list string) :
  numberFields fields = true -> complete fields = present fields.
Proof.
  unfold numberFields, complete, present, numberField.
  induction fields as [| f fields IH]; cbn [forallb]; [reflexivity |].
  intros Hn. apply andb_true_iff in Hn. destruct Hn as [Hf Hrest].
  rewrite (IH Hrest). f_equal.
  destruct (falsy f); cbn [negb andb orb] in *; [reflexivity | exact Hf].
Qed.

Lemma settles_produces {A : Type} (present : bool) (o : outcome A) :
  settles present true o -> produces_exactly_when present o.
Proof.
  destruct o; cbn [settles produces_exactly_when]; intuition congruence.
Qed.

(** More fuel does not change what a loop returns. *)
Lemma while_more_fuel {S : Type} (cond : S -> bool) (body : S -> S) :
  forall (fuel fuel' : nat) (s t : S),
    (fuel <= fuel')%nat ->
    while fuel cond body s = Some t -> while fuel' cond body s = Some t.
Proof.
  induction fuel as [| fuel IH]; intros fuel' s t Hle; cbn [while].
  - destruct (cond s) eqn:Hc; [discriminate |].
    intros Ht. destruct fuel'; cbn [while]; rewrite Hc; exact Ht.
  - destruct fuel' as [| fuel']; [lia |]. cbn [while].
    destruct (cond s); [apply IH; lia | auto].
Qed.

Lemma calculateWetBulb_more_fuel {num : Type} `{JSMath num} (db rh wb : num)
  (fuel fuel' : nat) :
  (fuel <= fuel')%nat ->
  Psychrometric.calculateWetBulb fuel db rh = Some wb ->
  Psychrometric.calculateWetBulb fuel' db rh = Some wb.
Proof.
  unfold Psychrometric.calculateWetBulb. intros Hle.
  destruct (while fuel _ _ _) as [v |] eqn:Hw; [| discriminate].
  rewrite (while_more_fuel _ _ fuel fuel' _ v Hle Hw). auto.
Qed.


(** The handler of the uncapped psychrometric component: it returns early,
    whatever the fuel, when a required field is empty; it never fails; and
    when the fields are present it stores its record as soon as the fuel
    covers its two wet-bulb loops. *)
Lemma uncapped_handler_produces {num : Type} `{JSMath num} (s : Psychrometric.State num) :
  let i := Psychrometric.inputs s in
  (present (Psychrometric_required i) = false ->
   forall fuel, Psychrometric.calculateProperties fuel s = Some Skipped)
  /\ (forall fuel, Psychrometric.calculateProperties fuel s <> Some Threw)
  /\ (present (Psychrometric_required i) = true ->
      forall fuel, Psychrometric.calculateProperties fuel s <> Some Skipped)
  /\ (present (Psychrometric_required i) = true ->
      wetBulbReturns (fst (enteringAir i)) (snd (enteringAir i)) ->
      wetBulbReturns (fst (leavingAir i)) (snd (leavingAir i)) ->
      exists fuel r,
        forall fuel', (fuel <= fuel')%nat ->
          Psychrometric.calculateProperties fuel' s = Some (Produced r)).
Proof.
  destruct s as [i r0]. cbv zeta. cbn [Psychrometric.inputs].
  unfold Psychrometric.calculateProperties, wetBulbReturns, enteringAir, leavingAir.
  cbn [Psychrometric.inputs fst snd]. cbv zeta.
  set (db1 := parseFloat (Psychrometric.enteringDryBulb i)).
  set (rh1 := Psychrometric.resolveRH _ db1 _).
  set (db2 := parseFloat (Psychrometric.leavingDryBulb i)).
  set (rh2 := Psychrometric.resolveRH _ db2 _).
  assert (Hguard : present (Psychrometric_required i)
                   = negb (falsy (Psychrometric.enteringDryBulb i)
                           || falsy (Psychrometric.enteringHumidity i)
                           || falsy (Psychrometric.leavingDryBulb i)
                           || falsy (Psychrometric.leavingHumidity i)
                           || falsy (Psychrometric.airflow i)
                           || falsy (Psychrometric.systemSize i))).
  { unfold Psychrometric_required, present. cbn [forallb].
    destruct (falsy (Psychrometric.enteringDryBulb i)),
      (falsy (Psychrometric.enteringHumidity i)),
      (falsy (Psychrometric.leavingDryBulb i)),
      (falsy (Psychrometric.leavingHumidity i)),
      (falsy (Psychrometric.airflow i)),
      (falsy (Psychrometric.systemSize i)); reflexivity. }
  rewrite Hguard.
  destruct (falsy _ || falsy _ || falsy _ || falsy _ || falsy _ || falsy _);
    cbn [negb].
  - repeat split; try discriminate; auto.
  - split; [discriminate |]. split; [| split].
    + intros fuel.
      destruct (Psychrometric.calculateWetBulb fuel db1 rh1); [| discriminate].
      destruct (Psychrometric.calculateWetBulb fuel db2 rh2); discriminate.
    + intros _ fuel.
      destruct (Psychrometric.calculateWetBulb fuel db1 rh1); [| discriminate].
      destruct (Psychrometric.calculateWetBulb fuel db2 rh2); discriminate.
    + intros _ [f1 H1] [f2 H2].
      destruct (Psychrometric.calculateWetBulb f1 db1 rh1) as [wb1 |] eqn:E1;
        [| discriminate].
      destruct (Psychrometric.calculateWetBulb f2 db2 rh2) as [wb2 |] eqn:E2;
        [| discriminate].
      exists (Nat.max f1 f2). eexists. intros fuel' Hle.
      rewrite (calculateWetBulb_more_fuel _ _ _ f1 fuel' ltac:(lia) E1).
      rewrite (calculateWetBulb_more_fuel _ _ _ f2 fuel' ltac:(lia) E2).
      reflexivity.
Qed.

(** ** Objects: what a handler allocates and what it leaves alone *)















(** ** A second invocation *)






(** ** The loop without a cap: the fuel is no input *)

Lemma while_same_result {S : Type} (cond : S -> bool) (body : S -> S) :
  forall (fuel fuel' : nat) (s t t' : S),
    while fuel cond body s = Some t -> while fuel' cond body s = Some t' -> t = t'.
Proof.
  intros fuel fuel' s t t' Ht Ht'.
  destruct (Nat.le_ge_cases fuel fuel') as [Hle | Hle].
  - rewrite (while_more_fuel _ _ _ _ _ _ Hle Ht) in Ht'. congruence.
  - rewrite (while_more_fuel _ _ _ _ _ _ Hle Ht') in Ht. congruence.
Qed.




(** ** Relative humidity as the components use it *)

Lemma Math_min_100 (x : number) :
  Math_min x (int 100) = NotANumber
  \/ exists v : R, Math_min x (int 100) = Num v /\ (v <= 100)%R.
Proof.
  destruct x as [v |]; [| left; reflexivity].
  right. unfold Math_min. js_red.
  destruct (Rle_dec v v) as [_ | Hn]; [| exfalso; apply Hn; lra].
  destruct (Rle_dec 100 100) as [_ | Hn]; [| exfalso; apply Hn; lra].
  destruct (Rlt_dec 100 v) as [Hlt | Hge].
  - exists 100%R. split; [reflexivity | lra].
  - exists v. split; [reflexivity | lra].
Qed.

Lemma capped_relative_humidities (s : PsychrometricCapped.State number) :
  present (PsychrometricCapped_required (PsychrometricCapped.inputs s)) = true ->
  exists r,
    PsychrometricCapped.calculateProperties s = Produced r
    /\ PsychrometricCapped.enteringRH r
       = PsychrometricCapped.resolveRH
           (PsychrometricCapped.enteringHumidityType (PsychrometricCapped.inputs s))
           (parseFloat (PsychrometricCapped.enteringDryBulb (PsychrometricCapped.inputs s)))
           (PsychrometricCapped.enteringHumidity (PsychrometricCapped.inputs s))
    /\ PsychrometricCapped.leavingRH r
       = PsychrometricCapped.resolveRH
           (PsychrometricCapped.leavingHumidityType (PsychrometricCapped.inputs s))
           (parseFloat (PsychrometricCapped.leavingDryBulb (PsychrometricCapped.inputs s)))
           (PsychrometricCapped.leavingHumidity (PsychrometricCapped.inputs s)).
Proof.
  intros Hp. unfold PsychrometricCapped_required in Hp.
  repeat (apply present_cons in Hp; let H := fresh "F" in destruct Hp as [H Hp]).
  unfold PsychrometricCapped.calculateProperties.
  rewrite F, F0, F1, F2, F3, F4, F5. cbn [orb].
  eexists. split; [reflexivity |]. split; reflexivity.
Qed.

(** C3, as stated, fails twice over: the component that clamps does so from
    above only, so an entered relative humidity of -5 is used as -5; and the
    other psychrometric component does not clamp at all, so an entered 150 is
    used as 150. *)
Lemma relative_humidity_is_not_clamped_to_0_100 :
  (exists r,
      PsychrometricCapped.calculateProperties (num := number) (capped_example "-5")
      = Produced r
      /\ PsychrometricCapped.enteringRH r = Num (-5))
  /\ Psychrometric.resolveRH (num := number) Psychrometric.RH (int 75) "150" = Num 150.
Proof.
  split.
  - destruct (capped_relative_humidities (capped_example "-5") eq_refl)
      as (r & Hr & Hin & _).
    exists r. split; [exact Hr |]. rewrite Hin.
    cbv [capped_example PsychrometricCapped.inputs PsychrometricCapped.enteringHumidityType
         PsychrometricCapped.enteringHumidity PsychrometricCapped.enteringDryBulb
         PsychrometricCapped.resolveRH parseFloat].
    js_parse. cbv iota beta. unfold Math_min. js_eval. num_eq.
  - cbv [Psychrometric.resolveRH parseFloat]. js_parse. cbv iota beta. js_eval.
    num_eq.
Qed.

Lemma Math_min_100_Rmin (v : R) : Math_min (Num v) (int 100) = Num (Rmin v 100).
Proof.
  unfold Math_min. js_red.
  destruct (Rle_dec v v) as [_ | Hn]; [| exfalso; apply Hn; lra].
  destruct (Rle_dec 100 100) as [_ | Hn]; [| exfalso; apply Hn; lra].
  destruct (Rlt_dec 100 v) as [Hlt | Hge]; f_equal.
  - rewrite Rmin_right; lra.
  - rewrite Rmin_left; lra.
Qed.

(** What the capped component stores for one air state: the relative
    humidity its humidity field resolves to, and the wet bulb, the humidity
    ratio, the enthalpy and the dew point computed from that relative
    humidity. *)
Lemma capped_air_properties {num : Type} `{JSMath num} (s : PsychrometricCapped.State num) :
  present (PsychrometricCapped_required (PsychrometricCapped.inputs s)) = true ->
  let i := PsychrometricCapped.inputs s in
  let enteringDB := parseFloat (PsychrometricCapped.enteringDryBulb i) in
  let leavingDB := parseFloat (PsychrometricCapped.leavingDryBulb i) in
  exists r,
    PsychrometricCapped.calculateProperties s = Produced r
    /\ PsychrometricCapped.enteringRH r
       = PsychrometricCapped.resolveRH (PsychrometricCapped.enteringHumidityType i)
           enteringDB (PsychrometricCapped.enteringHumidity i)
    /\ PsychrometricCapped.enteringWetBulb r
       = PsychrometricCapped.calculateWetBulb enteringDB (PsychrometricCapped.enteringRH r)
    /\ PsychrometricCapped.enteringHumidityRatio r
       = PsychrometricCapped.calculateHumidityRatio enteringDB
           (PsychrometricCapped.enteringRH r)
    /\ PsychrometricCapped.enteringEnthalpy r
       = PsychrometricCapped.calculateEnthalpy enteringDB
           (PsychrometricCapped.enteringHumidityRatio r)
    /\ PsychrometricCapped.enteringDewPoint r
       = PsychrometricCapped.calculateDewPoint enteringDB (PsychrometricCapped.enteringRH r)
    /\ PsychrometricCapped.leavingRH r
       = PsychrometricCapped.resolveRH (PsychrometricCapped.leavingHumidityType i)
           leavingDB (PsychrometricCapped.leavingHumidity i)
    /\ PsychrometricCapped.leavingWetBulb r
       = PsychrometricCapped.calculateWetBulb leavingDB (PsychrometricCapped.leavingRH r)
    /\ PsychrometricCapped.leavingHumidityRatio r
       = PsychrometricCapped.calculateHumidityRatio leavingDB
           (PsychrometricCapped.leavingRH r)
    /\ PsychrometricCapped.leavingEnthalpy r
       = PsychrometricCapped.calculateEnthalpy leavingDB
           (PsychrometricCapped.leavingHumidityRatio r)
    /\ PsychrometricCapped.leavingDewPoint r
       = PsychrometricCapped.calculateDewPoint leavingDB (PsychrometricCapped.leavingRH r).
Proof.
  intros Hp. unfold PsychrometricCapped_required in Hp.
  repeat (apply present_cons in Hp; let H := fresh "F" in destruct Hp as [H Hp]).
  unfold PsychrometricCapped.calculateProperties.
  rewrite F, F0, F1, F2, F3, F4, F5. cbn [orb]. cbv zeta.
  eexists. split; [reflexivity |].
  cbn [PsychrometricCapped.enteringRH PsychrometricCapped.enteringWetBulb
       PsychrometricCapped.enteringHumidityRatio PsychrometricCapped.enteringEnthalpy
       PsychrometricCapped.enteringDewPoint PsychrometricCapped.leavingRH
       PsychrometricCapped.leavingWetBulb PsychrometricCapped.leavingHumidityRatio
       PsychrometricCapped.leavingEnthalpy PsychrometricCapped.leavingDewPoint].
  repeat split; reflexivity.
Qed.

(** What a humidity field resolves to in the capped component, by its kind:
    the smaller of the entered relative humidity and 100; the smaller of the
    relative humidity of the entered dew point and 100; the relative humidity
    of the entered wet bulb as it is. *)
Lemma capped_resolveRH (kind : PsychrometricCapped.HumidityType) (db : number)
  (humidity : string) :
  (kind = PsychrometricCapped.RH ->
   PsychrometricCapped.resolveRH kind db humidity
   = Math_min (parseFloat humidity) (int 100))
  /\ (kind = PsychrometricCapped.DP ->
      PsychrometricCapped.resolveRH kind db humidity
      = Math_min (PsychrometricCapped.calculateSaturationPressure (parseFloat humidity)
                  / PsychrometricCapped.calculateSaturationPressure db * int 100)%js
                 (int 100))
  /\ (kind = PsychrometricCapped.WB ->
      PsychrometricCapped.resolveRH kind db humidity
      = PsychrometricCapped.calculateRHFromWetBulb db (parseFloat humidity))
  /\ (kind <> PsychrometricCapped.WB ->
      at_most_100 (PsychrometricCapped.resolveRH kind db humidity))
  /\ (kind = PsychrometricCapped.RH ->
      forall v : R,
        parseFloat humidity = Num v ->
        PsychrometricCapped.resolveRH kind db humidity = Num (Rmin v 100)).
Proof.
  repeat split; intros Hk; subst; try reflexivity.
  - destruct kind; try congruence; apply Math_min_100.
  - intros v Hv. cbn [PsychrometricCapped.resolveRH]. rewrite Hv. apply Math_min_100_Rmin.
Qed.

Lemma mold_risk_uses_the_entered_humidity {num : Type} `{JSMath num}
  (s : MoldRisk.State num) :
  present (MoldRisk_required (MoldRisk.inputs s)) = true ->
  let temp := parseFloat (MoldRisk.dryBulb (MoldRisk.inputs s)) in
  let rh := parseFloat (MoldRisk.relativeHumidity (MoldRisk.inputs s)) in
  exists r,
    MoldRisk.calculateMoldRisk s = Produced r
    /\ MoldRisk.dewPoint r = MoldRisk.calculateDewPoint temp rh
    /\ MoldRisk.absoluteHumidity r = MoldRisk.calculateAbsoluteHumidity temp rh
    /\ MoldRisk.riskLevel r = fst (MoldRisk.calculateRiskLevel temp rh).
Proof.
  intros Hp. unfold MoldRisk_required in Hp.
  repeat (apply present_cons in Hp; let H := fresh "F" in destruct Hp as [H Hp]).
  unfold MoldRisk.calculateMoldRisk. rewrite F, F0. cbn [orb]. cbv zeta.
  eexists. split; [reflexivity |]. repeat split; reflexivity.
Qed.

(** C3, amended: of the components that compute with a relative humidity,
    only the psychrometric one with the capped wet-bulb loop bounds it, and
    only from above.  When its required fields are present, a relative
    humidity entered directly is used as min(value, 100) and one derived from
    a dew-point entry as min(derived value, 100), so it is at most 100 (or
    NaN), and an entry at most 100, also a negative one, is used as it is;
    this bounded value is the relative humidity the component stores and the
    one its wet bulb, humidity ratio, enthalpy and dew point are computed
    from.  A relative humidity derived from a wet-bulb entry is used as
    derived, without a bound; the other psychrometric component and the
    mold-risk calculator compute with the entered value as it is. *)
Theorem capped_relative_humidity_is_used_as_min_100
  (s : PsychrometricCapped.State number) :
  present (PsychrometricCapped_required (PsychrometricCapped.inputs s)) = true ->
  let i := PsychrometricCapped.inputs s in
  let enteringDB := parseFloat (PsychrometricCapped.enteringDryBulb i) in
  let leavingDB := parseFloat (PsychrometricCapped.leavingDryBulb i) in
  let enteringRH :=
    PsychrometricCapped.resolveRH (PsychrometricCapped.enteringHumidityType i)
                                  enteringDB (PsychrometricCapped.enteringHumidity i) in
  let leavingRH :=
    PsychrometricCapped.resolveRH (PsychrometricCapped.leavingHumidityType i)
                                  leavingDB (PsychrometricCapped.leavingHumidity i) in
  (exists r,
      PsychrometricCapped.calculateProperties s = Produced r
      (* what is stored for the entering air *)
      /\ PsychrometricCapped.enteringRH r = enteringRH
      /\ PsychrometricCapped.enteringWetBulb r
         = PsychrometricCapped.calculateWetBulb enteringDB enteringRH
      /\ PsychrometricCapped.enteringHumidityRatio r
         = PsychrometricCapped.calculateHumidityRatio enteringDB enteringRH
      /\ PsychrometricCapped.enteringEnthalpy r
         = PsychrometricCapped.calculateEnthalpy
             enteringDB (PsychrometricCapped.calculateHumidityRatio enteringDB enteringRH)
      /\ PsychrometricCapped.enteringDewPoint r
         = PsychrometricCapped.calculateDewPoint enteringDB enteringRH
      (* what is stored for the leaving air *)
      /\ PsychrometricCapped.leavingRH r = leavingRH
      /\ PsychrometricCapped.leavingWetBulb r
         = PsychrometricCapped.calculateWetBulb leavingDB leavingRH
      /\ PsychrometricCapped.leavingHumidityRatio r
         = PsychrometricCapped.calculateHumidityRatio leavingDB leavingRH
      /\ PsychrometricCapped.leavingEnthalpy r
         = PsychrometricCapped.calculateEnthalpy
             leavingDB (PsychrometricCapped.calculateHumidityRatio leavingDB leavingRH)
      /\ PsychrometricCapped.leavingDewPoint r
         = PsychrometricCapped.calculateDewPoint leavingDB leavingRH)
  (* the relative humidity of the entering air, by the kind of the entry *)
  /\ (PsychrometricCapped.enteringHumidityType i = PsychrometricCapped.RH ->
      enteringRH = Math_min (parseFloat (PsychrometricCapped.enteringHumidity i)) (int 100)
      /\ forall v : R,
           parseFloat (PsychrometricCapped.enteringHumidity i) = Num v ->
           enteringRH = Num (Rmin v 100))
  /\ (PsychrometricCapped.enteringHumidityType i = PsychrometricCapped.DP ->
      enteringRH
      = Math_min (PsychrometricCapped.calculateSaturationPressure
                    (parseFloat (PsychrometricCapped.enteringHumidity i))
                  / PsychrometricCapped.calculateSaturationPressure enteringDB
                  * int 100)%js
                 (int 100))
  /\ (PsychrometricCapped.enteringHumidityType i = PsychrometricCapped.WB ->
      enteringRH
      = PsychrometricCapped.calculateRHFromWetBulb
          enteringDB (parseFloat (PsychrometricCapped.enteringHumidity i)))
  /\ (PsychrometricCapped.enteringHumidityType i <> PsychrometricCapped.WB ->
      at_most_100 enteringRH)
  (* and of the leaving air *)
  /\ (PsychrometricCapped.leavingHumidityType i = PsychrometricCapped.RH ->
      leavingRH = Math_min (parseFloat (PsychrometricCapped.leavingHumidity i)) (int 100)
      /\ forall v : R,
           parseFloat (PsychrometricCapped.leavingHumidity i) = Num v ->
           leavingRH = Num (Rmin v 100))
  /\ (PsychrometricCapped.leavingHumidityType i = PsychrometricCapped.DP ->
      leavingRH
      = Math_min (PsychrometricCapped.calculateSaturationPressure
                    (parseFloat (PsychrometricCapped.leavingHumidity i))
                  / PsychrometricCapped.calculateSaturationPressure leavingDB
                  * int 100)%js
                 (int 100))
  /\ (PsychrometricCapped.leavingHumidityType i = PsychrometricCapped.WB ->
      leavingRH
      = PsychrometricCapped.calculateRHFromWetBulb
          leavingDB (parseFloat (PsychrometricCapped.leavingHumidity i)))
  /\ (PsychrometricCapped.leavingHumidityType i <> PsychrometricCapped.WB ->
      at_most_100 leavingRH)
  (* the component without the cap, and the mold-risk calculator *)
  /\ (forall db humidity,
         Psychrometric.resolveRH (num := number) Psychrometric.RH db humidity
         = parseFloat humidity)
  /\ (forall m : MoldRisk.State number,
         present (MoldRisk_required (MoldRisk.inputs m)) = true ->
         let temp := parseFloat (MoldRisk.dryBulb (MoldRisk.inputs m)) in
         let rh := parseFloat (MoldRisk.relativeHumidity (MoldRisk.inputs m)) in
         exists r,
           MoldRisk.calculateMoldRisk m = Produced r
           /\ MoldRisk.dewPoint r = MoldRisk.calculateDewPoint temp rh
           /\ MoldRisk.absoluteHumidity r = MoldRisk.calculateAbsoluteHumidity temp rh
           /\ MoldRisk.riskLevel r = fst (MoldRisk.calculateRiskLevel temp rh)).
Proof.
  intros Hp i enteringDB leavingDB enteringRH leavingRH.
  destruct (capped_air_properties s Hp)
    as (r & Hr & Hin & Hwb1 & Hw1 & Hh1 & Hdp1 & Hout & Hwb2 & Hw2 & Hh2 & Hdp2).
  fold i enteringDB leavingDB in Hin, Hwb1, Hw1, Hh1, Hdp1, Hout, Hwb2, Hw2, Hh2, Hdp2.
  fold enteringRH in Hin. fold leavingRH in Hout.
  rewrite Hw1 in Hh1. rewrite Hw2 in Hh2.
  rewrite Hin in Hwb1, Hw1, Hh1, Hdp1. rewrite Hout in Hwb2, Hw2, Hh2, Hdp2.
  destruct (capped_resolveRH (PsychrometricCapped.enteringHumidityType i) enteringDB
              (PsychrometricCapped.enteringHumidity i)) as (A1 & A2 & A3 & A4 & A5).
  destruct (capped_resolveRH (PsychrometricCapped.leavingHumidityType i) leavingDB
              (PsychrometricCapped.leavingHumidity i)) as (B1 & B2 & B3 & B4 & B5).
  split.
  { exists r. repeat split; assumption. }
  split; [intros Hk; split; [exact (A1 Hk) | exact (A5 Hk)] |].
  split; [exact A2 |]. split; [exact A3 |]. split; [exact A4 |].
  split; [intros Hk; split; [exact (B1 Hk) | exact (B5 Hk)] |].
  split; [exact B2 |]. split; [exact B3 |]. split; [exact B4 |].
  split; [intros db humidity; reflexivity |].
  intros m Hm. apply (mold_risk_uses_the_entered_humidity m Hm).
Qed.

Lemma capped_relative_humidity_is_used_as_min_100_witness :
  exists r,
    PsychrometricCapped.calculateProperties (num := number) (capped_example "150")
    = Produced r
    /\ PsychrometricCapped.enteringRH r = Num 100
    /\ PsychrometricCapped.enteringHumidityRatio r
       = PsychrometricCapped.calculateHumidityRatio (parseFloat "75") (Num 100).
Proof.
  destruct (capped_relative_humidity_is_used_as_min_100 (capped_example "150") eq_refl)
    as ((r & Hr & Hrh & _ & Hw & _) & (_ & Hmin) & _).
  { reflexivity. }
  assert (H150 : parseFloat (num := number) "150" = Num 150)
    by (cbv [parseFloat]; js_parse; cbv iota beta; js_eval; num_eq).
  specialize (Hmin 150 H150).
  exists r. split; [exact Hr |].
  rewrite Hw, Hrh, Hmin. rewrite Rmin_right by lra. split; reflexivity.
Defined.

(** ** Dehumidifier sizing *)

Lemma ge_int (z : Z) (c : R) :
  (int z >=? Num c)%js = if Rle_dec c (IZR z) then true else false.
Proof.
  unfold ge. js_red. rewrite Z.pow_0_r, Z.mul_1_r. reflexivity.
Qed.

(** The first element of an ascending list that is at least [c] is the least
    such element; when there is none, every element is below [c]. *)
Lemma find_first_at_least (c : R) (l : list Z) :
  StronglySorted Z.le l ->
  match find (fun size : number => (size >=? Num c)%js) (map int l) with
  | Some size =>
      exists z : Z, In z l /\ size = int z /\ (c <= IZR z)%R
                    /\ forall z' : Z, In z' l -> (c <= IZR z')%R -> (z <= z')%Z
  | None => forall z : Z, In z l -> (IZR z < c)%R
  end.
Proof.
  induction 1 as [| z l Hs IH Hall]; cbn [map find].
  - intros z [].
  - rewrite ge_int. destruct (Rle_dec c (IZR z)) as [Hle | Hgt].
    + exists z. split; [now left |]. split; [reflexivity |]. split; [exact Hle |].
      intros z' [<- | Hin] _; [lia |].
      rewrite Forall_forall in Hall. now apply Hall.
    + destruct (find _ (map int l)) as [size |].
      * destruct IH as (z0 & Hin & Hsize & Hle & Hleast).
        exists z0. split; [now right |]. split; [exact Hsize |]. split; [exact Hle |].
        intros z' [<- | Hin'] Hc; [lra | now apply Hleast].
      * intros z' [<- | Hin]; [lra | now apply IH].
Qed.

Lemma STANDARD_SIZES_sorted : StronglySorted Z.le Dehumidifier.STANDARD_SIZES_Z.
Proof.
  unfold Dehumidifier.STANDARD_SIZES_Z.
  repeat (constructor; [| repeat (constructor; try lia)]). constructor.
Qed.

Lemma largestSize_250 : Dehumidifier.largestSize (num := number) = int 250.
Proof. reflexivity. Qed.

(** The record the handler stores when its three fields hold numbers. *)
Lemma dehumidifier_record (s : Dehumidifier.State number) (latentBTU temp rh : R) :
  present (Dehumidifier_required (Dehumidifier.inputs s)) = true ->
  parseFloat (Dehumidifier.latentLoad (Dehumidifier.inputs s)) = Num latentBTU ->
  parseFloat (Dehumidifier.indoorTemp (Dehumidifier.inputs s)) = Num temp ->
  parseFloat (Dehumidifier.indoorRH (Dehumidifier.inputs s)) = Num rh ->
  let c := required_capacity latentBTU temp rh in
  let size :=
    match find (fun size : number => (size >=? Num c)%js) Dehumidifier.STANDARD_SIZES with
    | Some size => size
    | None => int 250
    end in
  Dehumidifier.calculateDehumidifierSize s
  = Produced
      {| Dehumidifier.requiredCapacity := Num c;
         Dehumidifier.pintsPerDay := Num (latentBTU * 0.0833 * 24);
         Dehumidifier.recommendedSize := size;
         Dehumidifier.warnings :=
           (if Rlt_dec temp 65 then [Dehumidifier.LowTemperature] else [])
           ++ (if Rlt_dec rh 60 then [Dehumidifier.LowHumidity] else [])
           ++ (if (size <? Num c)%js then [Dehumidifier.ExceedsLargestUnit] else [])
           ++ (if Rlt_dec 65 rh then [Dehumidifier.HighHumidity] else []) |}.
Proof.
  intros Hp Hl Ht Hr c size. unfold Dehumidifier_required in Hp.
  repeat (apply present_cons in Hp; let H := fresh "F" in destruct Hp as [H Hp]).
  unfold Dehumidifier.calculateDehumidifierSize.
  rewrite F, F0, F1, Hl, Ht, Hr. cbn [orb]. cbv zeta.
  rewrite largestSize_250.
  assert (Hc : (((Num latentBTU * Dehumidifier.BTU_TO_PINTS * int 24)
                 / (if (Num rh <? int 60)%js
                    then (if (Num temp <? int 65)%js then int 1 * dec 7 1
                          else if (Num temp <? int 70)%js then int 1 * dec 85 2
                          else int 1) * dec 8 1
                    else (if (Num temp <? int 65)%js then int 1 * dec 7 1
                          else if (Num temp <? int 70)%js then int 1 * dec 85 2
                          else int 1)))
                * Dehumidifier.SAFETY_FACTOR)%js = Num c).
  { unfold c, required_capacity, derating, Dehumidifier.BTU_TO_PINTS,
      Dehumidifier.SAFETY_FACTOR.
    js_red.
    destruct (Rlt_dec rh 60), (Rlt_dec temp 65), (Rlt_dec temp 70); try lra;
      js_eval; f_equal; real_eq. }
  rewrite Hc. fold size.
  unfold Dehumidifier.BTU_TO_PINTS, gt. js_red.
  destruct (Rlt_dec temp 65), (Rlt_dec rh 60), (Rlt_dec 65 rh); reflexivity.
Qed.

Lemma dehumidifier_example_parses :
  parseFloat (num := number) "10000" = Num 10000
  /\ parseFloat (num := number) "75" = Num 75
  /\ parseFloat (num := number) "65" = Num 65.
Proof.
  repeat split; cbv [parseFloat]; js_parse; cbv iota beta; js_eval; num_eq.
Qed.

Lemma dehumidifier_example_capacity : required_capacity 10000 75 65 = 23990.4%R.
Proof.
  unfold required_capacity, derating.
  destruct (Rlt_dec 75 65), (Rlt_dec 75 70), (Rlt_dec 65 60); try lra.
Qed.

(** C7, as stated, fails at its own example: for a latent load of 10,000
    BTU/hr at 75 degrees F and 65% the required capacity is 23,990.4 pints a
    day, no standard size is that large, and the recommended size is 250,
    which is not at least the required capacity. *)
Lemma dehumidifier_example_recommends_less_than_required :
  exists r,
    Dehumidifier.calculateDehumidifierSize (num := number) dehumidifier_example
    = Produced r
    /\ Dehumidifier.requiredCapacity r = Num 23990.4
    /\ Dehumidifier.recommendedSize r = Num 250
    /\ (Dehumidifier.recommendedSize r >=? Dehumidifier.requiredCapacity r)%js = false.
Proof.
  destruct dehumidifier_example_parses as (Hl & Ht & Hr).
  eexists. split.
  - apply (dehumidifier_record dehumidifier_example 10000 75 65 eq_refl Hl Ht Hr).
  - cbn [Dehumidifier.requiredCapacity Dehumidifier.recommendedSize].
    rewrite dehumidifier_example_capacity.
    assert (Hsize : match find (fun size : number => (size >=? Num 23990.4)%js)
                               Dehumidifier.STANDARD_SIZES with
                    | Some size => size
                    | None => int 250
                    end = Num 250).
    { cbv [Dehumidifier.STANDARD_SIZES Dehumidifier.STANDARD_SIZES_Z map find].
      repeat (rewrite ge_int;
              match goal with
              | |- context [Rle_dec ?a ?b] => destruct (Rle_dec a b); [exfalso; lra |]
              end).
      js_eval. num_eq. }
    rewrite Hsize. split; [reflexivity |]. split; [reflexivity |].
    unfold ge. js_eval. reflexivity.
Qed.

(** C7, amended: for every dehumidifier input whose three fields hold
    numbers, the required capacity is the base pints/day (latent BTU/hr x
    0.0833 x 24) divided by the condition-derating factor and multiplied by
    the 1.2 safety factor; when it is at most 250 the recommended size is the
    smallest of the standard sizes (20, 30, 35, 50, 70, 90, 120, 150, 180,
    250) that is at least the required capacity, and otherwise it is the
    largest size, 250, with the warning that the capacity exceeds the largest
    standard unit; at 75 degrees F and 65% no derating is applied. *)
Theorem dehumidifier_recommended_size
  (s : Dehumidifier.State number) (latentBTU temp rh : R) :
  present (Dehumidifier_required (Dehumidifier.inputs s)) = true ->
  parseFloat (Dehumidifier.latentLoad (Dehumidifier.inputs s)) = Num latentBTU ->
  parseFloat (Dehumidifier.indoorTemp (Dehumidifier.inputs s)) = Num temp ->
  parseFloat (Dehumidifier.indoorRH (Dehumidifier.inputs s)) = Num rh ->
  exists r,
    Dehumidifier.calculateDehumidifierSize s = Produced r
    /\ Dehumidifier.pintsPerDay r = Num (latentBTU * 0.0833 * 24)
    /\ Dehumidifier.requiredCapacity r = Num (required_capacity latentBTU temp rh)
    /\ ((required_capacity latentBTU temp rh <= 250)%R ->
        exists z : Z,
          In z Dehumidifier.STANDARD_SIZES_Z
          /\ Dehumidifier.recommendedSize r = int z
          /\ (required_capacity latentBTU temp rh <= IZR z)%R
          /\ forall z' : Z,
               In z' Dehumidifier.STANDARD_SIZES_Z ->
               (required_capacity latentBTU temp rh <= IZR z')%R -> (z <= z')%Z)
    /\ ((250 < required_capacity latentBTU temp rh)%R ->
        Dehumidifier.recommendedSize r = int 250
        /\ In Dehumidifier.ExceedsLargestUnit (Dehumidifier.warnings r))
    /\ derating 75 65 = 1%R.
Proof.
  intros Hp Hl Ht Hr.
  eexists. split; [apply (dehumidifier_record s latentBTU temp rh Hp Hl Ht Hr) |].
  cbn [Dehumidifier.pintsPerDay Dehumidifier.requiredCapacity
       Dehumidifier.recommendedSize Dehumidifier.warnings].
  set (c := required_capacity latentBTU temp rh).
  split; [reflexivity |]. split; [reflexivity |].
  pose proof (find_first_at_least c _ STANDARD_SIZES_sorted) as Hfind.
  fold (Dehumidifier.STANDARD_SIZES (num := number)) in Hfind.
  destruct (find _ Dehumidifier.STANDARD_SIZES) as [size |].
  - destruct Hfind as (z & Hin & -> & Hle & Hleast).
    split; [intros _; exists z; auto |]. split.
    + intros Hbig. exfalso.
      assert (z <= 250)%Z.
      { unfold Dehumidifier.STANDARD_SIZES_Z in Hin. cbn [In] in Hin.
        intuition lia. }
      apply IZR_le in H. lra.
    + unfold derating.
      destruct (Rlt_dec 75 65), (Rlt_dec 75 70), (Rlt_dec 65 60); lra.
  - split.
    + intros Hsmall. exfalso.
      assert (IZR 250 < c)%R by (apply Hfind; cbv; tauto). lra.
    + split.
      * intros Hbig. split; [reflexivity |].
        js_red. destruct (Rlt_dec 250 c) as [_ | Hn]; [| exfalso; lra].
        apply in_or_app. right. apply in_or_app. right. apply in_or_app. left.
        now left.
      * unfold derating.
        destruct (Rlt_dec 75 65), (Rlt_dec 75 70), (Rlt_dec 65 60); lra.
Qed.

Lemma dehumidifier_recommended_size_witness :
  exists r,
    Dehumidifier.calculateDehumidifierSize (num := number) dehumidifier_example
    = Produced r
    /\ Dehumidifier.pintsPerDay r = Num (10000 * 0.0833 * 24)
    /\ Dehumidifier.requiredCapacity r = Num (required_capacity 10000 75 65)
    /\ ((required_capacity 10000 75 65 <= 250)%R ->
        exists z : Z,
          In z Dehumidifier.STANDARD_SIZES_Z
          /\ Dehumidifier.recommendedSize r = int z
          /\ (required_capacity 10000 75 65 <= IZR z)%R
          /\ forall z' : Z,
               In z' Dehumidifier.STANDARD_SIZES_Z ->
               (required_capacity 10000 75 65 <= IZR z')%R -> (z <= z')%Z)
    /\ ((250 < required_capacity 10000 75 65)%R ->
        Dehumidifier.recommendedSize r = int 250
        /\ In Dehumidifier.ExceedsLargestUnit (Dehumidifier.warnings r))
    /\ derating 75 65 = 1%R.
Proof.
  apply (dehumidifier_recommended_size dehumidifier_example 10000 75 65).
  - reflexivity.
  - apply dehumidifier_example_parses.
  - apply dehumidifier_example_parses.
  - apply dehumidifier_example_parses.
Defined.

(** The same example in binary64: the required capacity is above 250, the
    recommended size is 250, and the only warning is that the capacity
    exceeds the largest standard unit. *)
Lemma dehumidifier_example_binary64 :
  exists r,
    Dehumidifier.calculateDehumidifierSize (num := PrimFloat.float) dehumidifier_example
    = Produced r
    /\ (int 250 <? Dehumidifier.requiredCapacity r)%js = true
    /\ eq (Dehumidifier.recommendedSize r) (int 250) = true
    /\ Dehumidifier.warnings r = [Dehumidifier.ExceedsLargestUnit].
Proof.
  eexists. split; [vm_compute; reflexivity |].
  repeat split; vm_compute; reflexivity.
Qed.

(** ** The psychrometric formulas over the reals

    [celsius], [magnus] and [pws] are what [calculateSaturationPressure] of
    "System Performance Calculator.tsx" computes on a finite temperature. *)

Lemma saturation_pressure_Num (t : R) :
  243.04 + celsius t <> 0 ->
  Psychrometric.calculateSaturationPressure (Num t) = Num (pws t).
Proof.
  unfold celsius. intros Hc.
  unfold Psychrometric.calculateSaturationPressure, Psychrometric.WATER_VAPOR_CONSTANT,
    Psychrometric.WATER_VAPOR_TEMP_CONSTANT.
  js_red.
  destruct (Req_dec_T 9 0) as [H9 | _]; [exfalso; lra |].
  destruct (Req_dec_T _ 0) as [H0 | _]; [exfalso; apply Hc; exact H0 |].
  reflexivity.
Qed.

(** The humidity ratio at a finite temperature and relative humidity, as long
    as neither denominator vanishes. *)
Lemma humidity_ratio_Num (t rh : R) :
  243.04 + celsius t <> 0 ->
  14.696 - rh / 100 * pws t <> 0 ->
  Psychrometric.calculateHumidityRatio (Num t) (Num rh)
  = Num (0.622 * (rh / 100 * pws t) / (14.696 - rh / 100 * pws t)).
Proof.
  intros Hc Hd. unfold Psychrometric.calculateHumidityRatio.
  rewrite (saturation_pressure_Num t Hc).
  unfold Psychrometric.ATMOSPHERIC_PRESSURE. js_red.
  destruct (Req_dec_T 100 0) as [H100 | _]; [exfalso; lra |].
  destruct (Req_dec_T _ 0) as [H0 | _]; [exfalso; apply Hd; exact H0 |].
  reflexivity.
Qed.

Lemma int_Num (z : Z) : int z = Num (IZR z).
Proof. unfold int. js_red. rewrite Z.pow_0_r, Z.mul_1_r. reflexivity. Qed.

Lemma celsius_32 : celsius 32 = 0.
Proof. unfold celsius. lra. Qed.

Lemma pws_32 : pws 32 = 6.11.
Proof.
  unfold pws. rewrite celsius_32. unfold magnus.
  replace (17.625 * 0 / (243.04 + 0)) with 0 by lra.
  rewrite exp_0. lra.
Qed.

Lemma pws_75_above_atmospheric : 14.696 < pws 75.
Proof.
  unfold pws.
  assert (Hm : 1.5 <= magnus (celsius 75)).
  { unfold magnus, celsius.
    apply Rmult_le_reg_r with (243.04 + (75 - 32) * 5 / 9); [lra |].
    unfold Rdiv at 2. rewrite Rmult_assoc, Rinv_l by lra. lra. }
  pose proof (exp_ineq1_le (magnus (celsius 75))). lra.
Qed.

(** C5: what the code does at 32 and 75 degrees F.  The saturated humidity
    ratio [humidityRatio(T, 100) = 0.622 pws / (14.696 - pws)] is positive at
    32 degrees F and negative at 75 degrees F, so it is not increasing in the
    temperature: the Magnus pressure (in hPa) passes the 14.696 (psia) it is
    subtracted from near 55 degrees F. *)
Theorem saturated_humidity_ratio_falls_between_32_and_75 :
  exists w32 w75 : R,
    Psychrometric.calculateHumidityRatio (num := number) (int 32) (int 100) = Num w32
    /\ Psychrometric.calculateHumidityRatio (num := number) (int 75) (int 100) = Num w75
    /\ w75 < 0 < w32.
Proof.
  pose proof pws_75_above_atmospheric as H75. pose proof pws_32 as H32.
  exists (0.622 * (100 / 100 * pws 32) / (14.696 - 100 / 100 * pws 32)).
  exists (0.622 * (100 / 100 * pws 75) / (14.696 - 100 / 100 * pws 75)).
  rewrite !int_Num. split; [| split].
  - apply humidity_ratio_Num; [unfold celsius; lra | lra].
  - apply humidity_ratio_Num; [unfold celsius; lra | lra].
  - rewrite H32. split; [| lra].
    set (p := pws 75) in *.
    assert (Hpos : 0 < 0.622 * (100 / 100 * p) / (100 / 100 * p - 14.696))
      by (apply Rdiv_lt_0_compat; lra).
    replace (0.622 * (100 / 100 * p) / (14.696 - 100 / 100 * p))
      with (- (0.622 * (100 / 100 * p) / (100 / 100 * p - 14.696)))
      by (field; lra).
    lra.
Qed.

(** *** The sibling component keeps its units consistent

    The second psychrometric component computes the saturation pressure in
    kPa and subtracts it from 101.325 kPa; its saturated humidity ratio is
    increasing wherever the formula is meaningful (above -237.3 degrees C and
    below the boiling point, where the pressure stays under 101.325). *)

Lemma magnus_kPa_increasing (c1 c2 : R) :
  -237.3 < c1 -> c1 < c2 -> magnus_kPa c1 < magnus_kPa c2.
Proof.
  intros H1 H12. unfold magnus_kPa. apply Rlt_0_minus.
  replace (17.27 * c2 / (c2 + 237.3) - 17.27 * c1 / (c1 + 237.3))
    with (17.27 * 237.3 * (c2 - c1) / ((c1 + 237.3) * (c2 + 237.3)))
    by (field; lra).
  apply Rdiv_lt_0_compat.
  - apply Rmult_lt_0_compat; lra.
  - apply Rmult_lt_0_compat; lra.
Qed.

Lemma pws_kPa_increasing (t1 t2 : R) :
  -237.3 < celsius t1 -> t1 < t2 -> pws_kPa t1 < pws_kPa t2.
Proof.
  intros H1 H12. unfold pws_kPa.
  apply Rmult_lt_compat_l; [lra |]. apply exp_increasing.
  apply magnus_kPa_increasing; [exact H1 | unfold celsius; lra].
Qed.

Lemma capped_saturation_pressure_Num (t : R) :
  celsius t + 237.3 <> 0 ->
  PsychrometricCapped.calculateSaturationPressure (Num t) = Num (pws_kPa t).
Proof.
  unfold celsius. intros Hc.
  unfold PsychrometricCapped.calculateSaturationPressure.
  js_red.
  destruct (Req_dec_T 9 0) as [H9 | _]; [exfalso; lra |].
  destruct (Req_dec_T _ 0) as [H0 | _]; [exfalso; apply Hc; exact H0 |].
  reflexivity.
Qed.

Lemma capped_saturated_humidity_ratio_Num (t : R) :
  celsius t + 237.3 <> 0 ->
  pws_kPa t < 101.325 ->
  PsychrometricCapped.calculateHumidityRatio (Num t) (int 100)
  = Num (0.622 * (100 / 100 * pws_kPa t) / (101.325 - 100 / 100 * pws_kPa t)).
Proof.
  intros Hc Hp. unfold PsychrometricCapped.calculateHumidityRatio.
  rewrite (capped_saturation_pressure_Num t Hc), int_Num.
  js_red.
  destruct (Req_dec_T 100 0) as [H100 | _]; [exfalso; lra |].
  destruct (Req_dec_T _ 0) as [H0 | _]; [exfalso; lra |].
  reflexivity.
Qed.

(** The saturated humidity ratio of the sibling component is increasing in
    the temperature on the domain of its formula. *)
Theorem capped_saturated_humidity_ratio_increasing (t1 t2 : R) :
  -237.3 < celsius t1 -> t1 < t2 -> pws_kPa t2 < 101.325 ->
  exists w1 w2 : R,
    PsychrometricCapped.calculateHumidityRatio (Num t1) (int 100) = Num w1
    /\ PsychrometricCapped.calculateHumidityRatio (Num t2) (int 100) = Num w2
    /\ w1 < w2.
Proof.
  intros H1 H12 H2.
  pose proof (pws_kPa_increasing t1 t2 H1 H12) as Hp.
  assert (Hc2 : -237.3 < celsius t2) by (unfold celsius in *; lra).
  do 2 eexists. split; [| split].
  - apply capped_saturated_humidity_ratio_Num; lra.
  - apply capped_saturated_humidity_ratio_Num; lra.
  - set (p1 := pws_kPa t1) in *. set (p2 := pws_kPa t2) in *.
    apply Rlt_0_minus.
    replace (0.622 * (100 / 100 * p2) / (101.325 - 100 / 100 * p2)
             - 0.622 * (100 / 100 * p1) / (101.325 - 100 / 100 * p1))
      with (0.622 * 101.325 * (p2 - p1) / ((101.325 - p1) * (101.325 - p2)))
      by (field; lra).
    apply Rdiv_lt_0_compat.
    + apply Rmult_lt_0_compat; lra.
    + apply Rmult_lt_0_compat; lra.
Qed.

Lemma capped_saturated_humidity_ratio_increasing_witness :
  exists w1 w2 : R,
    PsychrometricCapped.calculateHumidityRatio (Num 32) (int 100) = Num w1
    /\ PsychrometricCapped.calculateHumidityRatio (Num 33) (int 100) = Num w2
    /\ w1 < w2.
Proof.
  apply (capped_saturated_humidity_ratio_increasing 32 33).
  - unfold celsius. lra.
  - lra.
  - unfold pws_kPa.
    assert (Hm : magnus_kPa (celsius 33) <= 1).
    { unfold magnus_kPa, celsius.
      apply Rmult_le_reg_r with ((33 - 32) * 5 / 9 + 237.3); [lra |].
      unfold Rdiv at 1. rewrite Rmult_assoc, Rinv_l by lra. lra. }
    assert (He : exp (magnus_kPa (celsius 33)) <= exp 1).
    { destruct Hm as [Hlt | ->]; [left; now apply exp_increasing | right; reflexivity]. }
    pose proof exp_le_3. lra.
Defined.

(** ** The uncapped wet-bulb loop at 95 degrees F and 10% relative humidity

    With the pressure units mixed (hPa against psia), the saturation
    pressure at 95 degrees F is above [ATMOSPHERIC_PRESSURE], the residual of
    the loop at the dry-bulb temperature is above 1000, and the iterates climb
    towards a fixed point near 1195 degrees F, shrinking the residual by about
    one hundredth at each step. *)

Lemma exp_double (y : R) : exp (2 * y) = exp y * exp y.
Proof. replace (2 * y) with (y + y) by lra. apply exp_plus. Qed.

Lemma square_le (a b : R) : 0 <= a -> a <= b -> a * a <= b * b.
Proof. intros Ha Hab. apply Rmult_le_compat; lra. Qed.

Lemma exp_upper (y : R) : y < 1 -> exp y <= / (1 - y).
Proof.
  intros Hy. pose proof (exp_ineq1_le (- y)) as H. pose proof (exp_pos y) as Hp.
  rewrite exp_Ropp in H.
  apply Rmult_le_reg_r with (1 - y); [lra |].
  rewrite Rinv_l by lra.
  apply Rmult_le_reg_r with (/ exp y); [now apply Rinv_0_lt_compat |].
  replace (exp y * (1 - y) * / exp y) with (1 - y) by (field; lra).
  lra.
Qed.

Lemma magnus_35 : 2.2186 <= magnus (celsius 95) <= 2.2187.
Proof.
  unfold magnus, celsius.
  replace (17.625 * ((95 - 32) * 5 / 9) / (243.04 + (95 - 32) * 5 / 9))
    with (616.875 / 278.04) by real_eq.
  split.
  - apply Rmult_le_reg_r with 278.04; [lra |].
    unfold Rdiv. rewrite Rmult_assoc, Rinv_l by lra. lra.
  - apply Rmult_le_reg_r with 278.04; [lra |].
    unfold Rdiv. rewrite Rmult_assoc, Rinv_l by lra. lra.
Qed.

Lemma exp_magnus_35 : 8.5 <= exp (magnus (celsius 95)) <= 11.
Proof.
  pose proof magnus_35 as [Hlo Hhi].
  set (m := magnus (celsius 95)) in *.
  split.
  - (* exp m = exp (m/32) ^ 32 and exp (m/32) >= 1 + m/32 *)
    pose proof (exp_ineq1_le (m / 32)) as H1.
    assert (E2 : exp (m / 16) = exp (m / 32) * exp (m / 32))
      by (rewrite <- exp_double; f_equal; lra).
    assert (E4 : exp (m / 8) = exp (m / 16) * exp (m / 16))
      by (rewrite <- exp_double; f_equal; lra).
    assert (E8 : exp (m / 4) = exp (m / 8) * exp (m / 8))
      by (rewrite <- exp_double; f_equal; lra).
    assert (E16 : exp (m / 2) = exp (m / 4) * exp (m / 4))
      by (rewrite <- exp_double; f_equal; lra).
    assert (E32 : exp m = exp (m / 2) * exp (m / 2))
      by (rewrite <- exp_double; f_equal; lra).
    assert (B1 : 1.0693 <= exp (m / 32)) by lra.
    assert (B2 : 1.1434 <= exp (m / 16))
      by (rewrite E2; pose proof (square_le 1.0693 _ ltac:(lra) B1); lra).
    assert (B4 : 1.3073 <= exp (m / 8))
      by (rewrite E4; pose proof (square_le 1.1434 _ ltac:(lra) B2); lra).
    assert (B8 : 1.709 <= exp (m / 4))
      by (rewrite E8; pose proof (square_le 1.3073 _ ltac:(lra) B4); lra).
    assert (B16 : 2.9206 <= exp (m / 2))
      by (rewrite E16; pose proof (square_le 1.709 _ ltac:(lra) B8); lra).
    rewrite E32. pose proof (square_le 2.9206 _ ltac:(lra) B16). lra.
  - (* exp (m/16) <= 1 / (1 - m/16) *)
    pose proof (exp_upper (m / 16) ltac:(lra)) as H1.
    assert (H1' : exp (m / 16) <= 1.161).
    { apply Rle_trans with (1 := H1).
      apply Rmult_le_reg_r with (1 - m / 16); [lra |].
      rewrite Rinv_l by lra. lra. }
    pose proof (exp_pos (m / 16)) as P1.
    assert (E2 : exp (m / 8) = exp (m / 16) * exp (m / 16))
      by (rewrite <- exp_double; f_equal; lra).
    assert (E4 : exp (m / 4) = exp (m / 8) * exp (m / 8))
      by (rewrite <- exp_double; f_equal; lra).
    assert (E8 : exp (m / 2) = exp (m / 4) * exp (m / 4))
      by (rewrite <- exp_double; f_equal; lra).
    assert (E16 : exp m = exp (m / 2) * exp (m / 2))
      by (rewrite <- exp_double; f_equal; lra).
    pose proof (exp_pos (m / 8)) as P2. pose proof (exp_pos (m / 4)) as P4.
    pose proof (exp_pos (m / 2)) as P8.
    assert (B2 : exp (m / 8) <= 1.348)
      by (rewrite E2; pose proof (square_le (exp (m / 16)) 1.161 ltac:(lra) H1'); lra).
    assert (B4 : exp (m / 4) <= 1.8172)
      by (rewrite E4; pose proof (square_le (exp (m / 8)) 1.348 ltac:(lra) B2); lra).
    assert (B8 : exp (m / 2) <= 3.3023)
      by (rewrite E8; pose proof (square_le (exp (m / 4)) 1.8172 ltac:(lra) B4); lra).
    rewrite E16. pose proof (square_le (exp (m / 2)) 3.3023 ltac:(lra) B8). lra.
Qed.

(** The saturation pressure at 95 degrees F (56.18 in fact). *)
Lemma pws_95 : 51.9 <= pws 95 <= 67.3.
Proof. unfold pws. pose proof exp_magnus_35. lra. Qed.

(** The Magnus exponent is increasing above 35 degrees C, by at most 0.0555
    per degree. *)
Lemma magnus_step (c c' : R) :
  35 <= c -> c <= c' ->
  0 <= magnus c' - magnus c <= 0.0555 * (c' - c).
Proof.
  intros Hc Hcc'. unfold magnus.
  replace (17.625 * c' / (243.04 + c') - 17.625 * c / (243.04 + c))
    with (17.625 * 243.04 * (c' - c) / ((243.04 + c) * (243.04 + c')))
    by (field; lra).
  assert (Hd : 278.04 * 278.04 <= (243.04 + c) * (243.04 + c'))
    by (apply Rmult_le_compat; lra).
  set (d := (243.04 + c) * (243.04 + c')) in *.
  assert (Hdpos : 0 < d) by lra.
  split.
  - apply Rmult_le_pos; [| left; now apply Rinv_0_lt_compat].
    apply Rmult_le_pos; lra.
  - apply Rmult_le_reg_r with d; [exact Hdpos |].
    unfold Rdiv. rewrite Rmult_assoc, Rinv_l, Rmult_1_r by lra.
    assert (0 <= (c' - c) * (d - 278.04 * 278.04))
      by (apply Rmult_le_pos; lra).
    lra.
Qed.

Lemma pws_step (t t' : R) :
  95 <= t -> t <= t' ->
  pws t <= pws t' /\ pws t' - pws t <= pws t' * (0.0309 * (t' - t)).
Proof.
  intros Ht Htt'.
  assert (Hc : 35 <= celsius t) by (unfold celsius; lra).
  assert (Hcc' : celsius t <= celsius t') by (unfold celsius; lra).
  destruct (magnus_step _ _ Hc Hcc') as [Hm0 Hm1].
  assert (Hcd : celsius t' - celsius t = 5 / 9 * (t' - t)) by (unfold celsius; lra).
  rewrite Hcd in Hm1. unfold pws.
  set (m := magnus (celsius t)) in *. set (m' := magnus (celsius t')) in *.
  pose proof (exp_pos m') as Hp'.
  (* exp m = exp m' * exp (m - m') >= exp m' * (1 + (m - m')) *)
  assert (He : exp m = exp m' * exp (m - m'))
    by (rewrite <- exp_plus; f_equal; lra).
  pose proof (exp_ineq1_le (m - m')) as H1.
  assert (Hle : exp (m - m') <= 1).
  { destruct Hm0 as [Hlt | Heq].
    - left. rewrite <- exp_0. apply exp_increasing. lra.
    - right. replace (m - m') with 0 by lra. apply exp_0. }
  assert (H2 : exp m' * (1 + (m - m')) <= exp m)
    by (rewrite He; apply Rmult_le_compat_l; lra).
  assert (H3 : exp m <= exp m')
    by (rewrite He; rewrite <- (Rmult_1_r (exp m')) at 2;
        apply Rmult_le_compat_l; lra).
  split; [lra |].
  assert (H4 : exp m' * (m' - m) <= exp m' * (0.0309 * (t' - t)))
    by (apply Rmult_le_compat_l; lra).
  lra.
Qed.

Lemma pws_above_95 (t : R) : 95 <= t -> 51.9 <= pws t.
Proof.
  intros Ht. destruct (pws_step 95 t (Rle_refl 95) Ht) as [H _].
  pose proof pws_95. lra.
Qed.

Lemma minus_wSat_bounds (p : R) : 51.9 <= p -> 0.622 <= minus_wSat p <= 0.868.
Proof.
  intros Hp. unfold minus_wSat. split.
  - apply Rmult_le_reg_r with (p - 14.696); [lra |].
    unfold Rdiv. rewrite Rmult_assoc, Rinv_l by lra. lra.
  - apply Rmult_le_reg_r with (p - 14.696); [lra |].
    unfold Rdiv. rewrite Rmult_assoc, Rinv_l by lra. lra.
Qed.

Lemma minus_wSat_step (p p' delta : R) :
  51.9 <= p -> p <= p' -> p' - p <= p' * delta -> 0 <= delta ->
  0 <= minus_wSat p - minus_wSat p' <= 0.3456 * delta.
Proof.
  intros Hp Hpp' Hd Hdelta. unfold minus_wSat.
  replace (0.622 * p / (p - 14.696) - 0.622 * p' / (p' - 14.696))
    with (0.622 * 14.696 * ((p' - p) * / (p' - 14.696)) * / (p - 14.696))
    by (field; lra).
  assert (Hu : 0 < / (p - 14.696) <= 0.027).
  { split; [apply Rinv_0_lt_compat; lra |].
    apply Rmult_le_reg_r with (p - 14.696); [lra |].
    rewrite Rinv_l by lra. lra. }
  assert (Hv : 0 <= (p' - p) * / (p' - 14.696) <= 1.4 * delta).
  { split.
    - apply Rmult_le_pos; [lra | left; apply Rinv_0_lt_compat; lra].
    - apply Rmult_le_reg_r with (p' - 14.696); [lra |].
      rewrite Rmult_assoc, Rinv_l, Rmult_1_r by lra.
      assert (0 <= delta * (0.4 * p' - 1.4 * 14.696))
        by (apply Rmult_le_pos; lra).
      lra. }
  set (u := / (p - 14.696)) in *. set (v := (p' - p) * / (p' - 14.696)) in *.
  split.
  - apply Rmult_le_pos; [| lra]. apply Rmult_le_pos; lra.
  - assert (H1 : v * u <= 1.4 * delta * 0.027)
      by (apply Rmult_le_compat; lra).
    lra.
Qed.

Lemma pw_95_10_bounds : 5.19 <= pw_95_10 <= 6.73.
Proof. unfold pw_95_10. pose proof pws_95. lra. Qed.

Lemma w_95_10_bounds : 0.339 <= w_95_10 <= 0.526.
Proof.
  pose proof pw_95_10_bounds as Hpw. unfold w_95_10.
  set (pw := pw_95_10) in *. split.
  - apply Rmult_le_reg_r with (14.696 - pw); [lra |].
    unfold Rdiv. rewrite Rmult_assoc, Rinv_l by lra. lra.
  - apply Rmult_le_reg_r with (14.696 - pw); [lra |].
    unfold Rdiv. rewrite Rmult_assoc, Rinv_l by lra. lra.
Qed.

Lemma residual_eq (wb : R) :
  95 <= wb ->
  residual wb = 95 - wb + 1093 * (w_95_10 + minus_wSat (pws wb)).
Proof.
  intros Hwb. pose proof (pws_above_95 wb Hwb) as Hp.
  unfold residual, minus_wSat. field. lra.
Qed.

Lemma residual_bounds (wb : R) :
  95 <= wb -> 1050 - (wb - 95) <= residual wb <= 1524 - (wb - 95).
Proof.
  intros Hwb. rewrite (residual_eq wb Hwb).
  pose proof (minus_wSat_bounds _ (pws_above_95 wb Hwb)).
  pose proof w_95_10_bounds. lra.
Qed.

(** One step below the fixed point stays below it and shrinks the residual
    by at least one hundredth. *)
Lemma residual_next (wb : R) :
  95 <= wb -> 0 <= residual wb ->
  95 <= next wb /\ 0 <= residual (next wb) <= 0.99 * residual wb.
Proof.
  intros Hwb Hr. unfold next.
  set (h := residual wb / 100).
  assert (Hh : 0 <= h) by (unfold h; lra).
  assert (Hwb' : 95 <= wb + h) by lra.
  split; [exact Hwb' |].
  destruct (pws_step wb (wb + h) Hwb ltac:(lra)) as [Hp Hpd].
  replace (wb + h - wb) with h in Hpd by lra.
  destruct (minus_wSat_step (pws wb) (pws (wb + h)) (0.0309 * h)
              (pws_above_95 wb Hwb) Hp Hpd ltac:(lra)) as [Hg0 Hg1].
  rewrite (residual_eq (wb + h) Hwb').
  pose proof (residual_eq wb Hwb) as Hrw.
  assert (Hrh : residual wb = 100 * h) by (unfold h; lra).
  lra.
Qed.

(** *** The loop on finite numbers *)

Lemma pw_Num :
  (int 10 / int 100 * Psychrometric.calculateSaturationPressure (int 95))%js
  = Num pw_95_10.
Proof.
  rewrite !int_Num, saturation_pressure_Num by (unfold celsius; lra).
  js_red. destruct (Req_dec_T 100 0) as [H | _]; [exfalso; lra |].
  reflexivity.
Qed.

Lemma wetBulbBody_Num (wb : R) (e : number) :
  95 <= wb ->
  Psychrometric.wetBulbBody (Num 95) (Num pw_95_10)
    {| Psychrometric.wb := Num wb; Psychrometric.error := e |}
  = {| Psychrometric.wb := Num (next wb);
       Psychrometric.error := Num (residual wb) |}.
Proof.
  intros Hwb. pose proof (pws_above_95 wb Hwb) as Hp.
  pose proof pw_95_10_bounds as Hpw.
  unfold Psychrometric.wetBulbBody. cbn [Psychrometric.wb Psychrometric.error].
  rewrite saturation_pressure_Num by (unfold celsius; lra).
  unfold Psychrometric.ATMOSPHERIC_PRESSURE. js_red.
  destruct (Req_dec_T (14.696 - pws wb) 0) as [H | _]; [exfalso; lra |].
  destruct (Req_dec_T (14.696 - pw_95_10) 0) as [H | _]; [exfalso; lra |].
  destruct (Req_dec_T 100 0) as [H | _]; [exfalso; lra |].
  reflexivity.
Qed.

Lemma wetBulbCond_Num (wb : number) (e : R) :
  Psychrometric.wetBulbCond {| Psychrometric.wb := wb; Psychrometric.error := Num e |}
  = if Rlt_dec 0.01 (Rabs e) then true else false.
Proof. reflexivity. Qed.

Lemma wetBulbCond_true (wb : number) (e : R) :
  0.01 < e ->
  Psychrometric.wetBulbCond {| Psychrometric.wb := wb; Psychrometric.error := Num e |}
  = true.
Proof.
  intros He. rewrite wetBulbCond_Num, Rabs_pos_eq by lra.
  destruct (Rlt_dec 0.01 e); [reflexivity | contradiction].
Qed.

Lemma wetBulbCond_false (wb : number) (e : R) :
  0 <= e <= 0.01 ->
  Psychrometric.wetBulbCond {| Psychrometric.wb := wb; Psychrometric.error := Num e |}
  = false.
Proof.
  intros He. rewrite wetBulbCond_Num, Rabs_pos_eq by lra.
  destruct (Rlt_dec 0.01 e); [lra | reflexivity].
Qed.

Lemma pow_099_decreasing (k : nat) : 0 < 0.99 ^ k /\ 0.99 ^ (S k) <= 0.99 ^ k.
Proof.
  assert (H : 0 < 0.99 ^ k) by (apply pow_lt; lra).
  split; [exact H |]. cbn [pow]. lra.
Qed.

Lemma pow_099_100 : 0.366 <= 0.99 ^ 100.
Proof.
  assert (H5 : 0.95 <= 0.99 ^ 5) by (cbn [pow]; lra).
  assert (E10 : 0.99 ^ 10 = 0.99 ^ 5 * 0.99 ^ 5) by (rewrite <- pow_add; reflexivity).
  assert (E20 : 0.99 ^ 20 = 0.99 ^ 10 * 0.99 ^ 10) by (rewrite <- pow_add; reflexivity).
  assert (E25 : 0.99 ^ 25 = 0.99 ^ 20 * 0.99 ^ 5) by (rewrite <- pow_add; reflexivity).
  assert (E50 : 0.99 ^ 50 = 0.99 ^ 25 * 0.99 ^ 25) by (rewrite <- pow_add; reflexivity).
  assert (E100 : 0.99 ^ 100 = 0.99 ^ 50 * 0.99 ^ 50) by (rewrite <- pow_add; reflexivity).
  assert (B5 : 0.95099 <= 0.99 ^ 5) by (cbn [pow]; lra).
  assert (B10 : 0.90438 <= 0.99 ^ 10)
    by (rewrite E10; pose proof (square_le 0.95099 (0.99 ^ 5) ltac:(lra) B5); lra).
  assert (B20 : 0.8179 <= 0.99 ^ 20)
    by (rewrite E20; pose proof (square_le 0.90438 (0.99 ^ 10) ltac:(lra) B10); lra).
  assert (B25 : 0.7778 <= 0.99 ^ 25).
  { rewrite E25.
    pose proof (Rmult_le_compat 0.8179 (0.99 ^ 20) 0.95099 (0.99 ^ 5)
                  ltac:(lra) ltac:(lra) B20 B5). lra. }
  assert (B50 : 0.6049 <= 0.99 ^ 50)
    by (rewrite E50; pose proof (square_le 0.7778 (0.99 ^ 25) ltac:(lra) B25); lra).
  rewrite E100. pose proof (square_le 0.6049 (0.99 ^ 50) ltac:(lra) B50). lra.
Qed.

Lemma pow_099_le_100 (k : nat) : (k <= 100)%nat -> 0.366 <= 0.99 ^ k.
Proof.
  intros Hk. apply Rle_trans with (1 := pow_099_100).
  induction Hk as [| n Hn IH]; [lra |].
  apply Rle_trans with (1 := proj2 (pow_099_decreasing n)). exact IH.
Qed.

(** While fewer than 100 steps have been made from the dry bulb, the
    residual is still far above the tolerance. *)
Lemma loop_still_running (n k : nat) (wb e : R) :
  (k + n <= 100)%nat ->
  95 <= wb -> wb - 95 <= 1524 * (1 - 0.99 ^ k) -> 0.01 < e ->
  while n Psychrometric.wetBulbCond
        (Psychrometric.wetBulbBody (Num 95) (Num pw_95_10))
        {| Psychrometric.wb := Num wb; Psychrometric.error := Num e |}
  = None.
Proof.
  revert k wb e. induction n as [| n IH]; intros k wb e Hk Hwb Hd He.
  - cbn [while]. rewrite wetBulbCond_true by exact He. reflexivity.
  - cbn [while]. rewrite wetBulbCond_true by exact He.
    rewrite (wetBulbBody_Num wb (Num e) Hwb).
    pose proof (residual_bounds wb Hwb) as [Hlo Hhi].
    pose proof (pow_099_le_100 k ltac:(lia)) as Hq.
    apply (IH (S k)).
    + lia.
    + unfold next. lra.
    + unfold next. cbn [pow]. lra.
    + lra.
Qed.

(** C1: what the code does at a dry bulb of 95 degrees F and 10% relative
    humidity.  The wet-bulb loop of "System Performance Calculator.tsx" has
    no iteration cap, and here it has not stopped after 100 executions of
    its body: the solver does not return within the 100 iterations the
    design contract allows. *)
Theorem uncapped_wet_bulb_loop_passes_100_iterations :
  Psychrometric.calculateWetBulb (num := number) 100 (int 95) (int 10) = None.
Proof.
  unfold Psychrometric.calculateWetBulb. rewrite pw_Num.
  unfold Psychrometric.wetBulbInit. rewrite !int_Num.
  rewrite (loop_still_running 100 0 95 1); [reflexivity | lia | lra | | lra].
  cbn [pow]. lra.
Qed.

(** Below the fixed point the loop stops, at the latest when the residual,
    shrinking by a hundredth per step, is within the tolerance; it stops on
    the step whose residual is between 0 and 0.01. *)
Lemma loop_stops (n : nat) (wb e : R) :
  95 <= wb -> 0 <= residual wb -> residual wb * 0.99 ^ n <= 0.01 -> 0.01 < e ->
  exists wbp : R,
    95 <= wbp /\ 0 <= residual wbp <= 0.01
    /\ while (S n) Psychrometric.wetBulbCond
             (Psychrometric.wetBulbBody (Num 95) (Num pw_95_10))
             {| Psychrometric.wb := Num wb; Psychrometric.error := Num e |}
       = Some {| Psychrometric.wb := Num (next wbp);
                 Psychrometric.error := Num (residual wbp) |}.
Proof.
  revert wb e. induction n as [| n IH]; intros wb e Hwb Hr Hn He.
  - exists wb. cbn [pow] in Hn.
    split; [exact Hwb |]. split; [lra |].
    cbn [while]. rewrite wetBulbCond_true by exact He.
    rewrite (wetBulbBody_Num wb (Num e) Hwb).
    rewrite wetBulbCond_false by lra. reflexivity.
  - change (while (S (S n)) Psychrometric.wetBulbCond
                  (Psychrometric.wetBulbBody (Num 95) (Num pw_95_10))
                  {| Psychrometric.wb := Num wb; Psychrometric.error := Num e |})
      with (if Psychrometric.wetBulbCond
                 {| Psychrometric.wb := Num wb; Psychrometric.error := Num e |}
            then while (S n) Psychrometric.wetBulbCond
                       (Psychrometric.wetBulbBody (Num 95) (Num pw_95_10))
                       (Psychrometric.wetBulbBody (Num 95) (Num pw_95_10)
                          {| Psychrometric.wb := Num wb;
                             Psychrometric.error := Num e |})
            else Some {| Psychrometric.wb := Num wb; Psychrometric.error := Num e |}).
    rewrite wetBulbCond_true by exact He.
    rewrite (wetBulbBody_Num wb (Num e) Hwb).
    destruct (Rle_dec (residual wb) 0.01) as [Hsmall | Hbig].
    + exists wb. split; [exact Hwb |]. split; [lra |].
      cbn [while]. rewrite wetBulbCond_false by lra. reflexivity.
    + destruct (residual_next wb Hwb Hr) as (Hwb' & Hr0 & Hr1).
      apply (IH (next wb) (residual wb)); try assumption; try lra.
      cbn [pow] in Hn. pose proof (pow_099_decreasing n) as [Hq _].
      assert (residual (next wb) * 0.99 ^ n <= 0.99 * residual wb * 0.99 ^ n)
        by (apply Rmult_le_compat_r; lra).
      lra.
Qed.

(** The solver does return at 95 degrees F and 10%, with a wet bulb between
    1144 and 1620 degrees F. *)
Lemma uncapped_wet_bulb_95_10 :
  exists (fuel : nat) (wbf : R),
    Psychrometric.calculateWetBulb (num := number) fuel (int 95) (int 10)
    = Some (Num wbf)
    /\ 1144 <= wbf <= 1620.
Proof.
  pose proof (residual_bounds 95 (Rle_refl 95)) as [Hlo Hhi].
  destruct (pow_lt_1_zero 0.99 ltac:(rewrite Rabs_pos_eq; lra) (0.01 / 1524)
              ltac:(lra)) as [N HN].
  specialize (HN N (Nat.le_refl N)).
  rewrite Rabs_pos_eq in HN by (left; apply pow_lt; lra).
  assert (Hn : residual 95 * 0.99 ^ N <= 0.01).
  { pose proof (pow_099_decreasing N) as [Hq _].
    assert (residual 95 * 0.99 ^ N <= 1524 * 0.99 ^ N)
      by (apply Rmult_le_compat_r; lra).
    lra. }
  destruct (loop_stops N 95 1 (Rle_refl 95) ltac:(lra) Hn ltac:(lra))
    as (wbp & Hwbp & Hrp & Hrun).
  exists (S N), (next wbp). split.
  - unfold Psychrometric.calculateWetBulb. rewrite pw_Num.
    unfold Psychrometric.wetBulbInit. rewrite !int_Num, Hrun. reflexivity.
  - pose proof (residual_bounds wbp Hwbp). unfold next. lra.
Qed.

(** C4: what the code does at a dry bulb of 95 degrees F and 10% relative
    humidity, a pair the claim covers.  The solver of "System Performance
    Calculator.tsx" returns a wet bulb above 1144 degrees F, far above the
    dry bulb of 95, and every run of its loop that returns gives that same
    value: the wet bulb is not between the dew point and the dry bulb. *)
Theorem wet_bulb_above_dry_bulb_at_95_10 :
  exists (fuel : nat) (wbf : R),
    Psychrometric.calculateWetBulb (num := number) fuel (int 95) (int 10)
    = Some (Num wbf)
    /\ 1144 <= wbf
    /\ 95 < wbf
    /\ (forall (fuel' : nat) (wb' : number),
           Psychrometric.calculateWetBulb fuel' (int 95) (int 10) = Some wb' ->
           wb' = Num wbf).
Proof.
  destruct uncapped_wet_bulb_95_10 as (fuel & wbf & Hrun & Hwbf).
  exists fuel, wbf. split; [exact Hrun |]. split; [lra |]. split; [lra |].
  intros fuel' wb' Hrun'.
  destruct (Nat.le_ge_cases fuel fuel') as [Hle | Hle].
  - rewrite (calculateWetBulb_more_fuel _ _ _ _ _ Hle Hrun) in Hrun'. congruence.
  - rewrite (calculateWetBulb_more_fuel _ _ _ _ _ Hle Hrun') in Hrun. congruence.
Qed.

(** The relative humidity read back from a wet bulb between 1144 and 1620
    degrees F at a dry bulb of 95 degrees F is above 21%. *)
Lemma rh_from_wet_bulb_95 (wbf : R) :
  1144 <= wbf <= 1620 ->
  exists rhb : R,
    Psychrometric.calculateRHFromWetBulb (Num 95) (Num wbf) = Num rhb
    /\ 21 <= rhb.
Proof.
  intros Hwbf.
  pose proof (pws_above_95 wbf ltac:(lra)) as Hq. pose proof pws_95 as Hp.
  set (q := pws wbf) in *. set (p := pws 95) in *.
  set (N := (1093 - 0.556 * wbf) * q - 0.24 * (95 - wbf) * 14.696).
  set (D := (1093 + 0.444 * 95 - wbf) * 14.696).
  assert (HD : - 7125 <= D < 0) by (unfold D; lra).
  assert (HN : 9975 <= N).
  { unfold N.
    assert (192 * 51.9 <= (1093 - 0.556 * wbf) * q)
      by (apply Rmult_le_compat; lra).
    lra. }
  assert (Hw : N / D <= - 1.4).
  { apply Rmult_le_reg_r with (- D); [lra |].
    replace (N / D * - D) with (- N) by (field; lra). lra. }
  set (w' := N / D) in *.
  assert (Hpw : 14.696 <= w' * 14.696 / (0.622 + w')).
  { apply Rmult_le_reg_r with (- (0.622 + w')); [lra |].
    replace (w' * 14.696 / (0.622 + w') * - (0.622 + w')) with (- (w' * 14.696))
      by (field; lra).
    lra. }
  set (pw' := w' * 14.696 / (0.622 + w')) in *.
  exists (pw' / p * 100). split.
  - unfold Psychrometric.calculateRHFromWetBulb, Psychrometric.ATMOSPHERIC_PRESSURE.
    rewrite !saturation_pressure_Num by (unfold celsius; lra).
    fold p q. js_red.
    fold N D.
    destruct (Req_dec_T D 0) as [H | _]; [exfalso; lra |].
    fold w'.
    destruct (Req_dec_T (0.622 + w') 0) as [H | _]; [exfalso; lra |].
    fold pw'.
    destruct (Req_dec_T p 0) as [H | _]; [exfalso; lra |].
    reflexivity.
  - assert (14.696 / 67.3 <= pw' / p).
    { apply Rmult_le_reg_r with p; [lra |].
      replace (pw' / p * p) with pw' by (field; lra).
      assert (14.696 / 67.3 * p <= 14.696) ; [| lra].
      apply Rmult_le_reg_r with (67.3 / 14.696); [lra |].
      replace (14.696 / 67.3 * p * (67.3 / 14.696)) with p by real_eq.
      replace (14.696 * (67.3 / 14.696)) with 67.3 by real_eq. lra. }
    lra.
Qed.

(** C6: what the code does at a dry bulb of 95 degrees F and 10% relative
    humidity (both inside the stated ranges).  The solver returns a wet bulb,
    and the relative humidity computed back from it is above 21%: it differs
    from the original 10% by more than 0.5, however the 0.5% is read. *)
Theorem wet_bulb_round_trip_misses_at_95_10 :
  exists (fuel : nat) (wbf rhb : R),
    Psychrometric.calculateWetBulb (num := number) fuel (int 95) (int 10)
    = Some (Num wbf)
    /\ Psychrometric.calculateRHFromWetBulb (int 95) (Num wbf) = Num rhb
    /\ 0.5 < Rabs (rhb - 10).
Proof.
  destruct uncapped_wet_bulb_95_10 as (fuel & wbf & Hrun & Hwbf).
  destruct (rh_from_wet_bulb_95 wbf Hwbf) as (rhb & Hrhb & Hlo).
  exists fuel, wbf, rhb. split; [exact Hrun |]. split.
  - rewrite int_Num. exact Hrhb.
  - rewrite Rabs_pos_eq by lra. lra.
Qed.

(** ** Dew point *)

Lemma ln_nonpositive (x : R) : 0 < x <= 1 -> ln x <= 0.
Proof.
  intros [H0 H1]. destruct H1 as [Hlt | ->].
  - left. rewrite <- ln_1. now apply ln_increasing.
  - right. apply ln_1.
Qed.

(** The dew point of the same component, in exact arithmetic: for every dry
    bulb above -405.472 degrees F (that is, above -243.04 degrees C, where
    the Magnus formula has its pole) and every relative humidity with
    0 < RH <= 100, the dew point the solver computes is a number and is at
    most the dry bulb.  (On binary64 numbers the exponential and the
    logarithm are rounded, and the computed dew point can exceed the dry bulb
    by the last digit when the relative humidity is 100.) *)
Theorem dew_point_at_most_dry_bulb (t rh : R) :
  -405.472 < t -> 0 < rh <= 100 ->
  exists dp : R,
    Psychrometric.calculateDewPoint (Num t) (Num rh) = Num dp /\ dp <= t.
Proof.
  intros Ht Hrh.
  assert (Hc : 0 < 243.04 + celsius t) by (unfold celsius; lra).
  assert (Hln : ln (rh / 100) <= 0) by (apply ln_nonpositive; lra).
  set (c := celsius t) in *.
  set (alpha := ln (rh / 100) + 17.625 * c / (243.04 + c)).
  assert (Hm : 17.625 - 17.625 * c / (243.04 + c) = 17.625 * 243.04 / (243.04 + c))
    by (field; lra).
  assert (Hmpos : 0 < 17.625 * 243.04 / (243.04 + c))
    by (apply Rdiv_lt_0_compat; lra).
  assert (Ha : 0 < 17.625 - alpha) by (unfold alpha; lra).
  assert (Hdew : 243.04 * alpha / (17.625 - alpha) <= c).
  { apply Rmult_le_reg_r with (17.625 - alpha); [exact Ha |].
    unfold Rdiv at 1. rewrite Rmult_assoc, Rinv_l, Rmult_1_r by lra.
    (* alpha * (243.04 + c) <= 17.625 * c *)
    assert (H1 : alpha * (243.04 + c) <= 17.625 * c / (243.04 + c) * (243.04 + c))
      by (apply Rmult_le_compat_r; unfold alpha; lra).
    replace (17.625 * c / (243.04 + c) * (243.04 + c)) with (17.625 * c) in H1
      by (field; lra).
    lra. }
  exists (243.04 * alpha / (17.625 - alpha) * 9 / 5 + 32). split.
  - unfold Psychrometric.calculateDewPoint, Psychrometric.WATER_VAPOR_CONSTANT,
      Psychrometric.WATER_VAPOR_TEMP_CONSTANT.
    js_red.
    destruct (Req_dec_T 9 0) as [H | _]; [exfalso; lra |].
    destruct (Req_dec_T 100 0) as [H | _]; [exfalso; lra |].
    destruct (Rlt_dec 0 (rh / 100)) as [_ | H]; [| exfalso; apply H; lra].
    fold (celsius t). fold c.
    destruct (Req_dec_T (243.04 + c) 0) as [H | _]; [exfalso; lra |].
    fold alpha.
    destruct (Req_dec_T (17.625 - alpha) 0) as [H | _]; [exfalso; lra |].
    destruct (Req_dec_T 5 0) as [H | _]; [exfalso; lra |].
    reflexivity.
  - unfold c, celsius in Hdew. unfold celsius in *. lra.
Qed.

Lemma dew_point_at_most_dry_bulb_witness :
  exists dp : R,
    Psychrometric.calculateDewPoint (Num 95) (Num 10) = Num dp /\ dp <= 95.
Proof.
  apply (dew_point_at_most_dry_bulb 95 10); lra.
Defined.

(** ** Complete fields *)

Lemma uncapped_wet_bulb_returns_at_95_10 :
  wetBulbReturns (num := number)
                 (fst (enteringAir (Psychrometric.inputs (psychrometric_95_10 (num := number)))))
                 (snd (enteringAir (Psychrometric.inputs (psychrometric_95_10 (num := number)))))
  /\ wetBulbReturns (num := number)
                    (fst (leavingAir (Psychrometric.inputs (psychrometric_95_10 (num := number)))))
                    (snd (leavingAir (Psychrometric.inputs (psychrometric_95_10 (num := number))))).
Proof.
  destruct uncapped_wet_bulb_95_10 as (fuel & wbf & Hrun & _).
  split; exists fuel;
    cbv [enteringAir leavingAir psychrometric_95_10 Psychrometric.inputs fst snd
         Psychrometric.enteringDryBulb Psychrometric.enteringHumidity
         Psychrometric.enteringHumidityType Psychrometric.leavingDryBulb
         Psychrometric.leavingHumidity Psychrometric.leavingHumidityType
         Psychrometric.resolveRH parseFloat];
    js_parse; cbv iota beta;
    change (lit 95 0) with (int (num := number) 95);
    change (lit 10 0) with (int (num := number) 10);
    rewrite Hrun; reflexivity.
Qed.

(** On the values its fields can hold, every handler but one produces a
    result exactly when all of its required fields are present and
    parseable.  The text fields are inputs of type number, which hand the
    handler the empty string or a decimal number, and the selections hold the
    empty string or a key they offer; on such fields, whatever the reading of
    numbers, each handler returns early exactly when one of its required
    fields is not complete, stores a full record otherwise, and never fails.
    The psychrometric component whose wet-bulb loop has no cap returns early
    under the same condition and never fails, but it stores its record only
    if its two wet-bulb loops stop, and then as soon as they have. *)
Theorem handlers_produce_exactly_when_their_fields_are_complete
  (num : Type) (N : JSNumber num) (M : JSMath num) :
  (forall s : Capacitor.State num,
      numberFields (Capacitor_required (Capacitor.inputs s)) = true ->
      produces_exactly_when (complete (Capacitor_required (Capacitor.inputs s)))
                            (Capacitor.calculateCapacitance s))
  /\ (forall s : MoldRisk.State num,
         numberFields (MoldRisk_required (MoldRisk.inputs s)) = true ->
         produces_exactly_when (complete (MoldRisk_required (MoldRisk.inputs s)))
                               (MoldRisk.calculateMoldRisk s))
  /\ (forall s : Dehumidifier.State num,
         numberFields (Dehumidifier_required (Dehumidifier.inputs s)) = true ->
         produces_exactly_when (complete (Dehumidifier_required (Dehumidifier.inputs s)))
                               (Dehumidifier.calculateDehumidifierSize s))
  /\ (forall s : Attic.State num,
         numberFields (Attic_required (Attic.inputs s)) = true ->
         produces_exactly_when (complete (Attic_required (Attic.inputs s)))
                               (Attic.calculateVentilation s))
  /\ (forall s : Pressure.State num,
         numberFields (Pressure_required (Pressure.inputs s)) = true ->
         produces_exactly_when (complete (Pressure_required (Pressure.inputs s)))
                               (Pressure.calculate s))
  /\ (forall s : PsychrometricCapped.State num,
         numberFields (PsychrometricCapped_numbers (PsychrometricCapped.inputs s)) = true ->
         produces_exactly_when
           (complete (PsychrometricCapped_numbers (PsychrometricCapped.inputs s))
            && negb (falsy (PsychrometricCapped.climateZone (PsychrometricCapped.inputs s))))
           (PsychrometricCapped.calculateProperties s))
  /\ (forall s : Filter.State num,
         numberFields (Filter_numbers (Filter.inputs s)) = true ->
         Filter_offered (num := num) (Filter.inputs s) = true ->
         produces_exactly_when
           (complete (Filter_numbers (Filter.inputs s))
            && present (Filter_selections (Filter.inputs s)))
           (Filter.calculateFilterParameters s))
  /\ (forall s : Duct.State num,
         numberFields (Duct_numbers (Duct.inputs s)) = true ->
         Duct_known (Duct.inputs s) = true ->
         produces_exactly_when (Duct_complete (Duct.inputs s)) (Duct.calculateDuctSize s))
  /\ (forall s : Psychrometric.State num,
         let i := Psychrometric.inputs s in
         numberFields (Psychrometric_required i) = true ->
         (complete (Psychrometric_required i) = false ->
          forall fuel, Psychrometric.calculateProperties fuel s = Some Skipped)
         /\ (forall fuel, Psychrometric.calculateProperties fuel s <> Some Threw)
         /\ (complete (Psychrometric_required i) = true ->
             forall fuel, Psychrometric.calculateProperties fuel s <> Some Skipped)
         /\ (complete (Psychrometric_required i) = true ->
             wetBulbReturns (fst (enteringAir i)) (snd (enteringAir i)) ->
             wetBulbReturns (fst (leavingAir i)) (snd (leavingAir i)) ->
             exists fuel r,
               forall fuel', (fuel <= fuel')%nat ->
                 Psychrometric.calculateProperties fuel' s = Some (Produced r))).
Proof.
  destruct (handlers_skip_exactly_when_a_required_field_is_empty num N M)
    as (Hcap & Hmold & Hdehum & Hattic & Hcapped & Hpress & Hfilter & Hduct & _).
  repeat match goal with |- _ /\ _ => split end.
  - intros s Hn. rewrite (complete_is_present _ Hn). apply settles_produces, Hcap.
  - intros s Hn. rewrite (complete_is_present _ Hn). apply settles_produces, Hmold.
  - intros s Hn. rewrite (complete_is_present _ Hn). apply settles_produces, Hdehum.
  - intros s Hn. rewrite (complete_is_present _ Hn). apply settles_produces, Hattic.
  - intros s Hn. rewrite (complete_is_present _ Hn). apply settles_produces, Hpress.
  - intros s Hn. rewrite (complete_is_present _ Hn).
    specialize (Hcapped s). apply settles_produces.
    replace (present (PsychrometricCapped_numbers (PsychrometricCapped.inputs s))
             && negb (falsy (PsychrometricCapped.climateZone (PsychrometricCapped.inputs s))))
      with (present (PsychrometricCapped_required (PsychrometricCapped.inputs s)));
      [exact Hcapped |].
    unfold PsychrometricCapped_required, PsychrometricCapped_numbers, present.
    cbn [forallb]. rewrite !andb_true_r, <- !andb_assoc. reflexivity.
  - intros s Hn Hoff. rewrite (complete_is_present _ Hn).
    specialize (Hfilter s). revert Hfilter.
    unfold Filter_offered in Hoff.
    unfold Filter_required, Filter_numbers, Filter_selections, Filter_known, present.
    cbn [forallb].
    destruct (Filter.calculateFilterParameters s); cbn [settles produces_exactly_when];
      destruct (falsy (Filter.systemSize (Filter.inputs s))),
        (falsy (Filter.climateZone (Filter.inputs s))),
        (falsy (Filter.filterWidth (Filter.inputs s))),
        (falsy (Filter.filterHeight (Filter.inputs s))),
        (falsy (Filter.filterType (Filter.inputs s)));
      cbn [negb andb orb] in *; intuition congruence.
  - intros s Hn Hknown.
    specialize (Hduct s). rewrite Hknown in Hduct.
    apply settles_produces.
    replace (Duct_complete (Duct.inputs s)) with (Duct_present (Duct.inputs s));
      [exact Hduct |].
    unfold Duct_complete, Duct_present.
    destruct (Duct.ductType (Duct.inputs s)) as [d |]; [| reflexivity].
    symmetry. apply complete_is_present.
    revert Hn. unfold Duct_numbers, Duct_required, numberFields. cbn [forallb].
    destruct (Duct.includesRect d); cbn [app forallb];
      destruct (numberField (Duct.airflow (Duct.inputs s))),
        (numberField (Duct.designStaticPressure (Duct.inputs s))),
        (numberField (Duct.width (Duct.inputs s))); cbn [andb]; congruence.
  - intros s i Hn. rewrite (complete_is_present _ Hn).
    apply uncapped_handler_produces.
Qed.

Lemma handlers_produce_exactly_when_their_fields_are_complete_witness :
  produces_exactly_when
    (complete (Capacitor_required (Capacitor.inputs (capacitor_5A_230V (num := number)))))
    (Capacitor.calculateCapacitance (num := number) capacitor_5A_230V)
  /\ exists fuel r,
       forall fuel', (fuel <= fuel')%nat ->
         Psychrometric.calculateProperties (num := number) fuel' psychrometric_95_10
         = Some (Produced r).
Proof.
  destruct (handlers_produce_exactly_when_their_fields_are_complete number _ _)
    as (Hcap & _ & _ & _ & _ & _ & _ & _ & Hpsy).
  split.
  - apply Hcap. reflexivity.
  - destruct (Hpsy psychrometric_95_10 eq_refl) as (_ & _ & _ & Hrun).
    apply Hrun.
    + reflexivity.
    + apply uncapped_wet_bulb_returns_at_95_10.
    + apply uncapped_wet_bulb_returns_at_95_10.
Defined.

(** ** The uncapped wet-bulb loop at 48 degrees F and 92% relative humidity

    At this dry bulb and humidity the estimates of the loop do not converge:
    they fall into a cycle between 41.50 and 48.00 degrees F.  The saturation
    pressure is bounded at 48 and at 41.5 degrees F, its slope around both,
    and from these the next estimate on the two ranges the cycle lives in. *)

(** Bounds of the exponential by repeated squaring: [1 + y <= exp y] and
    [exp y <= 1 / (1 - y)] at a small [y], then [exp (2 * y) = exp y * exp y]. *)
Lemma exp_first_order (y lo hi : R) :
  y < 1 -> lo <= 1 + y -> 1 <= hi * (1 - y) -> lo <= exp y <= hi.
Proof.
  intros Hy Hlo Hhi. split.
  - pose proof (exp_ineq1_le y). lra.
  - apply Rle_trans with (1 := exp_upper y Hy).
    apply Rmult_le_reg_r with (1 - y); [lra |].
    rewrite Rinv_l by lra. exact Hhi.
Qed.

Lemma exp_squared (y lo hi lo' hi' : R) :
  0 <= lo -> lo <= exp y <= hi -> lo' <= lo * lo -> hi * hi <= hi' ->
  lo' <= exp (2 * y) <= hi'.
Proof.
  intros H0 [Hlo Hhi] Hlo' Hhi'. rewrite exp_double.
  pose proof (square_le lo (exp y) H0 Hlo).
  pose proof (square_le (exp y) hi ltac:(left; apply exp_pos) Hhi).
  lra.
Qed.

(** The exponential of the Magnus exponent at 48 degrees F (1.862405 in fact). *)
Lemma exp_magnus_48 : 1.86235 <= exp (magnus (celsius 48)) <= 1.86246.
Proof.
  assert (Hm : magnus (celsius 48) = 17625 / 28342)
    by (unfold magnus, celsius; lra).
  set (m := magnus (celsius 48)) in *.
  pose proof (exp_first_order (m / 8192) 1.0000759116949 1.000075917458
                ltac:(lra) ltac:(lra) ltac:(lra)) as B.
  apply (exp_squared _ _ _ 1.0001518291523 1.0001518406795) in B; [| lra ..].
  replace (2 * (m / 8192)) with (m / 4096) in B by lra.
  apply (exp_squared _ _ _ 1.0003036813566 1.0003037044146) in B; [| lra ..].
  replace (2 * (m / 4096)) with (m / 2048) in B by lra.
  apply (exp_squared _ _ _ 1.0006074549355 1.0006075010656) in B; [| lra ..].
  replace (2 * (m / 2048)) with (m / 1024) in B by lra.
  apply (exp_squared _ _ _ 1.0012152788724 1.0012153711888) in B; [| lra ..].
  replace (2 * (m / 1024)) with (m / 512) in B by lra.
  apply (exp_squared _ _ _ 1.0024320346475 1.0024322195048) in B; [| lra ..].
  replace (2 * (m / 512)) with (m / 256) in B by lra.
  apply (exp_squared _ _ _ 1.0048699840875 1.0048703547014) in B; [| lra ..].
  replace (2 * (m / 256)) with (m / 128) in B by lra.
  apply (exp_squared _ _ _ 1.00976368492 1.0097644297578) in B; [| lra ..].
  replace (2 * (m / 128)) with (m / 64) in B by lra.
  apply (exp_squared _ _ _ 1.0196226993832 1.0196242036041) in B; [| lra ..].
  replace (2 * (m / 64)) with (m / 32) in B by lra.
  apply (exp_squared _ _ _ 1.0396304490974 1.0396335165753) in B; [| lra ..].
  replace (2 * (m / 32)) with (m / 16) in B by lra.
  apply (exp_squared _ _ _ 1.0808314706904 1.0808378487868) in B; [| lra ..].
  replace (2 * (m / 16)) with (m / 8) in B by lra.
  apply (exp_squared _ _ _ 1.1681966680347 1.1682104553701) in B; [| lra ..].
  replace (2 * (m / 8)) with (m / 4) in B by lra.
  apply (exp_squared _ _ _ 1.3646834552073 1.3647156680361) in B; [| lra ..].
  replace (2 * (m / 4)) with (m / 2) in B by lra.
  apply (exp_squared _ _ _ 1.8623609329165 1.8624488545833) in B; [| lra ..].
  replace (2 * (m / 2)) with m in B by lra.
  lra.
Qed.

(** And at 41.5 degrees F (1.454415 in fact). *)
Lemma exp_magnus_41_5 : 1.45439 <= exp (magnus (celsius 41.5)) <= 1.45444.
Proof.
  assert (Hm : magnus (celsius 41.5) = 334875 / 893944)
    by (unfold magnus, celsius; lra).
  set (m := magnus (celsius 41.5)) in *.
  pose proof (exp_first_order (m / 8192) 1.0000457280275 1.0000457301188
                ltac:(lra) ltac:(lra) ltac:(lra)) as B.
  apply (exp_squared _ _ _ 1.000091458146 1.0000914623289) in B; [| lra ..].
  replace (2 * (m / 8192)) with (m / 4096) in B by lra.
  apply (exp_squared _ _ _ 1.0001829246565 1.0001829330232) in B; [| lra ..].
  replace (2 * (m / 4096)) with (m / 2048) in B by lra.
  apply (exp_squared _ _ _ 1.0003658827744 1.0003658995109) in B; [| lra ..].
  replace (2 * (m / 2048)) with (m / 1024) in B by lra.
  apply (exp_squared _ _ _ 1.000731899419 1.0007319329043) in B; [| lra ..].
  replace (2 * (m / 1024)) with (m / 512) in B by lra.
  apply (exp_squared _ _ _ 1.0014643345147 1.0014644015344) in B; [| lra ..].
  replace (2 * (m / 512)) with (m / 256) in B by lra.
  apply (exp_squared _ _ _ 1.0029308133049 1.0029309475407) in B; [| lra ..].
  replace (2 * (m / 256)) with (m / 128) in B by lra.
  apply (exp_squared _ _ _ 1.0058702162764 1.0058704855349) in B; [| lra ..].
  replace (2 * (m / 128)) with (m / 64) in B by lra.
  apply (exp_squared _ _ _ 1.0117748919919 1.0117754336703) in B; [| lra ..].
  replace (2 * (m / 64)) with (m / 32) in B by lra.
  apply (exp_squared _ _ _ 1.0236884320652 1.0236895281788) in B; [| lra ..].
  replace (2 * (m / 32)) with (m / 16) in B by lra.
  apply (exp_squared _ _ _ 1.0479380059441 1.047940250103) in B; [| lra ..].
  replace (2 * (m / 16)) with (m / 8) in B by lra.
  apply (exp_squared _ _ _ 1.098174064302 1.098178767786) in B; [| lra ..].
  replace (2 * (m / 8)) with (m / 4) in B by lra.
  apply (exp_squared _ _ _ 1.2059862755055 1.205996606016) in B; [| lra ..].
  replace (2 * (m / 4)) with (m / 2) in B by lra.
  apply (exp_squared _ _ _ 1.4544028967076 1.4544278137222) in B; [| lra ..].
  replace (2 * (m / 2)) with m in B by lra.
  lra.
Qed.

Lemma pws_48 : 11.3789 <= pws 48 <= 11.3797.
Proof. unfold pws. pose proof exp_magnus_48. lra. Qed.

Lemma pws_41_5 : 8.8863 <= pws 41.5 <= 8.8867.
Proof. unfold pws. pose proof exp_magnus_41_5. lra. Qed.

(** The Magnus exponent between two temperatures whose denominators
    243.04 + c lie between [dlo] and [dhi]. *)
Lemma magnus_slope (c c' dlo dhi klo khi : R) :
  0 < dlo -> dlo <= 243.04 + c -> c <= c' -> 243.04 + c' <= dhi ->
  0 <= klo -> 0 <= khi ->
  klo * (dhi * dhi) <= 17.625 * 243.04 ->
  17.625 * 243.04 <= khi * (dlo * dlo) ->
  klo * (c' - c) <= magnus c' - magnus c <= khi * (c' - c).
Proof.
  intros Hdlo Hc Hcc' Hc' Hklo Hkhi Hlo Hhi. unfold magnus.
  replace (17.625 * c' / (243.04 + c') - 17.625 * c / (243.04 + c))
    with (17.625 * 243.04 * (c' - c) / ((243.04 + c) * (243.04 + c')))
    by (field; lra).
  assert (Hd1 : dlo * dlo <= (243.04 + c) * (243.04 + c'))
    by (apply Rmult_le_compat; lra).
  assert (Hd2 : (243.04 + c) * (243.04 + c') <= dhi * dhi)
    by (apply Rmult_le_compat; lra).
  set (d := (243.04 + c) * (243.04 + c')) in *.
  assert (Hdpos : 0 < d) by (assert (0 < dlo * dlo) by (apply Rmult_lt_0_compat; lra); lra).
  split.
  - apply Rmult_le_reg_r with d; [exact Hdpos |].
    unfold Rdiv. rewrite (Rmult_assoc _ (/ d) d), Rinv_l, Rmult_1_r by lra.
    assert (klo * d <= klo * (dhi * dhi)) by (apply Rmult_le_compat_l; lra).
    assert (0 <= (c' - c) * (17.625 * 243.04 - klo * d))
      by (apply Rmult_le_pos; lra).
    lra.
  - apply Rmult_le_reg_r with d; [exact Hdpos |].
    unfold Rdiv. rewrite (Rmult_assoc _ (/ d) d), Rinv_l, Rmult_1_r by lra.
    assert (khi * (dlo * dlo) <= khi * d) by (apply Rmult_le_compat_l; lra).
    assert (0 <= (c' - c) * (khi * d - 17.625 * 243.04))
      by (apply Rmult_le_pos; lra).
    lra.
Qed.

(** The saturation pressure between two temperatures, from the difference
    [delta] of their Magnus exponents. *)
Lemma pws_increment (t t' : R) :
  let delta := magnus (celsius t') - magnus (celsius t) in
  pws t * delta <= pws t' - pws t <= pws t' * delta.
Proof.
  cbv zeta. unfold pws.
  set (m := magnus (celsius t)). set (m' := magnus (celsius t')).
  pose proof (exp_pos m) as Hp. pose proof (exp_pos m') as Hp'.
  assert (E1 : exp m' = exp m * exp (m' - m))
    by (rewrite <- exp_plus; f_equal; lra).
  assert (E2 : exp m = exp m' * exp (m - m'))
    by (rewrite <- exp_plus; f_equal; lra).
  pose proof (exp_ineq1_le (m' - m)) as H1.
  pose proof (exp_ineq1_le (m - m')) as H2.
  assert (G1 : exp m * (1 + (m' - m)) <= exp m')
    by (rewrite E1; apply Rmult_le_compat_l; lra).
  assert (G2 : exp m' * (1 + (m - m')) <= exp m)
    by (rewrite E2; apply Rmult_le_compat_l; lra).
  split; lra.
Qed.

Lemma wSat_increment (u v : R) :
  pws u < 14.696 -> pws v < 14.696 ->
  wSat v - wSat u
  = 0.622 * 14.696 * (pws v - pws u) / ((14.696 - pws u) * (14.696 - pws v)).
Proof. intros Hu Hv. unfold wSat. field. lra. Qed.

(** The saturated humidity ratio between two temperatures [u <= v] at which
    the saturation pressure lies between [plo] and [phi]. *)
Lemma wSat_slope (u v plo phi klo khi slo shi : R) :
  u <= v ->
  0 < plo -> plo <= pws u -> pws v <= phi -> phi < 14.696 ->
  0 <= klo -> 0 <= slo -> 0 <= shi ->
  klo * (v - u) <= magnus (celsius v) - magnus (celsius u) <= khi * (v - u) ->
  slo * ((14.696 - plo) * (14.696 - plo)) <= 0.622 * 14.696 * (plo * klo) ->
  0.622 * 14.696 * (phi * khi) <= shi * ((14.696 - phi) * (14.696 - phi)) ->
  slo * (v - u) <= wSat v - wSat u <= shi * (v - u).
Proof.
  intros Huv Hplo Hpu Hpv Hphi Hklo Hslo Hshi [Hd1 Hd2] Hs1 Hs2.
  destruct (pws_increment u v) as [Hi1 Hi2]. cbv zeta in Hi1, Hi2.
  set (delta := magnus (celsius v) - magnus (celsius u)) in *.
  assert (Hdelta : 0 <= delta).
  { assert (0 <= klo * (v - u)) by (apply Rmult_le_pos; lra). lra. }
  assert (Hn1 : plo * (klo * (v - u)) <= pws v - pws u).
  { apply Rle_trans with (pws u * delta); [| exact Hi1].
    apply Rmult_le_compat; try lra. apply Rmult_le_pos; lra. }
  assert (Hpuv : pws u <= pws v).
  { assert (0 <= plo * (klo * (v - u))); [| lra].
    apply Rmult_le_pos; [lra |]. apply Rmult_le_pos; lra. }
  assert (Hn2 : pws v - pws u <= phi * (khi * (v - u))).
  { apply Rle_trans with (pws v * delta); [exact Hi2 |].
    apply Rmult_le_compat; lra. }
  rewrite wSat_increment by lra.
  set (n := pws v - pws u) in *.
  assert (Hg1 : (14.696 - phi) * (14.696 - phi) <= (14.696 - pws u) * (14.696 - pws v))
    by (apply Rmult_le_compat; lra).
  assert (Hg2 : (14.696 - pws u) * (14.696 - pws v) <= (14.696 - plo) * (14.696 - plo))
    by (apply Rmult_le_compat; lra).
  set (g := (14.696 - pws u) * (14.696 - pws v)) in *.
  assert (Hgpos : 0 < g).
  { assert (0 < (14.696 - phi) * (14.696 - phi)) by (apply Rmult_lt_0_compat; lra). lra. }
  split.
  - apply Rmult_le_reg_r with g; [exact Hgpos |].
    unfold Rdiv. rewrite (Rmult_assoc _ (/ g) g), Rinv_l, Rmult_1_r by lra.
    assert (slo * g <= slo * ((14.696 - plo) * (14.696 - plo)))
      by (apply Rmult_le_compat_l; lra).
    assert (0 <= (v - u) * (0.622 * 14.696 * (plo * klo) - slo * g))
      by (apply Rmult_le_pos; lra).
    lra.
  - apply Rmult_le_reg_r with g; [exact Hgpos |].
    unfold Rdiv. rewrite (Rmult_assoc _ (/ g) g), Rinv_l, Rmult_1_r by lra.
    assert (shi * ((14.696 - phi) * (14.696 - phi)) <= shi * g)
      by (apply Rmult_le_compat_l; lra).
    assert (0 <= (v - u) * (shi * g - 0.622 * 14.696 * (phi * khi)))
      by (apply Rmult_le_pos; lra).
    lra.
Qed.

(** *** Between 47.98 and 48.03 degrees F *)

Lemma magnus_upper_range (u v : R) :
  47.98 <= u -> u <= v -> v <= 48.03 ->
  0.037488 * (v - u) <= magnus (celsius v) - magnus (celsius u) <= 0.0375 * (v - u).
Proof.
  intros Hu Huv Hv.
  destruct (magnus_slope (celsius u) (celsius v) 251.9177 251.9456 0.06748 0.0675)
    as [H1 H2]; unfold celsius in *; lra.
Qed.

Lemma pws_upper_range (t : R) : 47.98 <= t <= 48.03 -> 11.36 <= pws t <= 11.4.
Proof.
  intros [Hlo Hhi]. pose proof pws_48 as [P1 P2].
  assert (Hpos : 0 < pws t) by (unfold pws; pose proof (exp_pos (magnus (celsius t))); lra).
  destruct (Rle_or_lt t 48) as [Ht | Ht].
  - destruct (pws_increment t 48) as [I1 I2]. cbv zeta in I1, I2.
    destruct (magnus_upper_range t 48 Hlo Ht ltac:(lra)) as [D1 D2].
    set (delta := magnus (celsius 48) - magnus (celsius t)) in *.
    assert (0 <= pws t * delta) by (apply Rmult_le_pos; lra).
    assert (pws 48 * delta <= 11.3797 * 0.00075) by (apply Rmult_le_compat; lra).
    lra.
  - destruct (pws_increment 48 t) as [I1 I2]. cbv zeta in I1, I2.
    destruct (magnus_upper_range 48 t ltac:(lra) ltac:(lra) Hhi) as [D1 D2].
    set (delta := magnus (celsius t) - magnus (celsius 48)) in *.
    assert (0 <= pws 48 * delta) by (apply Rmult_le_pos; lra).
    assert (pws t * delta <= pws t * 0.001125) by (apply Rmult_le_compat_l; lra).
    lra.
Qed.

Lemma wSat_upper_range (u v : R) :
  47.98 <= u -> u <= v -> v <= 48.03 ->
  0.3497 * (v - u) <= wSat v - wSat u <= 0.3598 * (v - u).
Proof.
  intros Hu Huv Hv.
  apply (wSat_slope u v 11.36 11.4 0.037488 0.0375); try lra.
  - apply pws_upper_range; lra.
  - apply pws_upper_range; lra.
  - apply magnus_upper_range; assumption.
Qed.

(** *** Between 41.4 and 41.6 degrees F *)

Lemma magnus_lower_range (u v : R) :
  41.4 <= u -> u <= v -> v <= 41.6 ->
  0.038572 * (v - u) <= magnus (celsius v) - magnus (celsius u) <= 0.038617 * (v - u).
Proof.
  intros Hu Huv Hv.
  destruct (magnus_slope (celsius u) (celsius v) 248.2622 248.3734 0.06943 0.06951)
    as [H1 H2]; unfold celsius in *; lra.
Qed.

Lemma pws_lower_range (t : R) : 41.4 <= t <= 41.6 -> 8.85 <= pws t <= 8.925.
Proof.
  intros [Hlo Hhi]. pose proof pws_41_5 as [P1 P2].
  assert (Hpos : 0 < pws t) by (unfold pws; pose proof (exp_pos (magnus (celsius t))); lra).
  destruct (Rle_or_lt t 41.5) as [Ht | Ht].
  - destruct (pws_increment t 41.5) as [I1 I2]. cbv zeta in I1, I2.
    destruct (magnus_lower_range t 41.5 Hlo Ht ltac:(lra)) as [D1 D2].
    set (delta := magnus (celsius 41.5) - magnus (celsius t)) in *.
    assert (0 <= pws t * delta) by (apply Rmult_le_pos; lra).
    assert (pws 41.5 * delta <= 8.8867 * 0.0038617) by (apply Rmult_le_compat; lra).
    lra.
  - destruct (pws_increment 41.5 t) as [I1 I2]. cbv zeta in I1, I2.
    destruct (magnus_lower_range 41.5 t ltac:(lra) ltac:(lra) Hhi) as [D1 D2].
    set (delta := magnus (celsius t) - magnus (celsius 41.5)) in *.
    assert (0 <= pws 41.5 * delta) by (apply Rmult_le_pos; lra).
    assert (pws t * delta <= pws t * 0.0038617) by (apply Rmult_le_compat_l; lra).
    lra.
Qed.

Lemma wSat_lower_range (u v : R) :
  41.4 <= u -> u <= v -> v <= 41.6 ->
  0.0913 * (v - u) <= wSat v - wSat u <= 0.0946 * (v - u).
Proof.
  intros Hu Huv Hv.
  apply (wSat_slope u v 8.85 8.925 0.038572 0.038617); try lra.
  - apply pws_lower_range; lra.
  - apply pws_lower_range; lra.
  - apply magnus_lower_range; assumption.
Qed.

(** *** The two estimates the loop alternates between *)

Lemma w_48_92_bounds : 1.54029 <= w_48_92 <= 1.54068.
Proof.
  pose proof pws_48 as [P1 P2]. unfold w_48_92, pw_48_92.
  set (pw := 92 / 100 * pws 48).
  assert (Hpw : 10.468588 <= pw <= 10.469324) by (unfold pw; lra).
  split.
  - apply Rmult_le_reg_r with (14.696 - pw); [lra |].
    unfold Rdiv. rewrite Rmult_assoc, Rinv_l by lra. lra.
  - apply Rmult_le_reg_r with (14.696 - pw); [lra |].
    unfold Rdiv. rewrite Rmult_assoc, Rinv_l by lra. lra.
Qed.

Lemma wSat_48 : 2.13369 <= wSat 48 <= 2.13436.
Proof.
  pose proof pws_48 as [P1 P2]. unfold wSat.
  split.
  - apply Rmult_le_reg_r with (14.696 - pws 48); [lra |].
    unfold Rdiv. rewrite Rmult_assoc, Rinv_l by lra. lra.
  - apply Rmult_le_reg_r with (14.696 - pws 48); [lra |].
    unfold Rdiv. rewrite Rmult_assoc, Rinv_l by lra. lra.
Qed.

Lemma wSat_41_5 : 0.95138 <= wSat 41.5 <= 0.9515.
Proof.
  pose proof pws_41_5 as [P1 P2]. unfold wSat.
  split.
  - apply Rmult_le_reg_r with (14.696 - pws 41.5); [lra |].
    unfold Rdiv. rewrite Rmult_assoc, Rinv_l by lra. lra.
  - apply Rmult_le_reg_r with (14.696 - pws 41.5); [lra |].
    unfold Rdiv. rewrite Rmult_assoc, Rinv_l by lra. lra.
Qed.

Lemma next_48_92_increment (u v : R) :
  next_48_92 v - next_48_92 u = 0.99 * (v - u) - 10.93 * (wSat v - wSat u).
Proof. unfold next_48_92, residual_48_92. lra. Qed.

(** From 48 degrees F the next estimate is 41.51, and from 41.5 it is 48.00. *)
Lemma next_48_92_at_48 : 41.5068 <= next_48_92 48 <= 41.5185.
Proof.
  pose proof w_48_92_bounds. pose proof wSat_48.
  unfold next_48_92, residual_48_92. lra.
Qed.

Lemma next_48_92_at_41_5 : 48.0004 <= next_48_92 41.5 <= 48.0061.
Proof.
  pose proof w_48_92_bounds. pose proof wSat_41_5.
  unfold next_48_92, residual_48_92. lra.
Qed.

(** An estimate in the upper range is followed by one in the lower range,
    and an estimate in the lower range by one in the upper range. *)
Lemma next_of_upper_48_92 (wb : R) : upper_48_92 wb -> lower_48_92 (next_48_92 wb).
Proof.
  unfold upper_48_92, lower_48_92. intros [Hlo Hhi].
  pose proof next_48_92_at_48 as [N1 N2].
  destruct (Rle_or_lt wb 48) as [Ht | Ht].
  - pose proof (next_48_92_increment wb 48) as E.
    destruct (wSat_upper_range wb 48 Hlo Ht ltac:(lra)). lra.
  - pose proof (next_48_92_increment 48 wb) as E.
    destruct (wSat_upper_range 48 wb ltac:(lra) ltac:(lra) Hhi). lra.
Qed.

Lemma next_of_lower_48_92 (wb : R) : lower_48_92 wb -> upper_48_92 (next_48_92 wb).
Proof.
  unfold upper_48_92, lower_48_92. intros [Hlo Hhi].
  pose proof next_48_92_at_41_5 as [N1 N2].
  destruct (Rle_or_lt wb 41.5) as [Ht | Ht].
  - pose proof (next_48_92_increment wb 41.5) as E.
    destruct (wSat_lower_range wb 41.5 Hlo Ht ltac:(lra)). lra.
  - pose proof (next_48_92_increment 41.5 wb) as E.
    destruct (wSat_lower_range 41.5 wb ltac:(lra) ltac:(lra) Hhi). lra.
Qed.

(** *** The loop never stops *)

Lemma pw_48_92_Num :
  (int 92 / int 100 * Psychrometric.calculateSaturationPressure (int 48))%js
  = Num pw_48_92.
Proof.
  rewrite !int_Num, saturation_pressure_Num by (unfold celsius; lra).
  js_red. destruct (Req_dec_T 100 0) as [H | _]; [exfalso; lra |].
  reflexivity.
Qed.

Lemma pws_below_atmospheric_48_92 (wb : R) :
  upper_48_92 wb \/ lower_48_92 wb -> pws wb <= 11.4.
Proof.
  intros [H | H].
  - apply pws_upper_range. exact H.
  - pose proof (pws_lower_range wb H). lra.
Qed.

Lemma wetBulbBody_48_92 (wb : R) (e : number) :
  upper_48_92 wb \/ lower_48_92 wb ->
  Psychrometric.wetBulbBody (Num 48) (Num pw_48_92)
    {| Psychrometric.wb := Num wb; Psychrometric.error := e |}
  = {| Psychrometric.wb := Num (next_48_92 wb);
       Psychrometric.error := Num (residual_48_92 wb) |}.
Proof.
  intros Hwb. pose proof (pws_below_atmospheric_48_92 wb Hwb) as Hp.
  pose proof pws_48 as Hp48.
  assert (Hc : 243.04 + celsius wb <> 0).
  { unfold celsius, upper_48_92, lower_48_92 in *. destruct Hwb; lra. }
  unfold Psychrometric.wetBulbBody. cbn [Psychrometric.wb Psychrometric.error].
  rewrite saturation_pressure_Num by exact Hc.
  unfold Psychrometric.ATMOSPHERIC_PRESSURE. js_red.
  destruct (Req_dec_T (14.696 - pws wb) 0) as [H | _]; [exfalso; lra |].
  destruct (Req_dec_T (14.696 - pw_48_92) 0) as [H | _];
    [exfalso; unfold pw_48_92 in H; lra |].
  destruct (Req_dec_T 100 0) as [H | _]; [exfalso; lra |].
  reflexivity.
Qed.

(** In both ranges the residual is far above the tolerance: the next
    estimate is in the other range, more than 6 degrees F away. *)
Lemma residual_48_92_far (wb : R) :
  upper_48_92 wb \/ lower_48_92 wb -> 638 <= Rabs (residual_48_92 wb).
Proof.
  assert (E : residual_48_92 wb = 100 * (next_48_92 wb - wb))
    by (unfold next_48_92; lra).
  intros [H | H].
  - pose proof (next_of_upper_48_92 wb H) as H'.
    unfold upper_48_92, lower_48_92 in *.
    rewrite Rabs_left; lra.
  - pose proof (next_of_lower_48_92 wb H) as H'.
    unfold upper_48_92, lower_48_92 in *.
    rewrite Rabs_right; lra.
Qed.

Lemma loop_48_92_never_stops (n : nat) :
  forall wb e : R,
    upper_48_92 wb \/ lower_48_92 wb -> 0.01 < Rabs e ->
    while n Psychrometric.wetBulbCond
          (Psychrometric.wetBulbBody (Num 48) (Num pw_48_92))
          {| Psychrometric.wb := Num wb; Psychrometric.error := Num e |}
    = None.
Proof.
  induction n as [| n IH]; intros wb e Hwb He; cbn [while];
    rewrite wetBulbCond_Num;
    (destruct (Rlt_dec 0.01 (Rabs e)) as [_ | Hn]; [| contradiction]).
  - reflexivity.
  - rewrite (wetBulbBody_48_92 wb (Num e) Hwb). apply IH.
    + destruct Hwb as [H | H].
      * right. apply next_of_upper_48_92. exact H.
      * left. apply next_of_lower_48_92. exact H.
    + pose proof (residual_48_92_far wb Hwb). lra.
Qed.

(** The wet-bulb solver without a cap never returns at a dry bulb of 48
    degrees F and 92% relative humidity. *)
Lemma uncapped_wet_bulb_never_returns_at_48_92 (fuel : nat) :
  Psychrometric.calculateWetBulb (num := number) fuel (Num 48) (Num 92) = None.
Proof.
  unfold Psychrometric.calculateWetBulb.
  rewrite <- (int_Num 48), <- (int_Num 92), pw_48_92_Num.
  unfold Psychrometric.wetBulbInit. rewrite !int_Num.
  rewrite (loop_48_92_never_stops fuel 48 1).
  - reflexivity.
  - left. unfold upper_48_92. lra.
  - rewrite Rabs_R1. lra.
Qed.

Lemma uncapped_handler_hangs (s : Psychrometric.State number) (db rh : number) :
  present (Psychrometric_required (Psychrometric.inputs s)) = true ->
  (forall fuel, Psychrometric.calculateWetBulb fuel db rh = None) ->
  enteringAir (Psychrometric.inputs s) = (db, rh)
  \/ leavingAir (Psychrometric.inputs s) = (db, rh) ->
  forall fuel, Psychrometric.calculateProperties fuel s = None.
Proof.
  intros Hp Hloop Hair fuel. unfold Psychrometric_required in Hp.
  repeat (apply present_cons in Hp; let H := fresh "F" in destruct Hp as [H Hp]).
  unfold Psychrometric.calculateProperties. cbv zeta.
  rewrite F, F0, F1, F2, F3, F4. cbn [orb].
  unfold enteringAir, leavingAir in Hair. cbv zeta in Hair.
  destruct Hair as [Hair | Hair]; injection Hair as Hdb Hrh.
  - rewrite Hrh, Hdb, Hloop. reflexivity.
  - destruct (Psychrometric.calculateWetBulb fuel _ _); [| reflexivity].
    rewrite Hrh, Hdb, Hloop. reflexivity.
Qed.

Lemma complete_present (fields : list string) :
  complete fields = true -> present fields = true.
Proof.
  unfold complete, present.
  induction fields as [| f fields IH]; cbn [forallb]; [reflexivity |].
  intros Hc. apply andb_true_iff in Hc. destruct Hc as [Hf Hrest].
  apply andb_true_iff in Hf. destruct Hf as [Hf _].
  rewrite Hf, (IH Hrest). reflexivity.
Qed.

(** C2: what the code does when a dry bulb of 48 degrees F and a relative
    humidity of 92% are entered for the entering or for the leaving air of
    the psychrometric component of "System Performance Calculator.tsx", all
    required fields being present and parseable.  The wet-bulb loop of that
    component, which has no iteration cap, never stops: from the dry bulb its
    estimates alternate for ever between the ranges 47.98 - 48.03 and
    41.4 - 41.6 degrees F, and the residual it tests against the tolerance of
    0.01 stays above 638 in magnitude.  So the solver never returns, and
    neither does the handler: it stores no record, and it does not return
    early either. *)
Theorem uncapped_handler_never_returns_at_48_92 :
  (forall n : nat,
      upper_48_92 (Nat.iter (2 * n) next_48_92 48)
      /\ lower_48_92 (Nat.iter (2 * n + 1) next_48_92 48)
      /\ 638 <= Rabs (residual_48_92 (Nat.iter n next_48_92 48)))
  /\ (forall fuel : nat,
         Psychrometric.calculateWetBulb (num := number) fuel (Num 48) (Num 92) = None)
  /\ (forall s : Psychrometric.State number,
         complete (Psychrometric_required (Psychrometric.inputs s)) = true ->
         enteringAir (Psychrometric.inputs s) = (Num 48, Num 92)
         \/ leavingAir (Psychrometric.inputs s) = (Num 48, Num 92) ->
         forall fuel : nat, Psychrometric.calculateProperties fuel s = None).
Proof.
  assert (Hcycle : forall n : nat,
             upper_48_92 (Nat.iter (2 * n) next_48_92 48)
             /\ lower_48_92 (Nat.iter (2 * n + 1) next_48_92 48)).
  { induction n as [| n [IH1 IH2]].
    - cbn [Nat.mul Nat.add Nat.iter nat_rect].
      assert (H48 : upper_48_92 48) by (unfold upper_48_92; lra).
      split; [exact H48 | apply next_of_upper_48_92; exact H48].
    - replace (2 * S n)%nat with (S (2 * n + 1)) by lia.
      replace (S (2 * n + 1) + 1)%nat with (S (S (2 * n + 1))) by lia.
      cbn [Nat.iter nat_rect].
      pose proof (next_of_lower_48_92 _ IH2) as H1.
      split; [exact H1 | apply next_of_upper_48_92; exact H1]. }
  split; [| split].
  - intros n. destruct (Hcycle n) as [H1 H2]. split; [exact H1 |]. split; [exact H2 |].
    apply residual_48_92_far.
    destruct (Nat.Even_or_Odd n) as [[k ->] | [k ->]].
    + left. apply Hcycle.
    + right. apply Hcycle.
  - exact uncapped_wet_bulb_never_returns_at_48_92.
  - intros s Hc Hair.
    apply (uncapped_handler_hangs s (Num 48) (Num 92)).
    + apply complete_present. exact Hc.
    + exact uncapped_wet_bulb_never_returns_at_48_92.
    + exact Hair.
Qed.

Lemma uncapped_handler_never_returns_at_48_92_witness :
  Psychrometric.calculateProperties (num := number) 1000 psychrometric_leaving_48_92
  = None.
Proof.
  destruct uncapped_handler_never_returns_at_48_92 as (_ & _ & Hhang).
  apply Hhang.
  - reflexivity.
  - right.
    cbv [leavingAir psychrometric_leaving_48_92 Psychrometric.inputs
         Psychrometric.leavingDryBulb Psychrometric.leavingHumidity
         Psychrometric.leavingHumidityType Psychrometric.resolveRH parseFloat].
    js_parse. cbv iota beta. js_eval. f_equal; num_eq.
Defined.

(** ** The capped wet-bulb loop stops *)

Lemma capped_loop_stops {num : Type} `{JSMath num} (db w : num) (fuel : nat) :
  forall v : PsychrometricCapped.WetBulbVars num,
    (PsychrometricCapped.iteration v + fuel = 100)%nat ->
    exists (n : nat) (t : PsychrometricCapped.WetBulbVars num),
      (n <= fuel)%nat
      /\ iterates PsychrometricCapped.wetBulbCond
                  (PsychrometricCapped.wetBulbBody db w) n v t
      /\ while fuel PsychrometricCapped.wetBulbCond
               (PsychrometricCapped.wetBulbBody db w) v = Some t.
Proof.
  induction fuel as [| fuel IH]; intros v Hv.
  - assert (Hc : PsychrometricCapped.wetBulbCond v = false).
    { unfold PsychrometricCapped.wetBulbCond.
      replace (PsychrometricCapped.iteration v) with 100%nat by lia.
      apply andb_false_r. }
    exists O, v. split; [lia |]. split; [now constructor |].
    cbn [while]. rewrite Hc. reflexivity.
  - destruct (PsychrometricCapped.wetBulbCond v) eqn:Hc.
    + destruct (IH (PsychrometricCapped.wetBulbBody db w v)) as (n & t & Hn & Hit & Hw).
      { cbn [PsychrometricCapped.wetBulbBody PsychrometricCapped.iteration]. lia. }
      exists (S n), t. split; [lia |]. split; [now constructor |].
      cbn [while]. rewrite Hc. exact Hw.
    + exists O, v. split; [lia |]. split; [now constructor |].
      cbn [while]. rewrite Hc. reflexivity.
Qed.

(** The capped solver returns for every dry bulb and relative humidity,
    whatever the reading of numbers: its loop stops after at most 100
    executions of its body, and the solver returns the estimate the loop
    stopped with (also when the cap, not the tolerance, stopped it). *)
Theorem capped_wet_bulb_returns_within_100_iterations
  (num : Type) (N : JSNumber num) (M : JSMath num) (db rh : num) :
  exists (n : nat) (v : PsychrometricCapped.WetBulbVars num),
    (n <= 100)%nat
    /\ iterates PsychrometricCapped.wetBulbCond
                (PsychrometricCapped.wetBulbBody
                   db (PsychrometricCapped.calculateHumidityRatio db rh))
                n (PsychrometricCapped.wetBulbInit db) v
    /\ PsychrometricCapped.calculateWetBulb db rh = PsychrometricCapped.wb v.
Proof.
  destruct (capped_loop_stops db (PsychrometricCapped.calculateHumidityRatio db rh) 100
              (PsychrometricCapped.wetBulbInit db) eq_refl) as (n & v & Hn & Hit & Hw).
  exists n, v. split; [exact Hn |]. split; [exact Hit |].
  unfold PsychrometricCapped.calculateWetBulb. rewrite Hw. reflexivity.
Qed.

(** ** The capacitor against its rated value *)

(** The record the handler stores when its three fields hold numbers. *)
Lemma capacitor_record (s : Capacitor.State number) (current volts rated : R) :
  present (Capacitor_required (Capacitor.inputs s)) = true ->
  falsy (Capacitor.ratedCapacitance (Capacitor.inputs s)) = false ->
  parseFloat (Capacitor.startWinding (Capacitor.inputs s)) = Num current ->
  parseFloat (Capacitor.voltage (Capacitor.inputs s)) = Num volts ->
  parseFloat (Capacitor.ratedCapacitance (Capacitor.inputs s)) = Num rated ->
  volts <> 0 -> rated <> 0 ->
  let c := 2653 * current / volts in
  let deviation := (c - rated) / rated * 100 in
  Capacitor.calculateCapacitance s
  = Produced
      {| Capacitor.capacitance := Num c;
         Capacitor.tolerance := {| Capacitor.min := Num (c * 0.94);
                                   Capacitor.max := Num (c * 1.06) |};
         Capacitor.ratedComparison :=
           Some {| Capacitor.value := Num rated;
                   Capacitor.withinRange :=
                     if Rle_dec (Rabs deviation) 6 then true else false;
                   Capacitor.percentDeviation := Num deviation |} |}.
Proof.
  intros Hp Hrated Hi Hv Hr Hvolts Hnz c deviation. unfold Capacitor_required in Hp.
  repeat (apply present_cons in Hp; let H := fresh "F" in destruct Hp as [H Hp]).
  unfold Capacitor.calculateCapacitance.
  rewrite F, F0, Hrated, Hi, Hv, Hr. cbn [orb].
  js_red.
  destruct (Req_dec_T volts 0) as [E | _]; [contradiction |].
  js_red.
  destruct (Req_dec_T rated 0) as [E | _]; [contradiction |].
  js_red. reflexivity.
Qed.

(** The percent deviation from a positive rated value is within 6 exactly
    when the measured value lies between 94% and 106% of the rated one. *)
Lemma deviation_within_six (c rated : R) :
  0 < rated ->
  Rabs ((c - rated) / rated * 100) <= 6 <-> 0.94 * rated <= c <= 1.06 * rated.
Proof.
  intros Hpos.
  assert (Hd : (c - rated) / rated * rated = c - rated) by (field; lra).
  set (d := (c - rated) / rated) in *.
  split.
  - intros Habs.
    assert (H6 : - 6 <= d * 100 <= 6).
    { split.
      - pose proof (Rle_abs (- (d * 100))) as H. rewrite Rabs_Ropp in H. lra.
      - pose proof (Rle_abs (d * 100)). lra. }
    split; Psatz.nra.
  - intros [Hlo Hhi]. apply Rabs_le. split; Psatz.nra.
Qed.

(** The comparison with the rated value.  In exact arithmetic: when the
    current, the voltage and a positive rated capacitance are numbers, the
    component reports the capacitor as within range exactly when the measured
    capacitance 2653 x I / V lies between 94% and 106% of the rated value, and
    the deviation it prints is (measured - rated) / rated x 100.  On binary64
    numbers the verdict at the ends of that range is a matter of rounding: at
    6.36 A, 120 V and a rated 132.65 uF the measured value is exactly 106% of
    the rated one, and the component, which computes a deviation above 6,
    reports the capacitor as out of range. *)
Theorem rated_comparison_is_within_six_percent_of_rated :
  (forall (s : Capacitor.State number) (current volts rated : R),
      present (Capacitor_required (Capacitor.inputs s)) = true ->
      falsy (Capacitor.ratedCapacitance (Capacitor.inputs s)) = false ->
      parseFloat (Capacitor.startWinding (Capacitor.inputs s)) = Num current ->
      parseFloat (Capacitor.voltage (Capacitor.inputs s)) = Num volts ->
      parseFloat (Capacitor.ratedCapacitance (Capacitor.inputs s)) = Num rated ->
      volts <> 0 -> 0 < rated ->
      exists r c,
        Capacitor.calculateCapacitance s = Produced r
        /\ Capacitor.capacitance r = Num (2653 * current / volts)
        /\ Capacitor.ratedComparison r = Some c
        /\ Capacitor.value c = Num rated
        /\ Capacitor.percentDeviation c
           = Num ((2653 * current / volts - rated) / rated * 100)
        /\ (Capacitor.withinRange c = true
            <-> 0.94 * rated <= 2653 * current / volts <= 1.06 * rated))
  /\ 2653 * 6.36 / 120 = 1.06 * 132.65
  /\ (exists r c,
         Capacitor.calculateCapacitance (num := PrimFloat.float)
                                        (capacitor_state "6.36" "120" "132.65")
         = Produced r
         /\ Capacitor.ratedComparison r = Some c
         /\ (int 6 <? Capacitor.percentDeviation c)%js = true
         /\ Capacitor.withinRange c = false).
Proof.
  split; [| split].
  - intros s current volts rated Hp Hrated Hi Hv Hr Hvolts Hpos.
    eexists. eexists. split.
    + apply (capacitor_record s current volts rated Hp Hrated Hi Hv Hr Hvolts). lra.
    + cbn [Capacitor.capacitance Capacitor.ratedComparison].
      split; [reflexivity |]. split; [reflexivity |].
      cbn [Capacitor.value Capacitor.percentDeviation Capacitor.withinRange].
      split; [reflexivity |]. split; [reflexivity |].
      rewrite <- (deviation_within_six _ rated Hpos).
      destruct (Rle_dec _ 6) as [Hle | Hgt]; split; intros; auto; discriminate.
  - lra.
  - eexists. eexists. split; [vm_compute; reflexivity |].
    split; [reflexivity |]. split; vm_compute; reflexivity.
Qed.

Lemma capacitor_rated_example_parses :
  parseFloat (num := number) "5" = Num 5
  /\ parseFloat (num := number) "230" = Num 230
  /\ parseFloat (num := number) "55" = Num 55.
Proof.
  repeat split; cbv [parseFloat]; js_parse; cbv iota beta; js_eval; num_eq.
Qed.

Lemma rated_comparison_is_within_six_percent_of_rated_witness :
  exists r c,
    Capacitor.calculateCapacitance (capacitor_rated_example "55") = Produced r
    /\ Capacitor.capacitance r = Num (2653 * 5 / 230)
    /\ Capacitor.ratedComparison r = Some c
    /\ Capacitor.value c = Num 55
    /\ Capacitor.percentDeviation c = Num ((2653 * 5 / 230 - 55) / 55 * 100)
    /\ (Capacitor.withinRange c = true
        <-> 0.94 * 55 <= 2653 * 5 / 230 <= 1.06 * 55).
Proof.
  apply (proj1 rated_comparison_is_within_six_percent_of_rated
           (capacitor_rated_example "55") 5 230 55).
  - reflexivity.
  - reflexivity.
  - apply capacitor_rated_example_parses.
  - apply capacitor_rated_example_parses.
  - apply capacitor_rated_example_parses.
  - lra.
  - lra.
Defined.

(** The range the component prints is 94% to 106% of the measured value,
    while the verdict tests the measured value against 94% to 106% of the
    rated one.  In exact arithmetic a rated value in the lowest part of the
    printed range, from 0.94 x measured up to measured / 1.06, lies inside the
    printed range and is still reported as out of range; on binary64 numbers
    this is what the component does at 5 A, 230 V and a rated 54.3 uF (printed
    range 54.2 - 61.1). *)
Theorem rated_value_inside_printed_range_can_be_out_of_range :
  (forall (s : Capacitor.State number) (current volts rated : R),
      present (Capacitor_required (Capacitor.inputs s)) = true ->
      falsy (Capacitor.ratedCapacitance (Capacitor.inputs s)) = false ->
      parseFloat (Capacitor.startWinding (Capacitor.inputs s)) = Num current ->
      parseFloat (Capacitor.voltage (Capacitor.inputs s)) = Num volts ->
      parseFloat (Capacitor.ratedCapacitance (Capacitor.inputs s)) = Num rated ->
      volts <> 0 -> 0 < rated ->
      0.94 * (2653 * current / volts) <= rated ->
      1.06 * rated < 2653 * current / volts ->
      exists r c lo hi,
        Capacitor.calculateCapacitance s = Produced r
        /\ Capacitor.tolerance r = {| Capacitor.min := Num lo; Capacitor.max := Num hi |}
        /\ lo <= rated <= hi
        /\ Capacitor.ratedComparison r = Some c
        /\ Capacitor.withinRange c = false)
  /\ (exists r c,
         Capacitor.calculateCapacitance (num := PrimFloat.float)
                                        (capacitor_state "5" "230" "54.3")
         = Produced r
         /\ Capacitor.ratedComparison r = Some c
         /\ (Capacitor.min (Capacitor.tolerance r) <? Capacitor.value c)%js = true
         /\ (Capacitor.value c <? Capacitor.max (Capacitor.tolerance r))%js = true
         /\ Capacitor.withinRange c = false).
Proof.
  split.
  - intros s current volts rated Hp Hrated Hi Hv Hr Hvolts Hpos Hlo Hhi.
    eexists. eexists. eexists. eexists. split.
    + apply (capacitor_record s current volts rated Hp Hrated Hi Hv Hr Hvolts). lra.
    + cbn [Capacitor.tolerance Capacitor.ratedComparison Capacitor.withinRange].
      split; [reflexivity |]. split; [lra |]. split; [reflexivity |].
      destruct (Rle_dec _ 6) as [Hle | Hgt]; [| reflexivity].
      apply (deviation_within_six _ rated Hpos) in Hle. lra.
  - eexists. eexists. split; [vm_compute; reflexivity |].
    split; [reflexivity |]. repeat split; vm_compute; reflexivity.
Qed.

Lemma rated_value_inside_printed_range_can_be_out_of_range_witness :
  exists r c lo hi,
    Capacitor.calculateCapacitance (capacitor_rated_example "54.3") = Produced r
    /\ Capacitor.tolerance r = {| Capacitor.min := Num lo; Capacitor.max := Num hi |}
    /\ lo <= 54.3 <= hi
    /\ Capacitor.ratedComparison r = Some c
    /\ Capacitor.withinRange c = false.
Proof.
  apply (proj1 rated_value_inside_printed_range_can_be_out_of_range
           (capacitor_rated_example "54.3") 5 230 54.3).
  - reflexivity.
  - reflexivity.
  - apply capacitor_rated_example_parses.
  - apply capacitor_rated_example_parses.
  - cbv [capacitor_rated_example Capacitor.inputs Capacitor.ratedCapacitance parseFloat].
    js_parse. cbv iota beta. js_eval. num_eq.
  - lra.
  - lra.
  - lra.
  - lra.
Defined.

(** ** Mold risk *)

(** The risk level depends on the relative humidity alone and never falls
    when the humidity rises; the days to mold growth are those of the level:
    none for Low, 30 for Moderate, 14 for High, 7 for Severe. *)
Theorem mold_risk_level_rises_with_humidity (t1 t2 rh1 rh2 : R) :
  rh1 <= rh2 ->
  let a := MoldRisk.calculateRiskLevel (Num t1) (Num rh1) in
  let b := MoldRisk.calculateRiskLevel (Num t2) (Num rh2) in
  (riskRank (fst a) <= riskRank (fst b))%nat
  /\ snd a = daysOfLevel (fst a) /\ snd b = daysOfLevel (fst b).
Proof.
  intros Hle. unfold MoldRisk.calculateRiskLevel. js_red.
  destruct (Rlt_dec rh1 60), (Rlt_dec rh1 70), (Rlt_dec rh1 80),
    (Rlt_dec rh2 60), (Rlt_dec rh2 70), (Rlt_dec rh2 80);
    try (exfalso; lra); cbn; repeat split; lia.
Qed.

Lemma mold_risk_level_rises_with_humidity_witness :
  let a := MoldRisk.calculateRiskLevel (Num 75) (Num 55) in
  let b := MoldRisk.calculateRiskLevel (Num 68) (Num 72) in
  (riskRank (fst a) <= riskRank (fst b))%nat
  /\ snd a = daysOfLevel (fst a) /\ snd b = daysOfLevel (fst b).
Proof.
  apply (mold_risk_level_rises_with_humidity 75 68 55 72). lra.
Defined.

Lemma getRecommendations_follow_the_level (t rh dp : number) :
  let level := fst (MoldRisk.calculateRiskLevel t rh) in
  let advice := MoldRisk.getRecommendations t rh dp level in
  (level = MoldRisk.Low -> forall x, In x advice -> x = MoldRisk.PreventCondensation)
  /\ (level <> MoldRisk.Low ->
      In MoldRisk.ImproveVentilation advice /\ In MoldRisk.RepairLeaks advice)
  /\ (In MoldRisk.ContinuousDehumidification advice ->
      In MoldRisk.ReduceHumidity advice
      /\ (level = MoldRisk.High \/ level = MoldRisk.Severe)).
Proof.
  unfold MoldRisk.getRecommendations, MoldRisk.calculateRiskLevel, gt.
  destruct ((t - dp <? int 4)%js);
    (destruct rh as [x |];
     [ js_red;
       destruct (Rlt_dec x 60), (Rlt_dec x 70), (Rlt_dec x 80),
         (Rlt_dec 60 x), (Rlt_dec 70 x);
       try (exfalso; lra)
     | ]);
    cbn;
    (split; [| split]); intros; intuition (try discriminate; try congruence).
Qed.

(** The advice agrees with the level, whatever the two fields hold: at Low
    the only advice there can be is the one on condensation; above Low,
    ventilation and leak repair are always advised; and continuous
    dehumidification is advised only together with reducing the humidity,
    at High or Severe. *)
Theorem mold_recommendations_follow_the_level
  (s : MoldRisk.State number) (r : MoldRisk.MoldRiskResult number) :
  MoldRisk.calculateMoldRisk s = Produced r ->
  (MoldRisk.riskLevel r = MoldRisk.Low ->
   forall x, In x (MoldRisk.recommendations r) -> x = MoldRisk.PreventCondensation)
  /\ (MoldRisk.riskLevel r <> MoldRisk.Low ->
      In MoldRisk.ImproveVentilation (MoldRisk.recommendations r)
      /\ In MoldRisk.RepairLeaks (MoldRisk.recommendations r))
  /\ (In MoldRisk.ContinuousDehumidification (MoldRisk.recommendations r) ->
      In MoldRisk.ReduceHumidity (MoldRisk.recommendations r)
      /\ (MoldRisk.riskLevel r = MoldRisk.High \/ MoldRisk.riskLevel r = MoldRisk.Severe)).
Proof.
  unfold MoldRisk.calculateMoldRisk. cbv zeta.
  destruct (falsy _ || falsy _); [discriminate |].
  intros Hr. injection Hr as Hr. rewrite <- Hr.
  apply getRecommendations_follow_the_level.
Qed.

Lemma mold_recommendations_follow_the_level_witness :
  let r := {| MoldRisk.dewPoint := MoldRisk.calculateDewPoint (Num 75) NotANumber;
              MoldRisk.vaporPressure := MoldRisk.calculateVaporPressure (Num 75);
              MoldRisk.absoluteHumidity :=
                MoldRisk.calculateAbsoluteHumidity (Num 75) NotANumber;
              MoldRisk.riskLevel := MoldRisk.Severe;
              MoldRisk.daysToMold := Some (int 7);
              MoldRisk.recommendations :=
                [MoldRisk.ImproveVentilation; MoldRisk.RepairLeaks] |} in
  MoldRisk.calculateMoldRisk (mold_example "abc") = Produced r
  /\ (MoldRisk.riskLevel r = MoldRisk.Low ->
      forall x, In x (MoldRisk.recommendations r) -> x = MoldRisk.PreventCondensation)
  /\ (MoldRisk.riskLevel r <> MoldRisk.Low ->
      In MoldRisk.ImproveVentilation (MoldRisk.recommendations r)
      /\ In MoldRisk.RepairLeaks (MoldRisk.recommendations r))
  /\ (In MoldRisk.ContinuousDehumidification (MoldRisk.recommendations r) ->
      In MoldRisk.ReduceHumidity (MoldRisk.recommendations r)
      /\ (MoldRisk.riskLevel r = MoldRisk.High \/ MoldRisk.riskLevel r = MoldRisk.Severe)).
Proof.
  assert (H75 : parseFloat (num := number) "75" = Num 75)
    by (cbv [parseFloat]; js_parse; cbv iota beta; js_eval; num_eq).
  assert (Hr : MoldRisk.calculateMoldRisk (mold_example "abc")
               = Produced
                   {| MoldRisk.dewPoint := MoldRisk.calculateDewPoint (Num 75) NotANumber;
                      MoldRisk.vaporPressure := MoldRisk.calculateVaporPressure (Num 75);
                      MoldRisk.absoluteHumidity :=
                        MoldRisk.calculateAbsoluteHumidity (Num 75) NotANumber;
                      MoldRisk.riskLevel := MoldRisk.Severe;
                      MoldRisk.daysToMold := Some (int 7);
                      MoldRisk.recommendations :=
                        [MoldRisk.ImproveVentilation; MoldRisk.RepairLeaks] |}).
  { unfold MoldRisk.calculateMoldRisk, mold_example. cbv zeta.
    cbn [MoldRisk.inputs MoldRisk.dryBulb MoldRisk.relativeHumidity falsy orb].
    rewrite H75. reflexivity. }
  split; [exact Hr |].
  apply (mold_recommendations_follow_the_level (mold_example "abc") _ Hr).
Defined.

(** ** Dew points *)

(** Above the pole of the Magnus formula and for a humidity in (0, 100], the
    dew point is defined, is at most the temperature, and the formula takes
    the value [alpha] there. *)
Lemma dew_celsius_spec (c rh : R) :
  0 < 243.04 + c -> 0 < rh <= 100 ->
  0 < 17.625 - magnus_alpha c rh
  /\ 0 < 243.04 + dew_celsius c rh
  /\ magnus (dew_celsius c rh) = magnus_alpha c rh
  /\ dew_celsius c rh <= c.
Proof.
  intros Hc Hrh.
  assert (Hln : ln (rh / 100) <= 0) by (apply ln_nonpositive; lra).
  assert (Hm : 17.625 - magnus c = 17.625 * 243.04 / (243.04 + c))
    by (unfold magnus; field; lra).
  assert (Hmpos : 0 < 17.625 * 243.04 / (243.04 + c))
    by (apply Rdiv_lt_0_compat; lra).
  unfold dew_celsius.
  set (alpha := magnus_alpha c rh).
  assert (Ha : 0 < 17.625 - alpha) by (unfold alpha, magnus_alpha; lra).
  assert (Hsum : 243.04 + 243.04 * alpha / (17.625 - alpha)
                 = 243.04 * 17.625 / (17.625 - alpha)) by (field; lra).
  assert (Hpos : 0 < 243.04 * 17.625 / (17.625 - alpha))
    by (apply Rdiv_lt_0_compat; lra).
  split; [exact Ha |]. split; [lra |]. split.
  - unfold magnus. rewrite Hsum. field. lra.
  - apply Rmult_le_reg_r with (17.625 - alpha); [exact Ha |].
    unfold Rdiv at 1. rewrite Rmult_assoc, Rinv_l, Rmult_1_r by lra.
    assert (H1 : alpha * (243.04 + c) <= magnus c * (243.04 + c))
      by (apply Rmult_le_compat_r; unfold alpha, magnus_alpha; lra).
    replace (magnus c * (243.04 + c)) with (17.625 * c) in H1
      by (unfold magnus; field; lra).
    lra.
Qed.

Lemma dew_celsius_100 (c : R) : 0 < 243.04 + c -> dew_celsius c 100 = c.
Proof.
  intros Hc. unfold dew_celsius, magnus_alpha.
  replace (100 / 100) with 1 by lra. rewrite ln_1, Rplus_0_l.
  unfold magnus. field. split; lra.
Qed.

Lemma mold_dew_point_Num (t rh : R) :
  0 < 243.04 + t -> 0 < rh <= 100 ->
  MoldRisk.calculateDewPoint (Num t) (Num rh) = Num (dew_celsius t rh).
Proof.
  intros Ht Hrh.
  destruct (dew_celsius_spec t rh Ht Hrh) as (Ha & _).
  unfold MoldRisk.calculateDewPoint, MoldRisk.WATER_VAPOR_CONSTANT,
    MoldRisk.WATER_VAPOR_TEMP_CONSTANT.
  js_red.
  destruct (Req_dec_T 100 0) as [H | _]; [exfalso; lra |].
  destruct (Rlt_dec 0 (rh / 100)) as [_ | H]; [| exfalso; apply H; lra].
  destruct (Req_dec_T (243.04 + t) 0) as [H | _]; [exfalso; lra |].
  fold (magnus t). fold (magnus_alpha t rh).
  destruct (Req_dec_T (17.625 - magnus_alpha t rh) 0) as [H | _]; [exfalso; lra |].
  reflexivity.
Qed.

Lemma mold_vapor_pressure_Num (t : R) :
  0 < 243.04 + t ->
  MoldRisk.calculateVaporPressure (Num t) = Num (6.11 * exp (magnus t)).
Proof.
  intros Ht.
  unfold MoldRisk.calculateVaporPressure, MoldRisk.WATER_VAPOR_CONSTANT,
    MoldRisk.WATER_VAPOR_TEMP_CONSTANT.
  js_red.
  destruct (Req_dec_T (243.04 + t) 0) as [H | _]; [exfalso; lra |].
  reflexivity.
Qed.

(** In exact arithmetic, the dew point and the vapour pressure of the
    mold-risk calculator are inverse to each other: for a temperature above
    -243.04 and a relative humidity in (0, 100], the vapour pressure at the
    dew point is RH/100 times the vapour pressure at the temperature; the dew
    point is at most the temperature, and equals it at 100%.  (On binary64
    numbers the exponential and the logarithm are rounded, and these
    equations hold up to that rounding only.) *)
Theorem vapor_pressure_at_the_dew_point (t rh : R) :
  -243.04 < t -> 0 < rh <= 100 ->
  exists dp : R,
    MoldRisk.calculateDewPoint (Num t) (Num rh) = Num dp
    /\ MoldRisk.calculateVaporPressure (Num dp)
       = (Num rh / int 100 * MoldRisk.calculateVaporPressure (Num t))%js
    /\ dp <= t
    /\ (rh = 100 -> dp = t).
Proof.
  intros Ht Hrh.
  assert (Hc : 0 < 243.04 + t) by lra.
  destruct (dew_celsius_spec t rh Hc Hrh) as (Ha & Hd & Hmag & Hle).
  exists (dew_celsius t rh).
  split; [apply mold_dew_point_Num; assumption |].
  split; [| split; [exact Hle | intros ->; apply dew_celsius_100; exact Hc]].
  rewrite !mold_vapor_pressure_Num by assumption.
  rewrite Hmag. unfold magnus_alpha. rewrite exp_plus, exp_ln by lra.
  js_red.
  destruct (Req_dec_T 100 0) as [H | _]; [exfalso; lra |].
  f_equal. lra.
Qed.

Lemma vapor_pressure_at_the_dew_point_witness :
  exists dp : R,
    MoldRisk.calculateDewPoint (Num 25) (Num 50) = Num dp
    /\ MoldRisk.calculateVaporPressure (Num dp)
       = (Num 50 / int 100 * MoldRisk.calculateVaporPressure (Num 25))%js
    /\ dp <= 25
    /\ (50 = 100 -> dp = 25).
Proof.
  apply (vapor_pressure_at_the_dew_point 25 50); lra.
Defined.

Lemma psychrometric_dew_point_Num (t rh : R) :
  0 < 243.04 + celsius t -> 0 < rh <= 100 ->
  Psychrometric.calculateDewPoint (Num t) (Num rh)
  = Num (dew_celsius (celsius t) rh * 9 / 5 + 32)
  /\ PsychrometricCapped.calculateDewPoint (Num t) (Num rh)
     = Num (dew_celsius (celsius t) rh * 9 / 5 + 32).
Proof.
  intros Ht Hrh.
  destruct (dew_celsius_spec (celsius t) rh Ht Hrh) as (Ha & _).
  unfold Psychrometric.calculateDewPoint, Psychrometric.WATER_VAPOR_CONSTANT,
    Psychrometric.WATER_VAPOR_TEMP_CONSTANT,
    PsychrometricCapped.calculateDewPoint, PsychrometricCapped.WATER_VAPOR_CONSTANT,
    PsychrometricCapped.WATER_VAPOR_TEMP_CONSTANT.
  js_red.
  destruct (Req_dec_T 9 0) as [H | _]; [exfalso; lra |].
  destruct (Req_dec_T 100 0) as [H | _]; [exfalso; lra |].
  destruct (Rlt_dec 0 (rh / 100)) as [_ | H]; [| exfalso; apply H; lra].
  fold (celsius t).
  destruct (Req_dec_T (243.04 + celsius t) 0) as [H | _]; [exfalso; lra |].
  fold (magnus (celsius t)). fold (magnus_alpha (celsius t) rh).
  destruct (Req_dec_T (17.625 - magnus_alpha (celsius t) rh) 0) as [H | _];
    [exfalso; lra |].
  destruct (Req_dec_T 5 0) as [H | _]; [exfalso; lra |].
  split; reflexivity.
Qed.

(** ** Psychrometrics: entries and saturation *)

Lemma pws_positive (t : R) : 0 < pws t.
Proof. unfold pws. pose proof (exp_pos (magnus (celsius t))). lra. Qed.

(** In exact arithmetic: when the humidity is entered as a dew point, the
    component of "System Performance Calculator.tsx" turns it into a relative
    humidity, and the dew point it then computes and prints is the one that
    was entered (dry bulb and dew point above -405.472 degrees F).  (On
    binary64 numbers the exponential and the logarithm are rounded, and the
    printed dew point is the entered one up to that rounding only.) *)
Theorem entered_dew_point_is_returned (db dp : R) (humidity : string) :
  -405.472 < db -> -405.472 < dp ->
  parseFloat humidity = Num dp ->
  Psychrometric.calculateDewPoint
    (Num db) (Psychrometric.resolveRH Psychrometric.DP (Num db) humidity)
  = Num dp.
Proof.
  intros Hdb Hdp Hparse.
  assert (Hcb : 0 < 243.04 + celsius db) by (unfold celsius; lra).
  assert (Hcp : 0 < 243.04 + celsius dp) by (unfold celsius; lra).
  pose proof (pws_positive db) as Hpb. pose proof (pws_positive dp) as Hpp.
  unfold Psychrometric.resolveRH. rewrite Hparse.
  rewrite !saturation_pressure_Num by lra.
  assert (Hrh : (Num (pws dp) / Num (pws db) * int 100)%js
                = Num (pws dp / pws db * 100)).
  { js_red. destruct (Req_dec_T (pws db) 0) as [H | _]; [exfalso; lra |].
    reflexivity. }
  rewrite Hrh.
  assert (Hratio : pws dp / pws db * 100 / 100
                   = exp (magnus (celsius dp) - magnus (celsius db))).
  { unfold pws, Rminus. rewrite exp_plus, exp_Ropp. field.
    pose proof (exp_pos (magnus (celsius db))). lra. }
  assert (Halpha : ln (pws dp / pws db * 100 / 100) + magnus (celsius db)
                   = magnus (celsius dp)).
  { rewrite Hratio, ln_exp. lra. }
  assert (Hm : 17.625 - magnus (celsius dp) = 17.625 * 243.04 / (243.04 + celsius dp))
    by (unfold magnus; field; lra).
  assert (Hmpos : 0 < 17.625 * 243.04 / (243.04 + celsius dp))
    by (apply Rdiv_lt_0_compat; lra).
  unfold Psychrometric.calculateDewPoint, Psychrometric.WATER_VAPOR_CONSTANT,
    Psychrometric.WATER_VAPOR_TEMP_CONSTANT.
  js_red.
  destruct (Req_dec_T 9 0) as [H | _]; [exfalso; lra |].
  destruct (Req_dec_T 100 0) as [H | _]; [exfalso; lra |].
  destruct (Rlt_dec 0 (pws dp / pws db * 100 / 100)) as [_ | H];
    [| exfalso; apply H; rewrite Hratio; apply exp_pos].
  fold (celsius db).
  destruct (Req_dec_T (243.04 + celsius db) 0) as [H | _]; [exfalso; lra |].
  fold (magnus (celsius db)). rewrite Halpha.
  destruct (Req_dec_T (17.625 - magnus (celsius dp)) 0) as [H | _]; [exfalso; lra |].
  destruct (Req_dec_T 5 0) as [H | _]; [exfalso; lra |].
  f_equal. unfold magnus, celsius in *. field. lra.
Qed.

Lemma entered_dew_point_is_returned_witness :
  Psychrometric.calculateDewPoint
    (Num 75) (Psychrometric.resolveRH Psychrometric.DP (Num 75) "55")
  = Num 55.
Proof.
  apply (entered_dew_point_is_returned 75 55 "55").
  - lra.
  - lra.
  - cbv [parseFloat]. js_parse. cbv iota beta. js_eval. num_eq.
Defined.






(** ** The target supply temperature and the notes of the capped component *)

Lemma cfmPerTon_of_cases (zone : string) :
  cfmPerTon_of zone = 350 \/ cfmPerTon_of zone = 400 \/ cfmPerTon_of zone = 450.
Proof.
  unfold cfmPerTon_of, CLIMATE_ZONES_cfmPerTon.
  repeat match goal with
         | |- context [String.eqb ?a ?b] => destruct (String.eqb a b)
         end; auto.
Qed.

Lemma cfmPerTonOr400_Num (zone : string) :
  PsychrometricCapped.cfmPerTonOr400 zone = Num (cfmPerTon_of zone).
Proof.
  unfold PsychrometricCapped.cfmPerTonOr400, cfmPerTon_of.
  destruct (CLIMATE_ZONES_cfmPerTon zone); apply int_Num.
Qed.

Lemma target_temperature_Num (tons enteringTemp : R) (zone : string) :
  tons <> 0 ->
  PsychrometricCapped.calculateTargetTemperature (Num tons) (Num enteringTemp) zone
  = Num (enteringTemp - target_split zone).
Proof.
  intros Htons.
  pose proof (cfmPerTon_of_cases zone) as Hz.
  unfold PsychrometricCapped.calculateTargetTemperature.
  rewrite cfmPerTonOr400_Num. unfold target_split. js_red.
  destruct (Req_dec_T _ 0) as [H | _].
  { exfalso. apply Rmult_integral in H. destruct H as [H | H]; [lra |].
    apply Rmult_integral in H. destruct H; lra. }
  f_equal. unfold Q2R. cbn [QArith_base.Qnum QArith_base.Qden]. field. lra.
Qed.

(** In exact arithmetic the target supply temperature of the capped
    psychrometric component does not depend on the system size: for every
    non-zero tonnage it is the entering dry bulb minus
    9000 / (1.08 x CFM per ton), that is a split of about 23.8, 20.8 or 18.5
    degrees F for 350, 400 or 450 CFM per ton, and a climate zone that is not
    in the table counts as 400 CFM per ton.  On binary64 numbers the tonnage
    does not cancel exactly: at 75 degrees F in the moist zone the target
    computed for 2.7 tons is below the one computed for 3 tons (by the last
    digit). *)
Theorem target_temperature_does_not_depend_on_system_size :
  (forall (tons enteringTemp : R) (zone : string),
      tons <> 0 ->
      PsychrometricCapped.calculateTargetTemperature (Num tons) (Num enteringTemp) zone
      = Num (enteringTemp - target_split zone)
      /\ (CLIMATE_ZONES_cfmPerTon zone = None -> target_split zone = 9000 / (1.08 * 400))
      /\ 18.5 < target_split zone < 23.9)
  /\ (PsychrometricCapped.calculateTargetTemperature
        (num := PrimFloat.float) (parseFloat "2.7") (parseFloat "75") "moist"
      <? PsychrometricCapped.calculateTargetTemperature
           (parseFloat "3") (parseFloat "75") "moist")%js = true.
Proof.
  split.
  - intros tons enteringTemp zone Htons.
    split; [apply target_temperature_Num; exact Htons | split].
    + intros Hnone. unfold target_split, cfmPerTon_of. rewrite Hnone. reflexivity.
    + unfold target_split.
      destruct (cfmPerTon_of_cases zone) as [-> | [-> | ->]]; lra.
  - vm_compute. reflexivity.
Qed.

Lemma target_temperature_does_not_depend_on_system_size_witness :
  PsychrometricCapped.calculateTargetTemperature (Num 3) (Num 75) "moist"
  = Num (75 - target_split "moist")
  /\ (CLIMATE_ZONES_cfmPerTon "moist" = None -> target_split "moist" = 9000 / (1.08 * 400))
  /\ 18.5 < target_split "moist" < 23.9.
Proof.
  apply (proj1 target_temperature_does_not_depend_on_system_size 3 75 "moist"). lra.
Defined.

(** What the capped component stores besides the air properties. *)
Lemma capped_result_fields {num : Type} `{JSMath num}
  (s : PsychrometricCapped.State num) :
  present (PsychrometricCapped_required (PsychrometricCapped.inputs s)) = true ->
  let i := PsychrometricCapped.inputs s in
  let cfm := parseFloat (PsychrometricCapped.airflow i) in
  let tons := parseFloat (PsychrometricCapped.systemSize i) in
  let enteringDB := parseFloat (PsychrometricCapped.enteringDryBulb i) in
  let leavingDB := parseFloat (PsychrometricCapped.leavingDryBulb i) in
  exists r,
    PsychrometricCapped.calculateProperties s = Produced r
    /\ PsychrometricCapped.measuredDeltaT r = (enteringDB - leavingDB)%js
    /\ PsychrometricCapped.targetTemp r
       = PsychrometricCapped.calculateTargetTemperature
           tons enteringDB (PsychrometricCapped.climateZone i)
    /\ PsychrometricCapped.massAirflow r
       = (cfm * int 60 * PsychrometricCapped.AIR_DENSITY)%js
    /\ PsychrometricCapped.sensibleBtuh r
       = (cfm * int 60 * PsychrometricCapped.AIR_DENSITY
          * PsychrometricCapped.SPECIFIC_HEAT * (enteringDB - leavingDB))%js
    /\ PsychrometricCapped.standardCfmPerTon r = (cfm / tons)%js.
Proof.
  intros Hp. unfold PsychrometricCapped_required in Hp.
  repeat (apply present_cons in Hp; let H := fresh "F" in destruct Hp as [H Hp]).
  unfold PsychrometricCapped.calculateProperties.
  rewrite F, F0, F1, F2, F3, F4, F5. cbn [orb].
  eexists. split; [reflexivity |]. repeat split; reflexivity.
Qed.

(** The notes of the capped component in exact arithmetic. *)
Lemma capped_notes_exact
  (s : PsychrometricCapped.State number) (cfm tons t1 t2 : R) :
  present (PsychrometricCapped_required (PsychrometricCapped.inputs s)) = true ->
  parseFloat (PsychrometricCapped.airflow (PsychrometricCapped.inputs s)) = Num cfm ->
  parseFloat (PsychrometricCapped.systemSize (PsychrometricCapped.inputs s)) = Num tons ->
  parseFloat (PsychrometricCapped.enteringDryBulb (PsychrometricCapped.inputs s)) = Num t1 ->
  parseFloat (PsychrometricCapped.leavingDryBulb (PsychrometricCapped.inputs s)) = Num t2 ->
  0 < tons ->
  exists r,
    PsychrometricCapped.calculateProperties s = Produced r
    /\ PsychrometricCapped.sensibleBtuh r = Num (1.08 * cfm * (t1 - t2))
    /\ (PsychrometricCapped.showsLowAirflow r = true <-> cfm < 350 * tons)
    /\ (PsychrometricCapped.showsHighAirflow r = true <-> 450 * tons < cfm)
    /\ (PsychrometricCapped.showsSplitDeviates s r = true
        <-> 3 < Rabs (t1 - t2
                      - target_split (PsychrometricCapped.climateZone
                                        (PsychrometricCapped.inputs s)))).
Proof.
  intros Hp Hcfm Htons Ht1 Ht2 Hpos.
  destruct (capped_result_fields s Hp) as (r & Hr & Hsplit & Htarget & _ & Hsens & Hcpt).
  rewrite Hcfm, Ht1, Ht2 in Hsens. rewrite Ht1, Ht2 in Hsplit.
  rewrite Htons, Ht1 in Htarget. rewrite Hcfm, Htons in Hcpt.
  rewrite target_temperature_Num in Htarget by lra.
  exists r. split; [exact Hr |].
  unfold PsychrometricCapped.showsLowAirflow, PsychrometricCapped.showsHighAirflow,
    PsychrometricCapped.showsSplitDeviates.
  rewrite Hsens, Hcpt, Hsplit, Htarget, Ht1.
  set (d := target_split _).
  unfold PsychrometricCapped.AIR_DENSITY, PsychrometricCapped.SPECIFIC_HEAT, gt.
  js_red.
  destruct (Req_dec_T tons 0) as [H | _]; [exfalso; lra |].
  js_red.
  assert (Hq : cfm / tons * tons = cfm) by (field; lra).
  set (q := cfm / tons) in *.
  split.
  { f_equal. unfold Q2R. cbn [QArith_base.Qnum QArith_base.Qden]. field. }
  split; [| split].
  - destruct (Rlt_dec q 350) as [Hl | Hl]; split; intros Hx;
      try reflexivity; try discriminate.
    + rewrite <- Hq. apply Rmult_lt_compat_r; assumption.
    + exfalso. apply Hl. apply Rmult_lt_reg_r with tons; lra.
  - destruct (Rlt_dec 450 q) as [Hl | Hl]; split; intros Hx;
      try reflexivity; try discriminate.
    + rewrite <- Hq. apply Rmult_lt_compat_r; assumption.
    + exfalso. apply Hl. apply Rmult_lt_reg_r with tons; lra.
  - replace (t1 - t2 - (t1 - (t1 - d))) with (t1 - t2 - d) by lra.
    destruct (Rlt_dec 3 (Rabs (t1 - t2 - d))); split; intros Hx;
      try reflexivity; try discriminate; try contradiction; assumption.
Qed.

Lemma capped_example_parses :
  parseFloat (num := number) "1200" = Num 1200
  /\ parseFloat (num := number) "3" = Num 3
  /\ parseFloat (num := number) "75" = Num 75
  /\ parseFloat (num := number) "55" = Num 55.
Proof.
  repeat split; cbv [parseFloat]; js_parse; cbv iota beta; js_eval; num_eq.
Qed.

(** In exact arithmetic: after a click, and with the fields left as they
    were, the capped psychrometric component stores
    1.08 x CFM x (entering - leaving dry bulb) as the sensible capacity, flags
    the airflow as low below 350 CFM per ton and as high above 450, and shows
    the note that the temperature split deviates from the design target
    exactly when the measured split differs by more than 3 degrees F from
    9000 / (1.08 x CFM per ton of the zone).  On binary64 numbers the quotient
    CFM / tons is rounded before it is compared: with 1260 CFM and 2.8 tons,
    which is 450 CFM per ton, the airflow is flagged as high. *)
Theorem split_note_compares_with_the_zone_target :
  (forall (s : PsychrometricCapped.State number) (cfm tons t1 t2 : R),
      present (PsychrometricCapped_required (PsychrometricCapped.inputs s)) = true ->
      parseFloat (PsychrometricCapped.airflow (PsychrometricCapped.inputs s)) = Num cfm ->
      parseFloat (PsychrometricCapped.systemSize (PsychrometricCapped.inputs s)) = Num tons ->
      parseFloat (PsychrometricCapped.enteringDryBulb (PsychrometricCapped.inputs s))
      = Num t1 ->
      parseFloat (PsychrometricCapped.leavingDryBulb (PsychrometricCapped.inputs s))
      = Num t2 ->
      0 < tons ->
      exists r,
        PsychrometricCapped.calculateProperties s = Produced r
        /\ PsychrometricCapped.sensibleBtuh r = Num (1.08 * cfm * (t1 - t2))
        /\ (PsychrometricCapped.showsLowAirflow r = true <-> cfm < 350 * tons)
        /\ (PsychrometricCapped.showsHighAirflow r = true <-> 450 * tons < cfm)
        /\ (PsychrometricCapped.showsSplitDeviates s r = true
            <-> 3 < Rabs (t1 - t2
                          - target_split (PsychrometricCapped.climateZone
                                            (PsychrometricCapped.inputs s)))))
  /\ 450 * 2.8 = 1260
  /\ (forall M : JSMath PrimFloat.float,
         exists r,
           PsychrometricCapped.calculateProperties (capped_airflow_example "1260" "2.8")
           = Produced r
           /\ PsychrometricCapped.showsHighAirflow r = true).
Proof.
  split; [exact capped_notes_exact |]. split; [lra |].
  intros M.
  destruct (capped_result_fields (capped_airflow_example "1260" "2.8") eq_refl)
    as (r & Hr & _ & _ & _ & _ & Hcpt).
  exists r. split; [exact Hr |].
  unfold PsychrometricCapped.showsHighAirflow. rewrite Hcpt.
  vm_compute. reflexivity.
Qed.

Lemma split_note_compares_with_the_zone_target_witness :
  exists r,
    PsychrometricCapped.calculateProperties (capped_example "50") = Produced r
    /\ PsychrometricCapped.sensibleBtuh r = Num (1.08 * 1200 * (75 - 55))
    /\ (PsychrometricCapped.showsLowAirflow r = true <-> 1200 < 350 * 3)
    /\ (PsychrometricCapped.showsHighAirflow r = true <-> 450 * 3 < 1200)
    /\ (PsychrometricCapped.showsSplitDeviates (capped_example "50") r = true
        <-> 3 < Rabs (75 - 55 - target_split "moist")).
Proof.
  apply (proj1 split_note_compares_with_the_zone_target (capped_example "50") 1200 3 75 55).
  - reflexivity.
  - apply capped_example_parses.
  - apply capped_example_parses.
  - apply capped_example_parses.
  - apply capped_example_parses.
  - lra.
Defined.

(** ** The filter calculator *)

(** The record the filter handler stores, for a zone and a filter type of
    its tables. *)
Lemma filter_record {num : Type} `{JSNumber num}
  (s : Filter.State num) (c : Z) (at300 at350 at400 : num) :
  present (Filter_required (Filter.inputs s)) = true ->
  CLIMATE_ZONES_cfmPerTon (Filter.climateZone (Filter.inputs s)) = Some c ->
  Filter.FILTER_TYPES_initialPressureDrops (Filter.filterType (Filter.inputs s))
  = Some (at300, at350, at400) ->
  let tons := parseFloat (Filter.systemSize (Filter.inputs s)) in
  let width := parseFloat (Filter.filterWidth (Filter.inputs s)) in
  let height := parseFloat (Filter.filterHeight (Filter.inputs s)) in
  let fpm := ((tons * int c) / ((width * height) / int 144))%js in
  Filter.calculateFilterParameters s
  = Produced {| Filter.cfm := (tons * int c)%js;
                Filter.filterArea := ((width * height) / int 144)%js;
                Filter.fpm := fpm;
                Filter.initialPressureDrop :=
                  if (fpm <=? int 300)%js then at300
                  else if (fpm <=? int 350)%js then at350
                  else at400;
                Filter.maxPressureDrop := dec 15 2 |}.
Proof.
  intros Hp Hzone Htype. unfold Filter_required in Hp.
  repeat (apply present_cons in Hp; let H := fresh "F" in destruct Hp as [H Hp]).
  unfold Filter.calculateFilterParameters.
  rewrite F, F0, F1, F2, F3, Hzone, Htype. reflexivity.
Qed.

(** The airflow hint of the two psychrometric components and the filter
    calculator use one table: for the same system size and climate zone the
    hint is the CFM the filter calculator stores, tons x CFM per ton; for a
    zone that is not in the table the hint counts 400 CFM per ton where the
    filter calculator fails. *)
Theorem recommended_airflow_is_the_filter_cfm {num : Type} `{JSMath num}
  (s : Filter.State num) (ip : Psychrometric.Inputs) (ic : PsychrometricCapped.Inputs) :
  present (Filter_required (Filter.inputs s)) = true ->
  Psychrometric.systemSize ip = Filter.systemSize (Filter.inputs s) ->
  Psychrometric.climateZone ip = Filter.climateZone (Filter.inputs s) ->
  PsychrometricCapped.systemSize ic = Filter.systemSize (Filter.inputs s) ->
  PsychrometricCapped.climateZone ic = Filter.climateZone (Filter.inputs s) ->
  Psychrometric.getRecommendedCFM (num := num) ip
  = PsychrometricCapped.getRecommendedCFM ic
  /\ (forall r, Filter.calculateFilterParameters s = Produced r ->
      Psychrometric.getRecommendedCFM ip = Some (Filter.cfm r))
  /\ (CLIMATE_ZONES_cfmPerTon (Filter.climateZone (Filter.inputs s)) = None ->
      Filter.calculateFilterParameters s = Threw
      /\ Psychrometric.getRecommendedCFM ip
         = Some (parseFloat (Filter.systemSize (Filter.inputs s)) * int 400)%js).
Proof.
  intros Hp Hs1 Hz1 Hs2 Hz2.
  unfold Psychrometric.getRecommendedCFM, PsychrometricCapped.getRecommendedCFM,
    PsychrometricCapped.cfmPerTonOr400.
  rewrite Hs1, Hz1, Hs2, Hz2.
  unfold Filter_required in Hp.
  repeat (apply present_cons in Hp; let H := fresh "F" in destruct Hp as [H Hp]).
  unfold Filter.calculateFilterParameters.
  rewrite F, F0, F1, F2, F3. cbn [orb].
  split; [reflexivity |].
  destruct (CLIMATE_ZONES_cfmPerTon _) as [c |]; split.
  - destruct (Filter.FILTER_TYPES_initialPressureDrops _) as [[[a b] d] |];
      [| discriminate].
    intros r Hr. injection Hr as Hr. rewrite <- Hr. reflexivity.
  - discriminate.
  - discriminate.
  - intros _. split; reflexivity.
Qed.

Lemma recommended_airflow_is_the_filter_cfm_witness :
  Psychrometric.getRecommendedCFM (num := number) psychrometric_inputs_example
  = PsychrometricCapped.getRecommendedCFM
      (PsychrometricCapped.inputs (capped_example (num := number) "50"))
  /\ (forall r,
        Filter.calculateFilterParameters (filter_example "20") = Produced r ->
        Psychrometric.getRecommendedCFM psychrometric_inputs_example
        = Some (Filter.cfm r))
  /\ (CLIMATE_ZONES_cfmPerTon "moist" = None ->
      Filter.calculateFilterParameters (filter_example "20") = Threw
      /\ Psychrometric.getRecommendedCFM psychrometric_inputs_example
         = Some (parseFloat (num := number) "3" * int 400)%js).
Proof.
  apply (recommended_airflow_is_the_filter_cfm
           (filter_example "20")
           psychrometric_inputs_example
           (PsychrometricCapped.inputs (capped_example (num := number) "50")));
    reflexivity.
Defined.

(** The pressure-drop table, read exactly: the three drops of a filter type
    rise with the face velocity and lie between 0.05 and 0.30; only the
    fiberglass drop at 300 FPM is not above 0.075, half of the 0.15 allowed. *)
Lemma FILTER_TYPES_cases (key : string) (at300 at350 at400 : number) :
  Filter.FILTER_TYPES_initialPressureDrops key = Some (at300, at350, at400) ->
  exists a b c : R,
    at300 = Num a /\ at350 = Num b /\ at400 = Num c
    /\ 0.05 <= a <= b /\ b <= c <= 0.3 /\ 0.075 < b
    /\ (a <= 0.075 <-> key = "fiberglass").
Proof.
  unfold Filter.FILTER_TYPES_initialPressureDrops.
  destruct (String.eqb key "fiberglass") eqn:E1.
  { apply String.eqb_eq in E1. intros Ht. injection Ht as <- <- <-.
    do 3 eexists. repeat split; try reflexivity; unfold dec; js_red; try lra.
    intros _. exact E1. }
  apply String.eqb_neq in E1.
  destruct (String.eqb key "pleated-basic").
  { intros Ht. injection Ht as <- <- <-.
    do 3 eexists. repeat split; try reflexivity; unfold dec; js_red; try lra;
      intros; try contradiction; exfalso; lra. }
  destruct (String.eqb key "pleated-better").
  { intros Ht. injection Ht as <- <- <-.
    do 3 eexists. repeat split; try reflexivity; unfold dec; js_red; try lra;
      intros; try contradiction; exfalso; lra. }
  destruct (String.eqb key "pleated-best").
  { intros Ht. injection Ht as <- <- <-.
    do 3 eexists. repeat split; try reflexivity; unfold dec; js_red; try lra;
      intros; try contradiction; exfalso; lra. }
  discriminate.
Qed.

Lemma Filter_known_tables (i : Filter.Inputs) :
  Filter_known (num := number) i = true ->
  exists (c : Z) (at300 at350 at400 : number),
    CLIMATE_ZONES_cfmPerTon (Filter.climateZone i) = Some c
    /\ Filter.FILTER_TYPES_initialPressureDrops (Filter.filterType i)
       = Some (at300, at350, at400).
Proof.
  unfold Filter_known, is_some. intros Hk. apply andb_prop in Hk. destruct Hk as [Hz Ht].
  destruct (CLIMATE_ZONES_cfmPerTon _) as [c |]; [| discriminate].
  destruct (Filter.FILTER_TYPES_initialPressureDrops _) as [[[a b] d] |]; [| discriminate].
  exists c, a, b, d. split; reflexivity.
Qed.

(** The initial pressure drop never falls when the face velocity rises: of
    two filters of the same type, the one with the higher face velocity gets
    a drop at least as large, and every drop lies between 0.05 and 0.30
    inches w.g. *)
Theorem filter_pressure_drop_rises_with_face_velocity (s1 s2 : Filter.State number) :
  present (Filter_required (Filter.inputs s1)) = true ->
  present (Filter_required (Filter.inputs s2)) = true ->
  Filter_known (num := number) (Filter.inputs s1) = true ->
  Filter_known (num := number) (Filter.inputs s2) = true ->
  Filter.filterType (Filter.inputs s1) = Filter.filterType (Filter.inputs s2) ->
  exists r1 r2,
    Filter.calculateFilterParameters s1 = Produced r1
    /\ Filter.calculateFilterParameters s2 = Produced r2
    /\ forall v1 v2 : R,
         Filter.fpm r1 = Num v1 -> Filter.fpm r2 = Num v2 -> v1 <= v2 ->
         exists d1 d2 : R,
           Filter.initialPressureDrop r1 = Num d1
           /\ Filter.initialPressureDrop r2 = Num d2
           /\ 0.05 <= d1 <= d2 /\ d2 <= 0.3.
Proof.
  intros Hp1 Hp2 Hk1 Hk2 Htype.
  destruct (Filter_known_tables _ Hk1) as (c1 & a1 & b1 & d1 & Hz1 & Ht1).
  destruct (Filter_known_tables _ Hk2) as (c2 & a2 & b2 & d2 & Hz2 & Ht2).
  rewrite Htype, Ht2 in Ht1. injection Ht1 as <- <- <-.
  destruct (FILTER_TYPES_cases _ _ _ _ Ht2) as (a & b & c & -> & -> & -> & Hab & Hbc & _).
  eexists. eexists.
  split.
  { apply (filter_record s1 c1 (Num a) (Num b) (Num c) Hp1 Hz1).
    rewrite Htype. exact Ht2. }
  split; [apply (filter_record s2 c2 (Num a) (Num b) (Num c) Hp2 Hz2 Ht2) |].
  cbn [Filter.fpm Filter.initialPressureDrop].
  intros v1 v2 -> -> Hle. js_red.
  destruct (Rle_dec v1 300), (Rle_dec v1 350), (Rle_dec v2 300), (Rle_dec v2 350);
    try (exfalso; lra); do 2 eexists; (split; [reflexivity |]); (split; [reflexivity |]); lra.
Qed.

Lemma filter_example_known :
  Filter_known (num := number) (Filter.inputs (filter_example "20")) = true
  /\ Filter_known (num := number) (Filter.inputs (filter_example "16")) = true.
Proof. split; reflexivity. Qed.

Lemma filter_pressure_drop_rises_with_face_velocity_witness :
  exists r1 r2,
    Filter.calculateFilterParameters (filter_example "20") = Produced r1
    /\ Filter.calculateFilterParameters (filter_example "16") = Produced r2
    /\ forall v1 v2 : R,
         Filter.fpm r1 = Num v1 -> Filter.fpm r2 = Num v2 -> v1 <= v2 ->
         exists d1 d2 : R,
           Filter.initialPressureDrop r1 = Num d1
           /\ Filter.initialPressureDrop r2 = Num d2
           /\ 0.05 <= d1 <= d2 /\ d2 <= 0.3.
Proof.
  apply (filter_pressure_drop_rises_with_face_velocity
           (filter_example "20") (filter_example "16")).
  - reflexivity.
  - reflexivity.
  - apply filter_example_known.
  - apply filter_example_known.
  - reflexivity.
Defined.

(** The warnings of the filter result panel: the pressure-drop warning
    (initial drop above half of the 0.15 allowed) is shown for every result
    except a fiberglass filter at a face velocity of 300 FPM or less, and
    whenever the face-velocity warning (above 350 FPM) is shown, the
    pressure-drop warning is shown with it. *)
Theorem filter_warnings (s : Filter.State number) :
  present (Filter_required (Filter.inputs s)) = true ->
  Filter_known (num := number) (Filter.inputs s) = true ->
  exists r,
    Filter.calculateFilterParameters s = Produced r
    /\ (Filter.showsPressureDropWarning r = false
        <-> Filter.filterType (Filter.inputs s) = "fiberglass"
            /\ (Filter.fpm r <=? int 300)%js = true)
    /\ (Filter.showsFaceVelocityWarning r = true ->
        Filter.showsPressureDropWarning r = true).
Proof.
  intros Hp Hk.
  destruct (Filter_known_tables _ Hk) as (c0 & a0 & b0 & d0 & Hz & Ht).
  destruct (FILTER_TYPES_cases _ _ _ _ Ht)
    as (a & b & c & -> & -> & -> & Hab & Hbc & Hb & Hfib).
  eexists. split; [apply (filter_record s c0 (Num a) (Num b) (Num c) Hp Hz Ht) |].
  unfold Filter.showsPressureDropWarning, Filter.showsFaceVelocityWarning.
  cbn [Filter.fpm Filter.initialPressureDrop Filter.maxPressureDrop].
  set (fpm := (_ / _)%js).
  assert (Hhalf : (dec 15 2 / int 2)%js = Num 0.075).
  { unfold dec. js_red. destruct (Req_dec_T 2 0) as [H | _]; [exfalso; lra |].
    f_equal. lra. }
  rewrite Hhalf. unfold gt.
  destruct fpm as [v |]; js_red; rewrite ?Z.pow_0_r, ?Z.mul_1_r.
  - destruct (Rle_dec v 300), (Rle_dec v 350), (Rlt_dec 350 v);
      try (exfalso; lra);
      repeat match goal with
             | |- context [Rlt_dec ?x ?y] => destruct (Rlt_dec x y)
             end;
      try (exfalso; lra);
      (split; [split; [intros Hx | intros [Hx Hy]] | intros Hx]);
      try reflexivity; try discriminate; try (split; [apply Hfib; lra | reflexivity]);
      try (exfalso; tauto); try (exfalso; lra);
      try (exfalso; apply Hfib in Hx; lra).
  - destruct (Rlt_dec 0.075 c) as [_ | H]; [| exfalso; lra].
    split; [split; [discriminate | intros [_ Hx]; discriminate] | discriminate].
Qed.

Lemma filter_warnings_witness :
  exists r,
    Filter.calculateFilterParameters (filter_example "20") = Produced r
    /\ (Filter.showsPressureDropWarning r = false
        <-> Filter.filterType (Filter.inputs (filter_example "20"))
            = "fiberglass"
            /\ (Filter.fpm r <=? int 300)%js = true)
    /\ (Filter.showsFaceVelocityWarning r = true ->
        Filter.showsPressureDropWarning r = true).
Proof.
  apply (filter_warnings (filter_example "20")).
  - reflexivity.
  - apply filter_example_known.
Defined.

(** ** More on dehumidifier sizing *)

Lemma Produced_inj {A : Type} (x y : A) : Produced x = Produced y -> x = y.
Proof. intros H. injection H. auto. Qed.

(** Whatever the three fields hold, and in every reading of numbers, the
    size the dehumidifier calculator recommends is one of the ten standard
    sizes: it is found in the list or is the list's last entry. *)
Theorem recommended_size_is_always_a_standard_size {num : Type} `{JSNumber num}
  (s : Dehumidifier.State num) (r : Dehumidifier.DehumidifierResult num) :
  Dehumidifier.calculateDehumidifierSize s = Produced r ->
  In (Dehumidifier.recommendedSize r) Dehumidifier.STANDARD_SIZES.
Proof.
  unfold Dehumidifier.calculateDehumidifierSize. cbv zeta.
  destruct (falsy _ || falsy _ || falsy _); [discriminate |].
  intros Hr. apply Produced_inj in Hr. rewrite <- Hr.
  cbv beta iota delta [Dehumidifier.recommendedSize].
  destruct (find _ Dehumidifier.STANDARD_SIZES) as [size |] eqn:Hfind.
  - apply find_some in Hfind. apply Hfind.
  - unfold Dehumidifier.largestSize, Dehumidifier.STANDARD_SIZES,
      Dehumidifier.STANDARD_SIZES_Z.
    cbn [map last In]. auto 12.
Qed.

Lemma recommended_size_is_always_a_standard_size_witness :
  exists r,
    Dehumidifier.calculateDehumidifierSize (dehumidifier_state "abc" "75" "65") = Produced r
    /\ In (Dehumidifier.recommendedSize r) Dehumidifier.STANDARD_SIZES.
Proof.
  eexists. split; [reflexivity |].
  apply (recommended_size_is_always_a_standard_size (dehumidifier_state "abc" "75" "65")).
  reflexivity.
Defined.

Lemma derating_bounds (temp rh : R) : 0.56 <= derating temp rh <= 1.
Proof.
  unfold derating.
  destruct (Rlt_dec temp 65), (Rlt_dec temp 70), (Rlt_dec rh 60); lra.
Qed.

Lemma required_capacity_bounds (latentBTU temp rh : R) :
  0 <= latentBTU ->
  1.2 * (latentBTU * 0.0833 * 24) <= required_capacity latentBTU temp rh
  <= 1.2 * (latentBTU * 0.0833 * 24) / 0.56.
Proof.
  intros Hl. pose proof (derating_bounds temp rh) as [Hlo Hhi].
  unfold required_capacity.
  set (p := latentBTU * 0.0833 * 24).
  assert (Hp : 0 <= p) by (unfold p; lra).
  set (d := derating temp rh) in *.
  assert (Hq : p / d * d = p) by (field; lra).
  set (q := p / d) in *.
  assert (Hq0 : 0 <= q).
  { unfold q, Rdiv. apply Rmult_le_pos; [lra |].
    left. apply Rinv_0_lt_compat. lra. }
  split; [Psatz.nra |].
  apply Rmult_le_reg_r with 0.56; [lra |].
  replace (1.2 * p / 0.56 * 0.56) with (1.2 * p) by (field; lra).
  Psatz.nra.
Qed.

Lemma required_capacity_monotone (l1 l2 temp rh : R) :
  l1 <= l2 -> required_capacity l1 temp rh <= required_capacity l2 temp rh.
Proof.
  intros Hle. pose proof (derating_bounds temp rh) as [Hlo Hhi].
  unfold required_capacity, Rdiv.
  apply Rmult_le_compat_r; [lra |].
  apply Rmult_le_compat_r; [left; apply Rinv_0_lt_compat; lra |]. lra.
Qed.

(** The required capacity and the warnings in exact arithmetic. *)
Lemma dehumidifier_capacity_exact
  (s : Dehumidifier.State number) (latentBTU temp rh : R) :
  present (Dehumidifier_required (Dehumidifier.inputs s)) = true ->
  parseFloat (Dehumidifier.latentLoad (Dehumidifier.inputs s)) = Num latentBTU ->
  parseFloat (Dehumidifier.indoorTemp (Dehumidifier.inputs s)) = Num temp ->
  parseFloat (Dehumidifier.indoorRH (Dehumidifier.inputs s)) = Num rh ->
  0 <= latentBTU ->
  exists (r : Dehumidifier.DehumidifierResult number) (c : R),
    Dehumidifier.calculateDehumidifierSize s = Produced r
    /\ Dehumidifier.requiredCapacity r = Num c
    /\ 1.2 * (latentBTU * 0.0833 * 24) <= c <= 1.2 * (latentBTU * 0.0833 * 24) / 0.56
    /\ (In Dehumidifier.ExceedsLargestUnit (Dehumidifier.warnings r) <-> 250 < c)
    /\ ~ (In Dehumidifier.LowHumidity (Dehumidifier.warnings r)
          /\ In Dehumidifier.HighHumidity (Dehumidifier.warnings r)).
Proof.
  intros Hp Hl Ht Hr Hpos.
  eexists. exists (required_capacity latentBTU temp rh).
  split; [apply (dehumidifier_record s latentBTU temp rh Hp Hl Ht Hr) |].
  cbn [Dehumidifier.requiredCapacity Dehumidifier.warnings].
  split; [reflexivity |].
  split; [apply required_capacity_bounds; exact Hpos |].
  set (c := required_capacity latentBTU temp rh).
  pose proof (find_first_at_least c _ STANDARD_SIZES_sorted) as Hfind.
  fold (Dehumidifier.STANDARD_SIZES (num := number)) in Hfind.
  assert (Hsize : exists z : Z,
             match find (fun size : number => (size >=? Num c)%js)
                        Dehumidifier.STANDARD_SIZES with
             | Some size => size
             | None => int 250
             end = Num (IZR z)
             /\ (IZR z < c <-> 250 < c)).
  { destruct (find _ Dehumidifier.STANDARD_SIZES) as [size |].
    - destruct Hfind as (z & Hin & -> & Hle & _). exists z.
      split; [apply int_Num |].
      assert (z <= 250)%Z.
      { unfold Dehumidifier.STANDARD_SIZES_Z in Hin. cbn [In] in Hin. intuition lia. }
      apply IZR_le in H. split; intros; lra.
    - exists 250%Z. split; [apply int_Num |].
      assert (IZR 250 < c) by (apply Hfind; cbv; tauto). split; intros; lra. }
  destruct Hsize as (z & -> & Hz).
  js_red.
  destruct (Rlt_dec temp 65), (Rlt_dec rh 60), (Rlt_dec (IZR z) c), (Rlt_dec 65 rh);
    try (exfalso; lra); cbn [app In]; split;
    try (intros [Ha Hb]; intuition discriminate);
    (split; [intros Hx | intros Hx]);
    try tauto; try (intuition discriminate); try (left; reflexivity);
    try (right; left; reflexivity); try (right; right; left; reflexivity);
    try (exfalso; tauto).
Qed.

Lemma dehumidifier_state_parses :
  parseFloat (num := number) "100" = Num 100
  /\ parseFloat (num := number) "50" = Num 50
  /\ parseFloat (num := number) "68" = Num 68
  /\ parseFloat (num := number) "55" = Num 55.
Proof.
  repeat split; cbv [parseFloat]; js_parse; cbv iota beta; js_eval; num_eq.
Qed.

(** In exact arithmetic: for a non-negative latent load the required
    capacity lies between 1.2 times the base pints per day and 1.2 / 0.56
    times it (the derating factor is never below 0.56 = 0.7 x 0.8); the
    warning about the largest standard unit is given exactly when the
    required capacity is above 250; and the low-humidity and high-humidity
    warnings are never given together.  On binary64 numbers the product
    0.7 x 0.8 is rounded to just below 0.56, and the upper bound can be passed
    by the last digit: for a load of 100 BTU/hr at 60 degrees F and 50%, where
    the bound is 428.4, the required capacity is above the binary64 number
    428.4. *)
Theorem dehumidifier_capacity_bounds_and_warnings :
  (forall (s : Dehumidifier.State number) (latentBTU temp rh : R),
      present (Dehumidifier_required (Dehumidifier.inputs s)) = true ->
      parseFloat (Dehumidifier.latentLoad (Dehumidifier.inputs s)) = Num latentBTU ->
      parseFloat (Dehumidifier.indoorTemp (Dehumidifier.inputs s)) = Num temp ->
      parseFloat (Dehumidifier.indoorRH (Dehumidifier.inputs s)) = Num rh ->
      0 <= latentBTU ->
      exists (r : Dehumidifier.DehumidifierResult number) (c : R),
        Dehumidifier.calculateDehumidifierSize s = Produced r
        /\ Dehumidifier.requiredCapacity r = Num c
        /\ 1.2 * (latentBTU * 0.0833 * 24) <= c <= 1.2 * (latentBTU * 0.0833 * 24) / 0.56
        /\ (In Dehumidifier.ExceedsLargestUnit (Dehumidifier.warnings r) <-> 250 < c)
        /\ ~ (In Dehumidifier.LowHumidity (Dehumidifier.warnings r)
              /\ In Dehumidifier.HighHumidity (Dehumidifier.warnings r)))
  /\ 1.2 * (100 * 0.0833 * 24) / 0.56 = 428.4
  /\ (exists r : Dehumidifier.DehumidifierResult PrimFloat.float,
         Dehumidifier.calculateDehumidifierSize (dehumidifier_fields "100" "60" "50")
         = Produced r
         /\ (dec 4284 1 <? Dehumidifier.requiredCapacity r)%js = true).
Proof.
  split; [exact dehumidifier_capacity_exact |]. split; [lra |].
  eexists. split; [vm_compute; reflexivity |]. vm_compute. reflexivity.
Qed.

Lemma dehumidifier_capacity_bounds_and_warnings_witness :
  exists (r : Dehumidifier.DehumidifierResult number) (c : R),
    Dehumidifier.calculateDehumidifierSize (dehumidifier_state "100" "68" "55") = Produced r
    /\ Dehumidifier.requiredCapacity r = Num c
    /\ 1.2 * (100 * 0.0833 * 24) <= c <= 1.2 * (100 * 0.0833 * 24) / 0.56
    /\ (In Dehumidifier.ExceedsLargestUnit (Dehumidifier.warnings r) <-> 250 < c)
    /\ ~ (In Dehumidifier.LowHumidity (Dehumidifier.warnings r)
          /\ In Dehumidifier.HighHumidity (Dehumidifier.warnings r)).
Proof.
  apply (proj1 dehumidifier_capacity_bounds_and_warnings
           (dehumidifier_state "100" "68" "55") 100 68 55).
  - reflexivity.
  - apply dehumidifier_state_parses.
  - apply dehumidifier_state_parses.
  - apply dehumidifier_state_parses.
  - lra.
Defined.

(** With the temperature and the humidity fixed, a larger latent load never
    gets a smaller recommendation: the recommended standard size does not
    fall when the load rises. *)
Theorem recommended_size_rises_with_the_load
  (s1 s2 : Dehumidifier.State number) (l1 l2 temp rh : R) :
  present (Dehumidifier_required (Dehumidifier.inputs s1)) = true ->
  present (Dehumidifier_required (Dehumidifier.inputs s2)) = true ->
  parseFloat (Dehumidifier.latentLoad (Dehumidifier.inputs s1)) = Num l1 ->
  parseFloat (Dehumidifier.latentLoad (Dehumidifier.inputs s2)) = Num l2 ->
  parseFloat (Dehumidifier.indoorTemp (Dehumidifier.inputs s1)) = Num temp ->
  parseFloat (Dehumidifier.indoorTemp (Dehumidifier.inputs s2)) = Num temp ->
  parseFloat (Dehumidifier.indoorRH (Dehumidifier.inputs s1)) = Num rh ->
  parseFloat (Dehumidifier.indoorRH (Dehumidifier.inputs s2)) = Num rh ->
  l1 <= l2 ->
  exists r1 r2 (z1 z2 : Z),
    Dehumidifier.calculateDehumidifierSize s1 = Produced r1
    /\ Dehumidifier.calculateDehumidifierSize s2 = Produced r2
    /\ Dehumidifier.recommendedSize r1 = int z1
    /\ Dehumidifier.recommendedSize r2 = int z2
    /\ (z1 <= z2)%Z.
Proof.
  intros Hp1 Hp2 Hl1 Hl2 Ht1 Ht2 Hr1 Hr2 Hle.
  pose proof (required_capacity_monotone l1 l2 temp rh Hle) as Hc.
  set (c1 := required_capacity l1 temp rh) in *.
  set (c2 := required_capacity l2 temp rh) in *.
  pose proof (find_first_at_least c1 _ STANDARD_SIZES_sorted) as Hf1.
  pose proof (find_first_at_least c2 _ STANDARD_SIZES_sorted) as Hf2.
  fold (Dehumidifier.STANDARD_SIZES (num := number)) in Hf1, Hf2.
  eexists. eexists.
  assert (Hz : exists z1 z2 : Z,
             match find (fun size : number => (size >=? Num c1)%js)
                        Dehumidifier.STANDARD_SIZES with
             | Some size => size
             | None => int 250
             end = int z1
             /\ match find (fun size : number => (size >=? Num c2)%js)
                           Dehumidifier.STANDARD_SIZES with
                | Some size => size
                | None => int 250
                end = int z2
             /\ (z1 <= z2)%Z).
  { destruct (find _ Dehumidifier.STANDARD_SIZES) as [size1 |];
      destruct (find _ Dehumidifier.STANDARD_SIZES) as [size2 |].
    - destruct Hf1 as (z1 & Hin1 & -> & Hle1 & Hleast1).
      destruct Hf2 as (z2 & Hin2 & -> & Hle2 & Hleast2).
      exists z1, z2. split; [reflexivity |]. split; [reflexivity |].
      apply Hleast1; [exact Hin2 | lra].
    - destruct Hf1 as (z1 & Hin1 & -> & Hle1 & Hleast1).
      exists z1, 250%Z. split; [reflexivity |]. split; [reflexivity |].
      unfold Dehumidifier.STANDARD_SIZES_Z in Hin1. cbn [In] in Hin1. intuition lia.
    - destruct Hf2 as (z2 & Hin2 & -> & Hle2 & Hleast2).
      exfalso. pose proof (Hf1 z2 Hin2). lra.
    - exists 250%Z, 250%Z. split; [reflexivity |]. split; [reflexivity |]. lia. }
  destruct Hz as (z1 & z2 & Hz1 & Hz2 & Hz12).
  exists z1, z2.
  split; [apply (dehumidifier_record s1 l1 temp rh Hp1 Hl1 Ht1 Hr1) |].
  split; [apply (dehumidifier_record s2 l2 temp rh Hp2 Hl2 Ht2 Hr2) |].
  cbn [Dehumidifier.recommendedSize].
  split; [exact Hz1 |]. split; [exact Hz2 | exact Hz12].
Qed.

Lemma recommended_size_rises_with_the_load_witness :
  exists r1 r2 (z1 z2 : Z),
    Dehumidifier.calculateDehumidifierSize (dehumidifier_state "50" "68" "55") = Produced r1
    /\ Dehumidifier.calculateDehumidifierSize (dehumidifier_state "100" "68" "55")
       = Produced r2
    /\ Dehumidifier.recommendedSize r1 = int z1
    /\ Dehumidifier.recommendedSize r2 = int z2
    /\ (z1 <= z2)%Z.
Proof.
  apply (recommended_size_rises_with_the_load
           (dehumidifier_state "50" "68" "55") (dehumidifier_state "100" "68" "55")
           50 100 68 55);
    try reflexivity; try apply dehumidifier_state_parses. lra.
Defined.

(** ** The attic ventilation status *)

(** The ventilation status against the warnings, whatever the fields hold
    and in every reading of numbers: the status is Adequate exactly when
    there is no warning; it is Critical exactly when the existing vents are
    below the code minimum, or the temperature differential is critical and
    neither the pressure nor the moisture warning is given, since each of
    those two checks sets the status back to Inadequate. *)
Theorem attic_status_follows_the_warnings {num : Type} `{JSNumber num}
  (s : Attic.State num) (r : Attic.VentilationResult num) :
  Attic.calculateVentilation s = Produced r ->
  (Attic.ventilationStatus r = Attic.Adequate <-> Attic.warnings r = [])
  /\ (Attic.ventilationStatus r = Attic.Critical
      <-> In Attic.BelowMinimumCode (Attic.warnings r)
          \/ (In Attic.CriticalTemperatureDifferential (Attic.warnings r)
              /\ ~ In Attic.HighPressureDifferential (Attic.warnings r)
              /\ ~ In Attic.HighMoisture (Attic.warnings r))).
Proof.
  unfold Attic.calculateVentilation. cbv zeta.
  destruct (falsy _ || falsy _ || falsy _ || falsy _ || falsy _ || falsy _);
    [discriminate |].
  intros Hr. apply Produced_inj in Hr. rewrite <- Hr.
  cbv beta iota delta [Attic.ventilationStatus Attic.warnings].
  generalize (parseFloat (num := num) (Attic.atticTemp (Attic.inputs s))
              - parseFloat (Attic.outdoorTemp (Attic.inputs s)))%js.
  intros tempDiff.
  destruct (tempDiff >? int 20)%js, (tempDiff >? int 30)%js,
    (Math_abs (parseFloat (Attic.pressureDifferentialText (Attic.inputs s))) >? int 2)%js,
    (parseFloat (Attic.atticDewPoint (Attic.inputs s))
     - parseFloat (Attic.outdoorDewPoint (Attic.inputs s)) >? int 5)%js;
    match goal with
    | |- context [if ?b then [Attic.BelowMinimumCode] else []] => destruct b
    end;
    cbn [app In]; (split; split); intros;
    try reflexivity; try discriminate; intuition (try discriminate; try congruence).
Qed.

Lemma attic_status_follows_the_warnings_witness :
  exists r,
    Attic.calculateVentilation (num := number) (attic_example "1500") = Produced r
    /\ (Attic.ventilationStatus r = Attic.Adequate <-> Attic.warnings r = [])
    /\ (Attic.ventilationStatus r = Attic.Critical
        <-> In Attic.BelowMinimumCode (Attic.warnings r)
            \/ (In Attic.CriticalTemperatureDifferential (Attic.warnings r)
                /\ ~ In Attic.HighPressureDifferential (Attic.warnings r)
                /\ ~ In Attic.HighMoisture (Attic.warnings r))).
Proof.
  eexists. split; [reflexivity |].
  apply (attic_status_follows_the_warnings (attic_example "1500")).
  reflexivity.
Defined.

Lemma no_existing_vent_not_truthy (field : string) :
  no_existing_vent field ->
  truthy (if falsy field then int 0 else parseFloat (num := number) field) = false.
Proof.
  intros [He | [Hz | Hn]].
  - rewrite He, int_Num. unfold truthy. rewrite int_Num. js_red.
    destruct (Rlt_dec 0 0); [exfalso; lra | reflexivity].
  - rewrite Hz. destruct (falsy field); rewrite ?int_Num;
      unfold truthy; rewrite int_Num; js_red;
      destruct (Rlt_dec 0 0); try (exfalso; lra); reflexivity.
  - destruct Hn as [Hn _]. unfold parseFloat. rewrite Hn.
    destruct (falsy field); rewrite ?int_Num;
      unfold truthy; rewrite ?int_Num; js_red; try reflexivity.
    destruct (Rlt_dec 0 0); [exfalso; lra | reflexivity].
Qed.

(** One existing vent area alone is ignored: unless both the existing intake
    and the existing exhaust area are given and are non-zero numbers, the
    attic calculator recommends installing the full required intake and
    exhaust areas, followed at most by the advice on the pressure, and it
    never reports the vents as below the code minimum. *)
Theorem single_existing_vent_area_is_ignored (s : Attic.State number) :
  present (Attic_required (Attic.inputs s)) = true ->
  no_existing_vent (Attic.existingIntakeArea (Attic.inputs s))
  \/ no_existing_vent (Attic.existingExhaustArea (Attic.inputs s)) ->
  exists r rest,
    Attic.calculateVentilation s = Produced r
    /\ Attic.recommendations r
       = Attic.InstallIntake (Attic.intake (Attic.requiredVentArea r))
         :: Attic.InstallExhaust (Attic.exhaust (Attic.requiredVentArea r))
         :: rest
    /\ (rest = [] \/ rest = [Attic.MoreExhaust] \/ rest = [Attic.MoreIntake])
    /\ ~ In Attic.BelowMinimumCode (Attic.warnings r).
Proof.
  intros Hp Hnone. unfold Attic_required in Hp.
  repeat (apply present_cons in Hp; let H := fresh "F" in destruct Hp as [H Hp]).
  assert (Hex : truthy (if falsy (Attic.existingIntakeArea (Attic.inputs s))
                        then int 0
                        else parseFloat (num := number)
                               (Attic.existingIntakeArea (Attic.inputs s)))
                && truthy (if falsy (Attic.existingExhaustArea (Attic.inputs s))
                           then int 0
                           else parseFloat (num := number)
                                  (Attic.existingExhaustArea (Attic.inputs s)))
                = false).
  { destruct Hnone as [H | H]; apply no_existing_vent_not_truthy in H; rewrite H;
      [reflexivity | apply andb_false_r]. }
  unfold Attic.calculateVentilation. cbv zeta.
  rewrite F, F0, F1, F2, F3, F4. cbn [orb].
  rewrite Hex. cbn [andb].
  eexists. eexists. split; [reflexivity |].
  cbv beta iota delta [Attic.recommendations Attic.requiredVentArea Attic.warnings].
  cbn [app]. split; [reflexivity |]. split.
  - destruct (_ >? int 0)%js; [right; left; reflexivity |].
    destruct (_ <? int 0)%js; [right; right; reflexivity | left; reflexivity].
  - rewrite app_nil_r.
    repeat match goal with
           | |- context [if ?b then [?w] else []] => destruct b
           end;
      cbn [app In]; intuition discriminate.
Qed.

Lemma single_existing_vent_area_is_ignored_witness :
  exists r rest,
    Attic.calculateVentilation (attic_with_vents "8" "") = Produced r
    /\ Attic.recommendations r
       = Attic.InstallIntake (Attic.intake (Attic.requiredVentArea r))
         :: Attic.InstallExhaust (Attic.exhaust (Attic.requiredVentArea r))
         :: rest
    /\ (rest = [] \/ rest = [Attic.MoreExhaust] \/ rest = [Attic.MoreIntake])
    /\ ~ In Attic.BelowMinimumCode (Attic.warnings r).
Proof.
  apply (single_existing_vent_area_is_ignored (attic_with_vents "8" "")).
  - reflexivity.
  - right. left. reflexivity.
Defined.

(** ** The duct calculator: its two lists *)

Lemma filterIndex_all {A : Type} (keep : nat -> bool) (l : list A) :
  forall i : nat,
    (forall j : nat, (i <= j < i + List.length l)%nat -> keep j = true) ->
    Duct.filterIndex keep i l = l.
Proof.
  induction l as [| x l IH]; intros i Hkeep; cbn [Duct.filterIndex List.length] in *.
  - reflexivity.
  - rewrite (Hkeep i) by lia. f_equal. apply IH. intros j Hj. apply Hkeep. lia.
Qed.

Lemma filterIndex_drops_one {A : Type} (l : list A) :
  forall i index : nat,
    (i <= index < i + List.length l)%nat ->
    S (List.length (Duct.filterIndex (fun j => negb (Nat.eqb j index)) i l))
    = List.length l.
Proof.
  induction l as [| x l IH]; intros i index Hi; cbn [Duct.filterIndex List.length] in *.
  - lia.
  - destruct (Nat.eqb i index) eqn:E; cbn [negb List.length].
    + apply Nat.eqb_eq in E. subst index. f_equal. f_equal.
      apply filterIndex_all. intros j Hj.
      destruct (Nat.eqb j i) eqn:E'; [apply Nat.eqb_eq in E'; lia | reflexivity].
    + apply Nat.eqb_neq in E. f_equal. apply IH. lia.
Qed.

Lemma filterIndex_last {A : Type} (x : A) (l : list A) :
  forall i : nat,
    Duct.filterIndex (fun j => negb (Nat.eqb j (i + List.length l))) i (l ++ [x]) = l.
Proof.
  induction l as [| y l IH]; intros i; cbn [app Duct.filterIndex List.length].
  - rewrite Nat.add_0_r, Nat.eqb_refl. reflexivity.
  - destruct (Nat.eqb i (i + S (List.length l))) eqn:E;
      [apply Nat.eqb_eq in E; lia |].
    cbn [negb]. f_equal.
    replace (i + S (List.length l))%nat with (S i + List.length l)%nat by lia. apply IH.
Qed.

(** The list of fittings, whatever the reading of numbers: an added fitting
    is one 90-degree elbow with the coefficient 0.3, placed behind the
    others; the equivalent length is the straight length plus the sum of
    coefficient x quantity over the list, so after the addition it is the
    straight length plus (the earlier sum + 0.3 x 1), every other input left
    as it is; removing the row the elbow got gives the list back; removing a
    row of the list makes it one shorter, and an index that is not a row of
    the list removes nothing. *)
Theorem fittings_are_added_and_removed_by_row {num : Type} `{JSMath num}
  (i : Duct.Inputs num) :
  let fittings := Duct.fittings i in
  let straight := or_else (parseFloat (Duct.straightLength i)) (int 0) in
  let lengths :=
    fold_left (fun total fitting =>
                 (total + Duct.coefficient fitting * Duct.quantity fitting)%js)
              fittings (int 0) in
  Duct.addFitting fittings
  = (fittings ++ [{| Duct.type := "elbow-90";
                     Duct.quantity := int 1;
                     Duct.coefficient := dec 3 1 |}])%list
  /\ Duct.calculateEquivalentLength i = (straight + lengths)%js
  /\ Duct.calculateEquivalentLength (Duct.setFittings i (Duct.addFitting fittings))
     = (straight + (lengths + dec 3 1 * int 1))%js
  /\ Duct.removeFitting (Duct.addFitting fittings) (List.length fittings) = fittings
  /\ (forall index : nat,
        (index < List.length fittings)%nat ->
        S (List.length (Duct.removeFitting fittings index)) = List.length fittings)
  /\ (forall index : nat,
        (List.length fittings <= index)%nat ->
        Duct.removeFitting fittings index = fittings).
Proof.
  cbv zeta. split; [reflexivity |]. split; [reflexivity |]. split; [| split; [| split]].
  - unfold Duct.calculateEquivalentLength, Duct.setFittings, Duct.addFitting.
    cbn [Duct.fittings Duct.straightLength].
    rewrite fold_left_app. reflexivity.
  - unfold Duct.removeFitting, Duct.addFitting.
    apply (filterIndex_last _ (Duct.fittings i) 0).
  - intros index Hi. unfold Duct.removeFitting. apply filterIndex_drops_one. lia.
  - intros index Hi. unfold Duct.removeFitting. apply filterIndex_all. intros j Hj.
    destruct (Nat.eqb j index) eqn:E; [| reflexivity].
    apply Nat.eqb_eq in E. lia.
Qed.

Lemma isNaN_number (a : number) : isNaN a = false <-> exists v : R, a = Num v.
Proof.
  unfold isNaN. destruct a as [v |]; js_red.
  - destruct (Rle_dec v v) as [_ | H]; [| exfalso; lra].
    split; [intros _; exists v; reflexivity | reflexivity].
  - split; [discriminate | intros [v Hv]; discriminate].
Qed.

Lemma or_else_zero_is_a_number (a : number) : isNaN (or_else a (int 0)) = false.
Proof.
  apply isNaN_number. unfold or_else, truthy. rewrite int_Num.
  destruct a as [v |]; js_red.
  - destruct (Rlt_dec v 0), (Rlt_dec 0 v); cbn [orb]; eauto.
  - eauto.
Qed.

Lemma total_losses_are_a_number (l : list (Duct.SystemComponent number)) :
  Forall lossIsNumber l ->
  forall a : number,
    isNaN a = false ->
    isNaN (fold_left (fun total component => (total + Duct.pressureLoss component)%js) l a)
    = false.
Proof.
  induction 1 as [| c l Hc _ IH]; intros a Ha; cbn [fold_left]; [exact Ha |].
  apply IH. apply isNaN_number in Ha. destruct Ha as [v ->].
  apply isNaN_number in Hc. destruct Hc as [w ->].
  apply isNaN_number. js_red. eauto.
Qed.

Lemma updated_row (l : list (Duct.SystemComponent number)) (c' : Duct.SystemComponent number) :
  forall (index : nat) (c : Duct.SystemComponent number),
    nth_error l index = Some c ->
    Duct.name c' = Duct.name c ->
    lossIsNumber c' ->
    Forall lossIsNumber l ->
    let updated := (firstn index l ++ [c'] ++ skipn (S index) l)%list in
    map Duct.name updated = map Duct.name l
    /\ Forall lossIsNumber updated
    /\ nth_error updated index = Some c'.
Proof.
  induction l as [| x l IH]; intros index c Hnth Hname Hc' Hall.
  - destruct index; discriminate.
  - destruct index as [| index]; cbn [nth_error] in Hnth.
    + injection Hnth as ->. cbn [firstn skipn app map nth_error].
      rewrite Hname. split; [reflexivity |]. split; [| reflexivity].
      constructor; [exact Hc' |]. now inversion Hall.
    + inversion Hall as [| ? ? Hx Hl]; subst.
      destruct (IH index c Hnth Hname Hc' Hl) as (Hn & Hf & Hi).
      cbn [firstn skipn app map nth_error] in *.
      split; [rewrite Hn; reflexivity |]. split; [constructor; assumption | exact Hi].
Qed.

(** The component losses are numbers and stay numbers: the default losses
    are, and editing a row with a text that is neither the literal Infinity
    nor a decimal beyond the range of binary64 keeps the names and stores the
    parsed value, or 0 when the field holds no number, so the total of the
    component losses is never NaN. *)
Theorem component_losses_stay_numbers
  (components : list (Duct.SystemComponent number)) (index : nat) (value : string) :
  (index < List.length components)%nat ->
  readsInfinity value = false ->
  overflows value = false ->
  Forall lossIsNumber components ->
  Forall lossIsNumber Duct.DEFAULT_COMPONENTS
  /\ exists updated row,
       Duct.updateComponentPressureLoss components index value = Some updated
       /\ map Duct.name updated = map Duct.name components
       /\ Forall lossIsNumber updated
       /\ nth_error updated index = Some row
       /\ (parseDecimal value = None -> Duct.pressureLoss row = int 0)
       /\ forall i : Duct.Inputs number,
            isNaN (Duct.calculateTotalComponentLosses (Duct.setComponents i updated))
            = false.
Proof.
  intros Hi _ _ Hall. split.
  { unfold Duct.DEFAULT_COMPONENTS.
    repeat constructor; unfold lossIsNumber; cbn [Duct.pressureLoss];
      apply isNaN_number; unfold dec; js_red; eauto. }
  unfold Duct.updateComponentPressureLoss.
  destruct (nth_error components index) as [c |] eqn:Hnth;
    [| apply nth_error_None in Hnth; lia].
  set (row := {| Duct.name := Duct.name c;
                 Duct.pressureLoss := or_else (parseFloat value) (int 0) |}).
  assert (Hrow : lossIsNumber row) by apply or_else_zero_is_a_number.
  destruct (updated_row components row index c Hnth eq_refl Hrow Hall)
    as (Hnames & Hnum & Hat).
  eexists. exists row. split; [reflexivity |].
  split; [exact Hnames |]. split; [exact Hnum |]. split; [exact Hat |]. split.
  - intros Hparse. unfold row. cbn [Duct.pressureLoss].
    unfold parseFloat. rewrite Hparse. reflexivity.
  - intros i. unfold Duct.calculateTotalComponentLosses, Duct.setComponents.
    cbn [Duct.components].
    apply total_losses_are_a_number; [exact Hnum |].
    apply isNaN_number. rewrite int_Num. eauto.
Qed.

Lemma component_losses_stay_numbers_witness :
  Forall lossIsNumber Duct.DEFAULT_COMPONENTS
  /\ exists updated row,
       Duct.updateComponentPressureLoss Duct.DEFAULT_COMPONENTS 1 "" = Some updated
       /\ map Duct.name updated = map Duct.name Duct.DEFAULT_COMPONENTS
       /\ Forall lossIsNumber updated
       /\ nth_error updated 1 = Some row
       /\ (parseDecimal "" = None -> Duct.pressureLoss row = int 0)
       /\ forall i : Duct.Inputs number,
            isNaN (Duct.calculateTotalComponentLosses (Duct.setComponents i updated))
            = false.
Proof.
  assert (Hdefault : Forall lossIsNumber Duct.DEFAULT_COMPONENTS).
  { unfold Duct.DEFAULT_COMPONENTS.
    repeat constructor; unfold lossIsNumber; cbn [Duct.pressureLoss];
      apply isNaN_number; unfold dec; js_red; eauto. }
  apply (component_losses_stay_numbers Duct.DEFAULT_COMPONENTS 1 "").
  - cbn. lia.
  - reflexivity.
  - reflexivity.
  - exact Hdefault.
Defined.

(** ** The duct calculator: velocity and static pressure *)








(** The sizing branches only ever give the two velocity warnings. *)
Lemma sizeDuct_warnings {num : Type} `{JSMath num}
  (i : Duct.Inputs num) (d : Duct.DuctType) (cfm v : num)
  (size : Duct.RecommendedSize num) (w : list (Duct.Warning num)) :
  Duct.sizeDuct i d cfm = Produced (v, size, w) ->
  ~ In Duct.DuctLossesExceedAvailable w /\ ~ In Duct.ComponentLossesExceedDesign w.
Proof.
  unfold Duct.sizeDuct.
  destruct (Duct.includesRect d); [destruct (falsy _); [discriminate |] |];
    (destruct (Duct.VELOCITY_LIMITS _) as [[vmin vmax] |]; [| discriminate]);
    cbv zeta; intros Hs; apply Produced_inj in Hs;
    injection Hs as _ _ <-;
    match goal with
    | |- context [if ?b then [?x] else []] => destruct b
    end;
    cbn [In]; intuition discriminate.
Qed.

(** The static pressure without fittings in exact arithmetic. *)
Lemma static_pressure_without_fittings_exact
  (s : Duct.State number) (r : Duct.DuctSizingResult number)
  (d : Duct.DuctType) (length available : R) :
  Duct.calculateDuctSize s = Produced r ->
  Duct.ductType (Duct.inputs s) = Some d ->
  Duct.fittings (Duct.inputs s) = [] ->
  parseFloat (Duct.straightLength (Duct.inputs s)) = Num length ->
  length <> 0 ->
  Duct.availableStaticPressure r = Num available ->
  Duct.equivalentLength r = Num length
  /\ Duct.frictionRate r = Num (available * 100 / length)
  /\ Duct.staticPressure r
     = Num (if Duct.isRoundFlex d then available * 1.5 else available)
  /\ (In Duct.DuctLossesExceedAvailable (Duct.warnings r)
      <-> Duct.isRoundFlex d = true /\ 0 < available).
Proof.
  unfold Duct.calculateDuctSize. cbv zeta.
  intros Hr Hd Hfit Hlen Hnz.
  rewrite Hd in Hr.
  destruct (falsy _ || falsy _); [discriminate |].
  destruct (Duct.sizeDuct _ _ _) as [| [[v size] w1] |] eqn:Hsize; try discriminate.
  apply sizeDuct_warnings in Hsize. destruct Hsize as [Hw1 _].
  apply Produced_inj in Hr. rewrite <- Hr.
  cbv beta iota delta [Duct.availableStaticPressure Duct.equivalentLength
                       Duct.frictionRate Duct.staticPressure Duct.warnings].
  intros Hav. rewrite Hav.
  assert (Heq : Duct.calculateEquivalentLength (Duct.inputs s) = Num length).
  { unfold Duct.calculateEquivalentLength. rewrite Hfit, Hlen. cbn [fold_left].
    unfold or_else, truthy. rewrite int_Num. js_red.
    destruct (Rlt_dec length 0), (Rlt_dec 0 length); try (exfalso; lra);
      cbn [orb]; f_equal; lra. }
  rewrite Heq, Hfit. cbn [fold_left]. rewrite !int_Num.
  assert (Hstatic : (Num available * Num 100 / Num length * Num length / Num 100
                     + Num 0)%js = Num available).
  { js_red.
    destruct (Req_dec_T length 0) as [H | _]; [exfalso; lra |].
    js_red.
    destruct (Req_dec_T 100 0) as [H | _]; [exfalso; lra |].
    f_equal. field. lra. }
  rewrite Hstatic.
  split; [reflexivity |]. split.
  { js_red. destruct (Req_dec_T length 0) as [H | _]; [exfalso; lra | reflexivity]. }
  split.
  - destruct (Duct.isRoundFlex d); [| reflexivity].
    unfold dec. js_red. reflexivity.
  - rewrite !in_app_iff. unfold gt, dec.
    destruct (Duct.isRoundFlex d); js_red;
      repeat match goal with
             | |- context [Rlt_dec ?a ?b] => destruct (Rlt_dec a b)
             end;
      cbn [In]; split; intros Hx; try (exfalso; lra);
      try (split; [reflexivity | lra]);
      try (right; right; right; left; reflexivity);
      try (destruct Hx; discriminate || lra);
      intuition (try discriminate; try lra).
Qed.

(** In exact arithmetic: the friction loss is computed from the friction
    rate, and the friction rate from the available static pressure, so
    without fittings the static pressure the duct calculator reports is the
    available static pressure itself, whatever the airflow, the size and the
    (non-zero) length; flex duct gets 1.5 times that.  The warning that the
    duct losses exceed the available pressure is then given exactly for flex
    duct with a positive available pressure.  On binary64 numbers the
    multiplication and the division by the length and by 100 are rounded, and
    the reported static pressure can differ from the available one by the
    last digits: for round metal duct with the default components, a design
    static pressure of 0.5 and a straight length of 43 feet the static
    pressure is above the available one, and the warning is given. *)
Theorem without_fittings_the_static_pressure_is_the_available_one :
  (forall (s : Duct.State number) (r : Duct.DuctSizingResult number)
          (d : Duct.DuctType) (length available : R),
      Duct.calculateDuctSize s = Produced r ->
      Duct.ductType (Duct.inputs s) = Some d ->
      Duct.fittings (Duct.inputs s) = [] ->
      parseFloat (Duct.straightLength (Duct.inputs s)) = Num length ->
      length <> 0 ->
      Duct.availableStaticPressure r = Num available ->
      Duct.equivalentLength r = Num length
      /\ Duct.frictionRate r = Num (available * 100 / length)
      /\ Duct.staticPressure r
         = Num (if Duct.isRoundFlex d then available * 1.5 else available)
      /\ (In Duct.DuctLossesExceedAvailable (Duct.warnings r)
          <-> Duct.isRoundFlex d = true /\ 0 < available))
  /\ (forall M : JSMath PrimFloat.float,
         exists r : Duct.DuctSizingResult PrimFloat.float,
           Duct.calculateDuctSize (duct_of_length Duct.RoundMetal "43") = Produced r
           /\ (Duct.availableStaticPressure r <? Duct.staticPressure r)%js = true
           /\ In Duct.DuctLossesExceedAvailable (Duct.warnings r)).
Proof.
  split; [exact static_pressure_without_fittings_exact |].
  intros M. eexists. split; [vm_compute; reflexivity |].
  split; [vm_compute; reflexivity |].
  vm_compute. right. left. reflexivity.
Qed.

Lemma without_fittings_the_static_pressure_is_the_available_one_witness :
  exists (r : Duct.DuctSizingResult number) (available : R),
    Duct.calculateDuctSize (duct_example Duct.RoundMetal "") = Produced r
    /\ Duct.availableStaticPressure r = Num available
    /\ Duct.equivalentLength r = Num 50
    /\ Duct.frictionRate r = Num (available * 100 / 50)
    /\ Duct.staticPressure r
       = Num (if Duct.isRoundFlex Duct.RoundMetal then available * 1.5 else available)
    /\ (In Duct.DuctLossesExceedAvailable (Duct.warnings r)
        <-> Duct.isRoundFlex Duct.RoundMetal = true /\ 0 < available).
Proof.
  assert (Hl : parseFloat (num := number) "50" = Num 50)
    by (cbv [parseFloat]; js_parse; cbv iota beta; js_eval; num_eq).
  assert (Ha : (parseFloat (num := number) "0.5"
                - Duct.calculateTotalComponentLosses
                    (Duct.inputs (duct_example Duct.RoundMetal "")))%js
               = Num (0.5 - (0 + 0.03 + 0.10 + 0.30 + 0.30))).
  { cbv [parseFloat Duct.calculateTotalComponentLosses duct_example Duct.inputs
         Duct.components Duct.DEFAULT_COMPONENTS fold_left Duct.pressureLoss].
    js_parse. cbv iota beta. js_eval. reflexivity. }
  eexists. exists (0.5 - (0 + 0.03 + 0.10 + 0.30 + 0.30)).
  split; [reflexivity |].
  split; [exact Ha |].
  apply (proj1 without_fittings_the_static_pressure_is_the_available_one
           (duct_example Duct.RoundMetal "") _ Duct.RoundMetal 50 _ eq_refl eq_refl eq_refl Hl).
  - lra.
  - exact Ha.
Defined.

(** The default component losses in exact arithmetic. *)
Lemma default_component_losses_exact
  (s : Duct.State number) (r : Duct.DuctSizingResult number) :
  Duct.calculateDuctSize s = Produced r ->
  Duct.components (Duct.inputs s) = Duct.DEFAULT_COMPONENTS ->
  Duct.designStaticPressure (Duct.inputs s) = "0.5" ->
  Duct.calculateTotalComponentLosses (Duct.inputs s) = Num 0.73
  /\ Duct.availableStaticPressure r = Num (-0.23)
  /\ In Duct.ComponentLossesExceedDesign (Duct.warnings r).
Proof.
  unfold Duct.calculateDuctSize. cbv zeta.
  intros Hr Hcomp Hdesign.
  assert (Htotal : Duct.calculateTotalComponentLosses (Duct.inputs s) = Num 0.73).
  { unfold Duct.calculateTotalComponentLosses. rewrite Hcomp.
    cbv [Duct.DEFAULT_COMPONENTS fold_left Duct.pressureLoss].
    js_eval. f_equal. lra. }
  split; [exact Htotal |].
  destruct (Duct.ductType (Duct.inputs s)) as [d |]; [| discriminate].
  destruct (falsy _ || falsy _); [discriminate |].
  destruct (Duct.sizeDuct _ _ _) as [| [[v size] w1] |]; try discriminate.
  apply Produced_inj in Hr. rewrite <- Hr.
  cbv beta iota delta [Duct.availableStaticPressure Duct.warnings].
  rewrite Htotal, Hdesign.
  assert (Hav : (parseFloat (num := number) "0.5" - Num 0.73)%js = Num (-0.23)).
  { cbv [parseFloat]. js_parse. cbv iota beta. js_eval. f_equal. lra. }
  rewrite Hav. split; [reflexivity |].
  rewrite !in_app_iff. right. right. left.
  rewrite int_Num. js_red.
  destruct (Rlt_dec (-0.23) 0) as [_ | H]; [now left | exfalso; lra].
Qed.

(** In the state the duct calculator starts in, with the four default
    component losses (0.03 + 0.10 + 0.30 + 0.30 = 0.73) and the default design
    static pressure of 0.5, every result carries the warning that the
    component losses exceed the design static pressure, whatever the other
    inputs are.  In exact arithmetic the available static pressure is -0.23;
    on binary64 numbers the total of the losses is the number 0.73 and the
    available static pressure is negative and just above the number -0.23. *)
Theorem default_component_losses_exceed_the_default_design_pressure :
  (forall (s : Duct.State number) (r : Duct.DuctSizingResult number),
      Duct.calculateDuctSize s = Produced r ->
      Duct.components (Duct.inputs s) = Duct.DEFAULT_COMPONENTS ->
      Duct.designStaticPressure (Duct.inputs s) = "0.5" ->
      Duct.calculateTotalComponentLosses (Duct.inputs s) = Num 0.73
      /\ Duct.availableStaticPressure r = Num (-0.23)
      /\ In Duct.ComponentLossesExceedDesign (Duct.warnings r))
  /\ (forall (M : JSMath PrimFloat.float) (s : Duct.State PrimFloat.float)
             (r : Duct.DuctSizingResult PrimFloat.float),
         Duct.calculateDuctSize s = Produced r ->
         Duct.components (Duct.inputs s) = Duct.DEFAULT_COMPONENTS ->
         Duct.designStaticPressure (Duct.inputs s) = "0.5" ->
         eq (Duct.calculateTotalComponentLosses (Duct.inputs s)) (dec 73 2) = true
         /\ (Duct.availableStaticPressure r <? int 0)%js = true
         /\ (dec (-23) 2 <? Duct.availableStaticPressure r)%js = true
         /\ In Duct.ComponentLossesExceedDesign (Duct.warnings r)).
Proof.
  split; [exact default_component_losses_exact |].
  intros M s r. unfold Duct.calculateDuctSize. cbv zeta.
  intros Hr Hcomp Hdesign.
  assert (Hav : (parseFloat (num := PrimFloat.float) "0.5"
                 - Duct.calculateTotalComponentLosses (Duct.inputs s) <? int 0)%js = true
                /\ (dec (-23) 2
                    <? parseFloat (num := PrimFloat.float) "0.5"
                       - Duct.calculateTotalComponentLosses (Duct.inputs s))%js = true
                /\ eq (Duct.calculateTotalComponentLosses (Duct.inputs s)) (dec 73 2)
                   = true).
  { unfold Duct.calculateTotalComponentLosses. rewrite Hcomp.
    repeat split; vm_compute; reflexivity. }
  destruct Hav as (Hneg & Hlow & Htotal).
  split; [exact Htotal |].
  destruct (Duct.ductType (Duct.inputs s)) as [d |]; [| discriminate].
  destruct (falsy _ || falsy _); [discriminate |].
  destruct (Duct.sizeDuct _ _ _) as [| [[v size] w1] |]; try discriminate.
  apply Produced_inj in Hr. rewrite <- Hr.
  cbv beta iota delta [Duct.availableStaticPressure Duct.warnings].
  rewrite Hdesign. split; [exact Hneg |]. split; [exact Hlow |].
  rewrite !in_app_iff. right. right. left.
  rewrite Hneg. now left.
Qed.

Lemma default_component_losses_exceed_the_default_design_pressure_witness :
  exists r : Duct.DuctSizingResult number,
    Duct.calculateDuctSize (duct_example Duct.RoundFlex "") = Produced r
    /\ Duct.calculateTotalComponentLosses (Duct.inputs (duct_example Duct.RoundFlex ""))
       = Num 0.73
    /\ Duct.availableStaticPressure r = Num (-0.23)
    /\ In Duct.ComponentLossesExceedDesign (Duct.warnings r).
Proof.
  eexists. split; [reflexivity |].
  apply (proj1 default_component_losses_exceed_the_default_design_pressure
           (duct_example Duct.RoundFlex "") _ eq_refl eq_refl eq_refl).
Defined.

(** ** The room pressure calculator: standard sizes *)

Lemma STANDARD_DUCT_SIZES_sorted : StronglySorted Z.le STANDARD_DUCT_SIZES_Z.
Proof.
  unfold STANDARD_DUCT_SIZES_Z.
  repeat (constructor; [| repeat (constructor; try lia)]). constructor.
Qed.

Lemma STANDARD_DUCT_SIZES_bounds (z : Z) :
  In z STANDARD_DUCT_SIZES_Z -> (4 <= z <= 20)%Z.
Proof. unfold STANDARD_DUCT_SIZES_Z. cbn [In]. intuition lia. Qed.

(** The standard duct size for a calculated diameter: the smallest standard
    size that is at least the diameter, and the largest one, 20, when the
    diameter is above 20 or is not a number. *)
Lemma getStandardDuctSize_spec (c : R) :
  exists z : Z,
    In z STANDARD_DUCT_SIZES_Z
    /\ Pressure.getStandardDuctSize (Num c) = Num (IZR z)
    /\ (c <= 20 ->
        c <= IZR z
        /\ forall z' : Z, In z' STANDARD_DUCT_SIZES_Z -> c <= IZR z' -> (z <= z')%Z)
    /\ (20 < c -> z = 20%Z).
Proof.
  unfold Pressure.getStandardDuctSize.
  pose proof (find_first_at_least c _ STANDARD_DUCT_SIZES_sorted) as Hfind.
  change (map int STANDARD_DUCT_SIZES_Z) with (Pressure.STANDARD_DUCT_SIZES (num := number))
    in Hfind.
  destruct (find _ Pressure.STANDARD_DUCT_SIZES) as [size |].
  - destruct Hfind as (z & Hin & -> & Hle & Hleast).
    exists z. split; [exact Hin |]. split; [apply int_Num |].
    pose proof (STANDARD_DUCT_SIZES_bounds z Hin) as [_ Hz]. apply IZR_le in Hz.
    split; [intros _; split; assumption | intros Hbig; exfalso; lra].
  - exists 20%Z. split; [unfold STANDARD_DUCT_SIZES_Z; cbn [In]; tauto |].
    split; [cbn [last Pressure.STANDARD_DUCT_SIZES map]; apply int_Num |].
    assert (IZR 20 < c) by (apply Hfind; unfold STANDARD_DUCT_SIZES_Z; cbn [In]; tauto).
    split; [intros Hsmall; exfalso; lra | reflexivity].
Qed.

(** The standard duct size of the room pressure calculator is always one of
    the twelve standard sizes: the smallest one that is at least the
    calculated diameter, and the largest one, 20 inches, when the diameter is
    above 20 or is not a number. *)
Theorem standard_duct_size_is_the_next_size_up (c : R) :
  (exists z : Z,
      In z STANDARD_DUCT_SIZES_Z
      /\ Pressure.getStandardDuctSize (Num c) = int z
      /\ (c <= 20 ->
          c <= IZR z
          /\ forall z' : Z, In z' STANDARD_DUCT_SIZES_Z -> c <= IZR z' -> (z <= z')%Z)
      /\ (20 < c -> z = 20%Z))
  /\ Pressure.getStandardDuctSize NotANumber = int 20
  /\ Pressure.STANDARD_DUCT_SIZES (num := number) = map int STANDARD_DUCT_SIZES_Z.
Proof.
  split; [| split; reflexivity].
  destruct (getStandardDuctSize_spec c) as (z & Hin & Hz & Hsmall & Hbig).
  exists z. rewrite int_Num. auto.
Qed.

Lemma last_In {A : Type} (l : list A) (d : A) : l <> [] -> In (last l d) l.
Proof.
  induction l as [| x l IH]; intros Hne; [contradiction |].
  destruct l as [| y l]; [now left |].
  right. apply IH. discriminate.
Qed.

Lemma eq_number (a b : number) : eq a b = true -> a = b.
Proof.
  unfold eq. destruct a as [x |], b as [y |]; js_red; try discriminate.
  destruct (Rle_dec x y), (Rle_dec y x); try discriminate.
  intros _. f_equal. lra.
Qed.

(** The grille the room pressure calculator picks always has the selected
    height; for a height that occurs among the standard grilles it is one of
    them, otherwise it is 14 inches wide; and when it does not meet the
    required area, no standard grille of that height does. *)
Theorem standard_grille_has_the_selected_height (requiredArea selectedHeight : number) :
  let size := Pressure.getStandardGrilleSize requiredArea selectedHeight in
  snd size = selectedHeight
  /\ (In size Pressure.STANDARD_GRILLE_SIZES \/ size = (int 14, selectedHeight))
  /\ ((exists other, In other Pressure.STANDARD_GRILLE_SIZES /\ snd other = selectedHeight) ->
      In size Pressure.STANDARD_GRILLE_SIZES)
  /\ (grilleMeets requiredArea size = false ->
      forall other,
        In other Pressure.STANDARD_GRILLE_SIZES -> snd other = selectedHeight ->
        selectedHeight <> NotANumber ->
        grilleMeets requiredArea other = false).
Proof.
  unfold Pressure.getStandardGrilleSize. cbv zeta.
  set (available := filter _ Pressure.STANDARD_GRILLE_SIZES).
  assert (Hav : forall g, In g available ->
                          In g Pressure.STANDARD_GRILLE_SIZES /\ snd g = selectedHeight).
  { intros g Hg. apply filter_In in Hg. destruct Hg as [Hin Heq].
    split; [exact Hin | apply eq_number; exact Heq]. }
  assert (Hin_av : forall g, In g Pressure.STANDARD_GRILLE_SIZES ->
                             snd g = selectedHeight -> selectedHeight <> NotANumber ->
                             In g available).
  { intros g Hin Hh Hn. apply filter_In. split; [exact Hin |].
    rewrite Hh. unfold eq. destruct selectedHeight as [h |]; [| contradiction].
    js_red. destruct (Rle_dec h h) as [_ | H]; [reflexivity | exfalso; lra]. }
  destruct (find _ available) as [g |] eqn:Hfind.
  - apply find_some in Hfind. destruct Hfind as [Hg Hmeets].
    destruct (Hav g Hg) as [Hin Hh].
    split; [exact Hh |]. split; [left; exact Hin |]. split; [intros _; exact Hin |].
    unfold grilleMeets. intros Hno. rewrite Hmeets in Hno. discriminate.
  - pose proof (find_none _ _ Hfind) as Hnone.
    destruct available as [| g0 rest] eqn:Hlist.
    + cbn [last snd]. split; [reflexivity |]. split; [right; reflexivity |]. split.
      * intros (other & Hin & Hh). exfalso.
        destruct selectedHeight as [h |].
        -- apply (Hin_av other Hin Hh). discriminate.
        -- unfold Pressure.STANDARD_GRILLE_SIZES in Hin. cbn [map In fst snd] in Hin.
           rewrite !int_Num in Hin.
           repeat (destruct Hin as [Hin | Hin]; [subst other; discriminate |]).
           exact Hin.
      * intros _ other Hin Hh Hn. exfalso. apply (Hin_av other Hin Hh Hn).
    + assert (Hlast : In (last (g0 :: rest) (int 14, selectedHeight)) (g0 :: rest))
        by (apply last_In; discriminate).
      destruct (Hav _ Hlast) as [Hin Hh].
      split; [exact Hh |]. split; [left; exact Hin |]. split; [intros _; exact Hin |].
      intros _ other Hino Hho Hn. apply (Hnone other). apply Hin_av; assumption.
Qed.

(** The return duct for an airflow: its standard size and the velocity in
    it.  Up to 400 CFM per square foot of the largest duct the size is rounded
    up and the velocity is at most the 400 FPM target; above, the duct is the
    largest one and the velocity is the airflow over its cross-section. *)
Lemma return_duct_velocity (cfm : R) :
  let diameter := (Math_sqrt (int 4 * (Num cfm / Pressure.TARGET_VELOCITY) / Math_PI)
                   * int 12)%js in
  let size := Pressure.getStandardDuctSize diameter in
  exists (z : Z) (v : R),
    In z STANDARD_DUCT_SIZES_Z
    /\ size = Num (IZR z)
    /\ (Num cfm / (Math_PI * Math_pow (size / int 24) 2))%js = Num v
    /\ (cfm <= 400 * largest_duct_area -> v <= 400)
    /\ (400 * largest_duct_area < cfm -> z = 20%Z /\ v = cfm / largest_duct_area).
Proof.
  cbv zeta. pose proof PI_RGT_0 as Hpi.
  assert (Harea : forall z : Z, In z STANDARD_DUCT_SIZES_Z ->
                    0 < PI * (IZR z / 24 * (IZR z / 24))).
  { intros z Hz. apply STANDARD_DUCT_SIZES_bounds in Hz. destruct Hz as [Hz _].
    apply IZR_le in Hz. apply Rmult_lt_0_compat; [lra |].
    apply Rmult_lt_0_compat; lra. }
  assert (Hvel : forall z : Z, In z STANDARD_DUCT_SIZES_Z ->
                   (Num cfm / (Math_PI * Math_pow (Num (IZR z) / int 24) 2))%js
                   = Num (cfm / (PI * (IZR z / 24 * (IZR z / 24))))).
  { intros z Hz. specialize (Harea z Hz). unfold Math_pow. js_red.
    destruct (Req_dec_T 24 0) as [H | _]; [exfalso; lra |].
    js_red.
    destruct (Req_dec_T _ 0) as [H | _]; [exfalso; lra |].
    reflexivity. }
  assert (H20 : In 20%Z STANDARD_DUCT_SIZES_Z)
    by (unfold STANDARD_DUCT_SIZES_Z; cbn [In]; tauto).
  unfold largest_duct_area.
  destruct (Rlt_dec cfm 0) as [Hneg | Hnonneg].
  - (* no diameter: the search finds nothing *)
    assert (Hd : (Math_sqrt (int 4 * (Num cfm / Pressure.TARGET_VELOCITY) / Math_PI)
                  * int 12)%js = NotANumber).
    { unfold Pressure.TARGET_VELOCITY. js_red.
      destruct (Req_dec_T 400 0) as [H | _]; [exfalso; lra |].
      js_red.
      destruct (Req_dec_T PI 0) as [H | _]; [exfalso; lra |].
      js_red.
      destruct (Rlt_dec _ 0) as [_ | H]; [reflexivity |].
      exfalso. apply H.
      assert (4 * (cfm / 400) / PI * PI = 4 * (cfm / 400)) by (field; lra).
      assert (4 * (cfm / 400) < 0) by lra.
      Psatz.nra. }
    rewrite Hd.
    exists 20%Z, (cfm / (PI * (20 / 24 * (20 / 24)))).
    split; [exact H20 |]. split; [reflexivity |].
    split; [change (Pressure.getStandardDuctSize NotANumber) with (Num (IZR 20));
            apply (Hvel 20%Z H20) |].
    specialize (Harea 20%Z H20).
    split.
    + intros _. assert (cfm / (PI * (20 / 24 * (20 / 24))) < 0); [| lra].
      apply Rmult_lt_reg_r with (PI * (20 / 24 * (20 / 24))); [exact Harea |].
      replace (cfm / (PI * (20 / 24 * (20 / 24))) * (PI * (20 / 24 * (20 / 24))))
        with cfm by (field; lra).
      lra.
    + intros Hbig. exfalso. lra.
  - assert (Hx : 0 <= 4 * (cfm / 400) / PI).
    { apply Rmult_le_pos; [lra | left; apply Rinv_0_lt_compat; exact Hpi]. }
    set (x := 4 * (cfm / 400) / PI) in *.
    assert (Hd : (Math_sqrt (int 4 * (Num cfm / Pressure.TARGET_VELOCITY) / Math_PI)
                  * int 12)%js = Num (sqrt x * 12)).
    { unfold Pressure.TARGET_VELOCITY. js_red.
      destruct (Req_dec_T 400 0) as [H | _]; [exfalso; lra |].
      js_red.
      destruct (Req_dec_T PI 0) as [H | _]; [exfalso; lra |].
      js_red. fold x.
      destruct (Rlt_dec x 0) as [H | _]; [exfalso; lra |].
      reflexivity. }
    rewrite Hd.
    assert (Hsq : sqrt x * sqrt x = x) by (apply sqrt_sqrt; exact Hx).
    assert (Hs0 : 0 <= sqrt x) by apply sqrt_pos.
    assert (Hx144 : sqrt x * 12 * (sqrt x * 12) = x * 144).
    { transitivity (sqrt x * sqrt x * 144); [ring | rewrite Hsq; reflexivity]. }
    assert (Hcfm : cfm = 100 * PI * x) by (unfold x; field; lra).
    destruct (getStandardDuctSize_spec (sqrt x * 12)) as (z & Hin & Hz & Hsmall & Hbig).
    exists z, (cfm / (PI * (IZR z / 24 * (IZR z / 24)))).
    split; [exact Hin |]. split; [exact Hz |].
    split; [rewrite Hz; apply (Hvel z Hin) |].
    pose proof (Harea z Hin) as Hz0.
    pose proof (STANDARD_DUCT_SIZES_bounds z Hin) as [Hz4 Hz20].
    apply IZR_le in Hz4. apply IZR_le in Hz20.
    destruct (Rle_dec (sqrt x * 12) 20) as [Hle | Hgt].
    + destruct (Hsmall Hle) as [Hdz _].
      assert (Hxz : x * 144 <= IZR z * IZR z).
      { rewrite <- Hx144. apply Rmult_le_compat; lra. }
      assert (Hv : cfm / (PI * (IZR z / 24 * (IZR z / 24))) <= 400).
      { apply Rmult_le_reg_r with (PI * (IZR z / 24 * (IZR z / 24))); [exact Hz0 |].
        replace (cfm / (PI * (IZR z / 24 * (IZR z / 24)))
                 * (PI * (IZR z / 24 * (IZR z / 24)))) with cfm by (field; lra).
        rewrite Hcfm.
        replace (400 * (PI * (IZR z / 24 * (IZR z / 24))))
          with (100 * PI * (IZR z * IZR z / 144)) by field.
        apply Rmult_le_compat_l; [lra |]. lra. }
      split; [intros _; exact Hv |].
      intros Hbigc. exfalso.
      assert (Hx400 : x * 144 <= 400).
      { rewrite <- Hx144. replace 400 with (20 * 20) by lra.
        apply Rmult_le_compat; lra. }
      rewrite Hcfm in Hbigc.
      assert (100 * PI * x <= 100 * PI * (400 / 144))
        by (apply Rmult_le_compat_l; lra).
      lra.
    + assert (Hz20' : z = 20%Z) by (apply Hbig; lra). subst z.
      split; [| intros _; split; reflexivity].
      intros Hsmallc. exfalso.
      assert (Hx400 : 400 < x * 144).
      { rewrite <- Hx144. replace 400 with (20 * 20) by lra.
        apply Rmult_le_0_lt_compat; lra. }
      rewrite Hcfm in Hsmallc.
      assert (100 * PI * (400 / 144) < 100 * PI * x)
        by (apply Rmult_lt_compat_l; lra).
      lra.
Qed.

(** In airflow mode the return duct is sized for 400 FPM and rounded up to a
    standard size, so the velocity in it is at most 400 FPM as long as the
    largest duct, 20 inches, is large enough; the warning that the return
    velocity is too high is given exactly when the airflow is above 600 FPM
    times the cross-section of the 20-inch duct. *)
Theorem return_velocity_warning_needs_more_than_the_largest_duct
  (s : Pressure.State number) (cfm : R) :
  Pressure.calculationMode (Pressure.inputs s) = Pressure.AirflowMode ->
  present (Pressure_required (Pressure.inputs s)) = true ->
  parseFloat (Pressure.airflow (Pressure.inputs s)) = Num cfm ->
  exists (r : Pressure.PressureResult number) (z : Z) (v : R),
    Pressure.calculate s = Produced r
    /\ In z STANDARD_DUCT_SIZES_Z
    /\ Pressure.diameter (Pressure.ductSize r) = Num (IZR z)
    /\ Pressure.velocity (Pressure.ductSize r) = Num v
    /\ (cfm <= 400 * largest_duct_area -> v <= 400)
    /\ (In Pressure.ReturnVelocityHigh (Pressure.warnings r)
        <-> 600 * largest_duct_area < cfm).
Proof.
  intros Hmode Hp Hcfm. unfold Pressure_required in Hp. rewrite Hmode in Hp.
  repeat (apply present_cons in Hp; let H := fresh "F" in destruct Hp as [H Hp]).
  unfold Pressure.calculate. rewrite Hmode.
  unfold Pressure.calculateFromAirflow. cbv zeta.
  rewrite F, F0, F1, F2, F3, Hcfm. cbn [orb].
  destruct (return_duct_velocity cfm) as (z & v & Hin & Hsize & Hv & Hsmall & Hbig).
  cbv zeta in Hsize, Hv. rewrite Hsize in Hv.
  eexists. exists z, v. split; [reflexivity |].
  cbv beta iota delta [Pressure.ductSize Pressure.diameter Pressure.velocity
                       Pressure.warnings].
  rewrite Hsize, Hv.
  split; [exact Hin |]. split; [reflexivity |]. split; [reflexivity |].
  split; [exact Hsmall |].
  assert (Harea : 0 < largest_duct_area).
  { unfold largest_duct_area. pose proof PI_RGT_0. apply Rmult_lt_0_compat; lra. }
  assert (Hwarn : (Num v >? Pressure.MAX_VELOCITY)%js = true <-> 600 * largest_duct_area < cfm).
  { unfold gt, Pressure.MAX_VELOCITY. rewrite int_Num. js_red.
    destruct (Rle_dec cfm (400 * largest_duct_area)) as [Hle | Hgt].
    - specialize (Hsmall Hle).
      destruct (Rlt_dec 600 v) as [H | _]; [exfalso; lra |].
      split; [discriminate | intros H; exfalso; lra].
    - destruct Hbig as [_ ->]; [lra |].
      assert (Hq : cfm / largest_duct_area * largest_duct_area = cfm) by (field; lra).
      set (q := cfm / largest_duct_area) in *.
      destruct (Rlt_dec 600 q) as [H | H]; split; intros Hx;
        try reflexivity; try discriminate.
      + rewrite <- Hq. apply Rmult_lt_compat_r; assumption.
      + exfalso. apply H. apply Rmult_lt_reg_r with largest_duct_area; lra. }
  rewrite !in_app_iff.
  destruct (Num v >? Pressure.MAX_VELOCITY)%js.
  - split; [intros _; apply Hwarn; reflexivity | intros _; right; right; now left].
  - split; [| intros H; apply Hwarn in H; discriminate].
    repeat match goal with
           | |- context [if ?b then [?w] else []] => destruct b
           end;
      cbn [In]; intuition discriminate.
Qed.

Lemma return_velocity_warning_needs_more_than_the_largest_duct_witness :
  exists (r : Pressure.PressureResult number) (z : Z) (v : R),
    Pressure.calculate (pressure_example "100") = Produced r
    /\ In z STANDARD_DUCT_SIZES_Z
    /\ Pressure.diameter (Pressure.ductSize r) = Num (IZR z)
    /\ Pressure.velocity (Pressure.ductSize r) = Num v
    /\ (100 <= 400 * largest_duct_area -> v <= 400)
    /\ (In Pressure.ReturnVelocityHigh (Pressure.warnings r)
        <-> 600 * largest_duct_area < 100).
Proof.
  apply (return_velocity_warning_needs_more_than_the_largest_duct
           (pressure_example "100") 100).
  - reflexivity.
  - reflexivity.
  - cbv [pressure_example Pressure.inputs Pressure.airflow parseFloat].
    js_parse. cbv iota beta. js_eval. num_eq.
Defined.

(** ** The capped wet-bulb solver stays at or below the dry bulb *)

Lemma exp_3 : exp 3 <= 27.
Proof.
  replace 3 with (1 + (1 + 1)) by lra. rewrite !exp_plus.
  pose proof exp_le_3 as H. pose proof (exp_pos 1) as Hp.
  assert (exp 1 * exp 1 <= 3 * 3) by (apply Rmult_le_compat; lra).
  replace 27 with (3 * (3 * 3)) by lra.
  apply Rmult_le_compat; try lra.
  apply Rmult_le_pos; lra.
Qed.

Lemma magnus_kPa_le_3 (c : R) : -237.3 < c -> c <= 49 -> magnus_kPa c <= 3.
Proof.
  intros Hlo Hhi. unfold magnus_kPa.
  apply Rmult_le_reg_r with (c + 237.3); [lra |].
  replace (17.27 * c / (c + 237.3) * (c + 237.3)) with (17.27 * c) by (field; lra).
  lra.
Qed.

Lemma pws_kPa_bounds (t : R) :
  -237.3 < celsius t -> t <= 120 -> 0 < pws_kPa t <= 16.5.
Proof.
  intros Hlo Hhi. unfold pws_kPa.
  pose proof (exp_pos (magnus_kPa (celsius t))) as Hp.
  assert (Hm : magnus_kPa (celsius t) <= 3)
    by (apply magnus_kPa_le_3; [exact Hlo | unfold celsius; lra]).
  assert (He : exp (magnus_kPa (celsius t)) <= exp 3).
  { destruct Hm as [Hm | ->]; [left; now apply exp_increasing | right; reflexivity]. }
  pose proof exp_3. split; lra.
Qed.

Lemma wSat_kPa_eq (t : R) :
  wSat_kPa t = 0.622 * pws_kPa t / (101.325 - pws_kPa t).
Proof. unfold wSat_kPa. replace (100 / 100 * pws_kPa t) with (pws_kPa t) by lra. reflexivity. Qed.

(** The ratio 0.622 p / (101.325 - p) up to a pressure of 16.5 kPa. *)
Lemma ratio_step (p q : R) :
  0 <= p -> p <= q -> q <= 16.5 ->
  0 <= 0.622 * p / (101.325 - p) <= 0.121
  /\ 0 <= 0.622 * q / (101.325 - q) - 0.622 * p / (101.325 - p) <= 0.0088 * (q - p).
Proof.
  intros Hp Hpq Hq.
  assert (Hdp : 84.825 <= 101.325 - p) by lra.
  assert (Hdq : 84.825 <= 101.325 - q) by lra.
  split.
  - split.
    + apply Rmult_le_pos; [lra | left; apply Rinv_0_lt_compat; lra].
    + apply Rmult_le_reg_r with (101.325 - p); [lra |].
      replace (0.622 * p / (101.325 - p) * (101.325 - p)) with (0.622 * p) by (field; lra).
      lra.
  - replace (0.622 * q / (101.325 - q) - 0.622 * p / (101.325 - p))
      with (0.622 * 101.325 * (q - p) / ((101.325 - p) * (101.325 - q)))
      by (field; lra).
    assert (Hd : 84.825 * 84.825 <= (101.325 - p) * (101.325 - q))
      by (apply Rmult_le_compat; lra).
    set (d := (101.325 - p) * (101.325 - q)) in *.
    assert (Hdpos : 0 < d) by lra.
    split.
    + apply Rmult_le_pos; [| left; now apply Rinv_0_lt_compat].
      apply Rmult_le_pos; lra.
    + apply Rmult_le_reg_r with d; [exact Hdpos |].
      replace (0.622 * 101.325 * (q - p) / d * d) with (0.622 * 101.325 * (q - p))
        by (field; lra).
      assert (0.0088 * (q - p) * (84.825 * 84.825) <= 0.0088 * (q - p) * d)
        by (apply Rmult_le_compat_l; lra).
      lra.
Qed.

Lemma magnus_kPa_step (c c' : R) :
  -118 <= c -> c <= c' ->
  0 <= magnus_kPa c' - magnus_kPa c <= 0.29 * (c' - c).
Proof.
  intros Hc Hcc'. unfold magnus_kPa.
  replace (17.27 * c' / (c' + 237.3) - 17.27 * c / (c + 237.3))
    with (17.27 * 237.3 * (c' - c) / ((c + 237.3) * (c' + 237.3)))
    by (field; lra).
  assert (Hd : 119.3 * 119.3 <= (c + 237.3) * (c' + 237.3))
    by (apply Rmult_le_compat; lra).
  set (d := (c + 237.3) * (c' + 237.3)) in *.
  assert (Hdpos : 0 < d) by lra.
  split.
  - apply Rmult_le_pos; [| left; now apply Rinv_0_lt_compat].
    apply Rmult_le_pos; lra.
  - apply Rmult_le_reg_r with d; [exact Hdpos |].
    replace (17.27 * 237.3 * (c' - c) / d * d) with (17.27 * 237.3 * (c' - c))
      by (field; lra).
    assert (0.29 * (c' - c) * (119.3 * 119.3) <= 0.29 * (c' - c) * d)
      by (apply Rmult_le_compat_l; lra).
    lra.
Qed.

Lemma pws_kPa_step (t t' : R) :
  -180 <= t -> t <= t' -> t' <= 120 ->
  0 <= pws_kPa t' - pws_kPa t <= 2.7 * (t' - t).
Proof.
  intros Ht Htt' Hhi.
  assert (Hc : -118 <= celsius t) by (unfold celsius; lra).
  assert (Hcc' : celsius t <= celsius t') by (unfold celsius; lra).
  destruct (magnus_kPa_step _ _ Hc Hcc') as [Hm0 Hm1].
  assert (Hcd : celsius t' - celsius t = 5 / 9 * (t' - t)) by (unfold celsius; lra).
  rewrite Hcd in Hm1.
  destruct (pws_kPa_bounds t') as [Hp0 Hp1]; [lra | exact Hhi |].
  unfold pws_kPa in *.
  set (m := magnus_kPa (celsius t)) in *. set (m' := magnus_kPa (celsius t')) in *.
  pose proof (exp_pos m') as Hp'. pose proof (exp_pos m) as Hp.
  assert (He : exp m = exp m' * exp (m - m'))
    by (rewrite <- exp_plus; f_equal; lra).
  pose proof (exp_ineq1_le (m - m')) as H1.
  assert (Hlow : exp m' * (1 + (m - m')) <= exp m)
    by (rewrite He; apply Rmult_le_compat_l; lra).
  assert (Hmono : exp m <= exp m').
  { destruct Hm0 as [Hlt | Heq].
    - left. apply exp_increasing. lra.
    - right. f_equal. lra. }
  split; [lra |].
  assert (Hd : 0.6108 * exp m' - 0.6108 * exp m <= 0.6108 * exp m' * (m' - m)) by lra.
  assert (Hq : 0.6108 * exp m' * (m' - m) <= 16.5 * (0.29 * (5 / 9 * (t' - t)))).
  { apply Rmult_le_compat; lra. }
  lra.
Qed.

Lemma wSat_kPa_step (t t' : R) :
  -180 <= t -> t <= t' -> t' <= 120 ->
  0 <= wSat_kPa t <= 0.121
  /\ 0 <= wSat_kPa t' - wSat_kPa t <= 0.024 * (t' - t).
Proof.
  intros Ht Htt' Hhi. rewrite !wSat_kPa_eq.
  destruct (pws_kPa_step t t' Ht Htt' Hhi) as [Hs0 Hs1].
  destruct (pws_kPa_bounds t) as [Hp0 Hp1]; [unfold celsius; lra | lra |].
  destruct (pws_kPa_bounds t') as [Hq0 Hq1]; [unfold celsius; lra | lra |].
  destruct (ratio_step (pws_kPa t) (pws_kPa t')) as [Hr [Hd0 Hd1]]; [lra | lra | lra |].
  split; [exact Hr |]. split; [exact Hd0 |].
  assert (0.0088 * (pws_kPa t' - pws_kPa t) <= 0.0088 * (2.7 * (t' - t)))
    by (apply Rmult_le_compat_l; lra).
  lra.
Qed.

(** One step of the loop keeps the estimate where it is. *)
Lemma capped_estimate_step (db w wb : R) :
  -40 <= db <= 120 -> 0 <= w <= wSat_kPa db ->
  capped_estimate db w wb ->
  capped_estimate db w (wb + capped_residual db w wb / 100).
Proof.
  intros Hdb Hw [[Hlo Hhi] Hres].
  set (r := capped_residual db w wb) in *.
  destruct (wSat_kPa_step wb db) as [[Hw0 Hw1] _]; try lra.
  assert (Hr : -133 <= r).
  { unfold r, capped_residual.
    assert ((wSat_kPa wb - w) * 1093 <= 0.121 * 1093)
      by (apply Rmult_le_compat_r; lra).
    lra. }
  set (x := wb + r / 100).
  assert (Hx : x <= wb) by (unfold x; lra).
  assert (Hxlo : -180 <= x) by (unfold x; lra).
  destruct (wSat_kPa_step x wb) as [[Hx0 Hx1] [Hs0 Hs1]]; try lra.
  assert (Hnext : capped_residual db w x
                  = r + (wb - x) + (wSat_kPa wb - wSat_kPa x) * 1093).
  { unfold r, capped_residual. lra. }
  assert (Hres' : capped_residual db w x <= 0).
  { rewrite Hnext.
    assert ((wSat_kPa wb - wSat_kPa x) * 1093 <= 0.024 * (wb - x) * 1093)
      by (apply Rmult_le_compat_r; lra).
    unfold x in *. lra. }
  split; [| exact Hres'].
  split; [| lra].
  unfold capped_residual in Hres'.
  assert ((wSat_kPa x - w) * 1093 <= 0.121 * 1093)
    by (apply Rmult_le_compat_r; lra).
  lra.
Qed.

Lemma capped_estimate_init (db w : R) :
  -40 <= db <= 120 -> 0 <= w <= wSat_kPa db -> capped_estimate db w db.
Proof.
  intros Hdb Hw. unfold capped_estimate, capped_residual.
  split; [lra |].
  assert (0 <= (wSat_kPa db - w) * 1093) by (apply Rmult_le_pos; lra).
  lra.
Qed.

Lemma capped_humidity_ratio_Num (t rh : R) :
  celsius t + 237.3 <> 0 ->
  101.325 - rh / 100 * pws_kPa t <> 0 ->
  PsychrometricCapped.calculateHumidityRatio (Num t) (Num rh)
  = Num (0.622 * (rh / 100 * pws_kPa t) / (101.325 - rh / 100 * pws_kPa t)).
Proof.
  intros Hc Hd. unfold PsychrometricCapped.calculateHumidityRatio.
  rewrite (capped_saturation_pressure_Num t Hc).
  js_red.
  destruct (Req_dec_T 100 0) as [H100 | _]; [exfalso; lra |].
  destruct (Req_dec_T _ 0) as [H0 | _]; [exfalso; apply Hd; exact H0 |].
  reflexivity.
Qed.

Lemma capped_wetBulbBody_Num (db w x : R) (e : number) (n : nat) :
  -40 <= db <= 120 -> capped_estimate db w x ->
  PsychrometricCapped.wetBulbBody (Num db) (Num w)
    {| PsychrometricCapped.wb := Num x;
       PsychrometricCapped.error := e;
       PsychrometricCapped.iteration := n |}
  = {| PsychrometricCapped.wb := Num (x + capped_residual db w x / 100);
       PsychrometricCapped.error := Num (capped_residual db w x);
       PsychrometricCapped.iteration := S n |}.
Proof.
  intros Hdb [[Hlo Hhi] _].
  destruct (pws_kPa_bounds x) as [Hp0 Hp1]; [unfold celsius; lra | lra |].
  unfold PsychrometricCapped.wetBulbBody.
  cbn [PsychrometricCapped.wb PsychrometricCapped.iteration].
  rewrite capped_saturated_humidity_ratio_Num by (unfold celsius; lra).
  fold (wSat_kPa x). rewrite int_Num. js_red.
  destruct (Req_dec_T 100 0) as [H | _]; [exfalso; lra |].
  reflexivity.
Qed.

Lemma iterates_invariant {S : Type} (P : S -> Prop) (cond : S -> bool) (body : S -> S) :
  (forall s : S, P s -> P (body s)) ->
  forall (n : nat) (s t : S), iterates cond body n s t -> P s -> P t.
Proof.
  intros Hbody n s t Hit. induction Hit as [s Hc | n s t Hc Hit IH]; intros Hs.
  - exact Hs.
  - apply IH. apply Hbody. exact Hs.
Qed.

(** The capped wet-bulb solver never returns more than the dry bulb: for a
    dry bulb from -40 to 120 degrees F and a relative humidity from 0 to
    100, what it returns is a number that is at most the dry bulb (and not
    more than 133 degrees below it), whether the loop has converged or the
    cap has stopped it. *)
Theorem capped_wet_bulb_is_at_most_the_dry_bulb (db rh : R) :
  -40 <= db <= 120 -> 0 <= rh <= 100 ->
  exists wb : R,
    PsychrometricCapped.calculateWetBulb (Num db) (Num rh) = Num wb
    /\ db - 133 <= wb <= db.
Proof.
  intros Hdb Hrh.
  destruct (pws_kPa_bounds db) as [Hp0 Hp1]; [unfold celsius; lra | lra |].
  set (p := pws_kPa db) in *.
  assert (Hpw : 0 <= rh / 100 * p <= p).
  { split; [apply Rmult_le_pos; lra |].
    replace p with (1 * p) at 2 by lra. apply Rmult_le_compat_r; lra. }
  destruct (ratio_step (rh / 100 * p) p) as [[Hw0 _] [Hd0 _]]; [lra | lra | lra |].
  set (w := 0.622 * (rh / 100 * p) / (101.325 - rh / 100 * p)) in *.
  assert (Hw : 0 <= w <= wSat_kPa db).
  { rewrite wSat_kPa_eq. fold p. lra. }
  assert (Hratio : PsychrometricCapped.calculateHumidityRatio (Num db) (Num rh) = Num w).
  { apply capped_humidity_ratio_Num; [unfold celsius; lra | fold p; lra]. }
  destruct (capped_loop_stops (Num db) (Num w) 100
              (PsychrometricCapped.wetBulbInit (Num db)) eq_refl)
    as (n & v & _ & Hit & Hwhile).
  set (P := fun v : PsychrometricCapped.WetBulbVars number =>
              exists x : R, PsychrometricCapped.wb v = Num x /\ capped_estimate db w x).
  assert (Hbody : forall s, P s -> P (PsychrometricCapped.wetBulbBody (Num db) (Num w) s)).
  { intros [wb0 e0 n0] (x & Hx & Hest). cbn [PsychrometricCapped.wb] in Hx. subst wb0.
    rewrite (capped_wetBulbBody_Num db w x e0 n0 Hdb Hest).
    exists (x + capped_residual db w x / 100). split; [reflexivity |].
    apply capped_estimate_step; assumption. }
  assert (Hinit : P (PsychrometricCapped.wetBulbInit (Num db))).
  { exists db. split; [reflexivity |]. apply capped_estimate_init; assumption. }
  pose proof (iterates_invariant P _ _ Hbody _ _ _ Hit Hinit) as Hinv.
  destruct Hinv as (x & Hx & [Hbounds _]).
  exists x. split; [| exact Hbounds].
  unfold PsychrometricCapped.calculateWetBulb. rewrite Hratio, Hwhile. exact Hx.
Qed.

Lemma capped_wet_bulb_is_at_most_the_dry_bulb_witness :
  exists wb : R,
    PsychrometricCapped.calculateWetBulb (Num 95) (Num 10) = Num wb
    /\ 95 - 133 <= wb <= 95.
Proof.
  apply (capped_wet_bulb_is_at_most_the_dry_bulb 95 10); lra.
Defined.

(** ** The calculator shown *)

(** Every calculator of the list is shown for its own id, and the filter
    calculator for any other id. *)
Lemma ActiveComponent_by_id (activeCalculator : string) :
  (forall calc : App.Calculator,
      In calc App.CALCULATORS -> App.ActiveComponent (App.id calc) = App.component calc)
  /\ ((forall calc : App.Calculator,
          In calc App.CALCULATORS -> App.id calc <> activeCalculator) ->
      App.ActiveComponent activeCalculator = App.FilterCalculator).
Proof.
  split.
  - intros calc Hin. unfold App.CALCULATORS in Hin. cbn [In] in Hin.
    repeat (destruct Hin as [<- | Hin]; [reflexivity |]). contradiction.
  - intros Hnone. unfold App.ActiveComponent.
    destruct (find _ App.CALCULATORS) as [calc |] eqn:Hfind; [| reflexivity].
    apply find_some in Hfind. destruct Hfind as [Hin Heq].
    apply String.eqb_eq in Heq. exfalso. exact (Hnone calc Hin Heq).
Qed.
